(** * Ursus data logger: a shallow embedding of [ursus_data_logger.py]

    The development follows the Python module top to bottom.  The Python
    runtime pieces the module leans on are modelled first: [float] with
    [str], [decimal.Decimal] built from a string, ordered dictionaries,
    [datetime.isoformat]; then the three dataclasses, the DynamoDB tables
    behind the boto3 resource API, and [UrsusDataLogger] itself.  Theorems
    come after all definitions. *)

From Stdlib Require Import ZArith NArith List String Ascii Bool Lia.
From Stdlib Require Import Floats.SpecFloat.
From Stdlib Require Import Sorting.Sorted Sorting.Permutation.
From Stdlib Require Import Numbers.DecimalString Numbers.DecimalN Numbers.DecimalPos.
Import ListNotations.
Open Scope Z_scope.

(* ================================================================== *)
(** ** Exceptions and the result of a call *)

(** The exception classes that can reach the [except Exception] handlers of
    the module.  All of them derive from [Exception]. *)
Inductive exn : Type :=
| TypeError
| InvalidOperation                      (* decimal.InvalidOperation *)
| OverflowError
| AttributeError (name : string)        (* the object has no attribute [name] *)
| EndpointConnectionError               (* botocore: the store is unreachable *)
| ClientError (code : string).          (* botocore: the store answered with an error *)

Inductive result (A : Type) : Type :=
| Ok (a : A)
| Raise (e : exn).
Arguments Ok {A} a.
Arguments Raise {A} e.

Definition bind {A B} (r : result A) (k : A -> result B) : result B :=
  match r with
  | Ok a => k a
  | Raise e => Raise e
  end.

Notation "x <- c ;; k" := (bind c (fun x => k))
  (at level 61, c at next level, right associativity).

Definition raises {A} (r : result A) : bool :=
  match r with Ok _ => false | Raise _ => true end.

(* ================================================================== *)
(** ** Python [float] and [str(float)] *)

Module PyFloat.

(** A Python float is an IEEE-754 binary64 value. *)
Definition float := spec_float.
Definition prec := 53.
Definition emax := 1024.
Definition is_binary64 (x : float) : bool := valid_binary prec emax x.

Definition of_Z (z : Z) : float := binary_normalize prec emax z 0 false.
Definition div (x y : float) : float := SFdiv prec emax x y.
(** The double nearest to [n/d], for [n] and [d] below [2^53]: what the
    literal [245.50] denotes is [of_ratio 24550 100]. *)
Definition of_ratio (n d : Z) : float := div (of_Z n) (of_Z d).
Definition add (x y : float) : float := SFadd prec emax x y.

(** Decimal digits, most significant first. *)
Fixpoint uint_chars (u : Decimal.uint) : list ascii :=
  match u with
  | Decimal.Nil => []
  | Decimal.D0 u => "0"%char :: uint_chars u
  | Decimal.D1 u => "1"%char :: uint_chars u
  | Decimal.D2 u => "2"%char :: uint_chars u
  | Decimal.D3 u => "3"%char :: uint_chars u
  | Decimal.D4 u => "4"%char :: uint_chars u
  | Decimal.D5 u => "5"%char :: uint_chars u
  | Decimal.D6 u => "6"%char :: uint_chars u
  | Decimal.D7 u => "7"%char :: uint_chars u
  | Decimal.D8 u => "8"%char :: uint_chars u
  | Decimal.D9 u => "9"%char :: uint_chars u
  end.

Definition digits_of_Z (z : Z) : list ascii := uint_chars (N.to_uint (Z.to_N z)).

Definition ndigits (z : Z) : Z := Z.of_nat (List.length (digits_of_Z z)).

(** [floor (log10 (n/d))] for positive [n] and [d]. *)
Fixpoint ilog10_neg (fuel : nat) (n d : Z) (j : Z) : Z :=
  match fuel with
  | O => - j
  | S fuel' => if d <=? n * 10 ^ j then - j else ilog10_neg fuel' n d (j + 1)
  end.

Definition ilog10 (n d : Z) : Z :=
  if d <=? n then ndigits (n / d) - 1
  else ilog10_neg (Z.to_nat (Z.log2 d) + 2) n d 1.

(** The mantissa on 53 bits (less for subnormals). *)
Definition normalize_mantissa (m : positive) (e : Z) : Z * Z :=
  let k := Z.min (prec - Z.pos (digits2_pos m)) (e - (3 - emax - prec)) in
  if 0 <? k then (Z.pos m * 2 ^ k, e - k) else (Z.pos m, e).

(** The reals that round to the double [m * 2^e], in units of [2^(e-2)]:
    the value, the lower end and the upper end of the interval. *)
Definition interval (m e : Z) : Z * Z * Z :=
  let lo := if (m =? 2 ^ (prec - 1)) && (3 - emax - prec <? e)
            then 4 * m - 1 else 4 * m - 2 in
  (4 * m, lo, 4 * m + 2).

(** [q * 10^k] against [z / den], both brought to a common integer scale. *)
Definition scaled (q k den : Z) : Z := if 0 <=? k then q * 10 ^ k * den else q * den.
Definition scaled_ref (z k : Z) : Z := if 0 <=? k then z else z * 10 ^ (- k).

Definition in_interval (even : bool) (lo hi den q k : Z) : bool :=
  let c := scaled q k den in
  if even then (scaled_ref lo k <=? c) && (c <=? scaled_ref hi k)
  else (scaled_ref lo k <? c) && (c <? scaled_ref hi k).

Definition nearest (v den q k : Z) : Z :=
  let x := scaled_ref v k in
  let below := x - scaled q k den in
  let above := scaled (q + 1) k den - x in
  if below <? above then q
  else if above <? below then q + 1
  else if Z.even q then q else q + 1.

(** The first [n] (1 to 17) for which an [n]-digit decimal [q * 10^k] lies
    in the rounding interval; of two such, the one nearer the value. *)
Fixpoint shortest (fuel : nat) (even : bool) (v lo hi den p n : Z) : Z * Z :=
  let k := p - n + 1 in
  let q := scaled_ref v k / (scaled 1 k den) in
  match fuel with
  | O => (nearest v den q k, k)
  | S fuel' =>
      let a := in_interval even lo hi den q k in
      let b := in_interval even lo hi den (q + 1) k in
      if a && b then (nearest v den q k, k)
      else if a then (q, k)
      else if b then (q + 1, k)
      else shortest fuel' even v lo hi den p (n + 1)
  end.

Fixpoint strip_zeros_rev (l : list ascii) : list ascii :=
  match l with
  | "0"%char :: l' => strip_zeros_rev l'
  | _ => l
  end.

(** Trailing zeros go, the leading digit stays. *)
Definition strip_trailing_zeros (l : list ascii) : list ascii :=
  match l with
  | [] => []
  | d :: l' => d :: rev (strip_zeros_rev (rev l'))
  end.

(** [_Py_dg_dtoa] in mode 0: the shortest digit string that reads back as
    the same double, with the position of the decimal point counted from
    the start of the digits. *)
Definition dtoa (m : positive) (e : Z) : list ascii * Z :=
  let '(m', e') := normalize_mantissa m e in
  let '(v, lo, hi) := interval m' e' in
  let den := if 0 <=? e' - 2 then 1 else 2 ^ (2 - e') in
  let mul := if 0 <=? e' - 2 then 2 ^ (e' - 2) else 1 in
  let p := ilog10 (v * mul) den in
  let '(q, k) := shortest 16 (Z.even m') (v * mul) (lo * mul) (hi * mul) den p 1 in
  let ds := digits_of_Z q in
  (strip_trailing_zeros ds, k + Z.of_nat (List.length ds)).

Definition zeros (n : Z) : list ascii := repeat "0"%char (Z.to_nat n).

(** The exponent: a sign and at least two digits. *)
Definition exp_chars (x : Z) : list ascii :=
  let ds := digits_of_Z (Z.abs x) in
  (if x <? 0 then "-"%char else "+"%char) ::
  (if Z.abs x <? 10 then "0"%char :: ds else ds).

(** [format_float_short] for format code ['r'] with [Py_DTSF_ADD_DOT_0]. *)
Definition format_short (ds : list ascii) (decpt : Z) : list ascii :=
  let nd := Z.of_nat (List.length ds) in
  if (decpt <=? -4) || (16 <? decpt) then
    firstn 1 ds ++ (if 1 <? nd then "."%char :: skipn 1 ds else [])
      ++ "e"%char :: exp_chars (decpt - 1)
  else if decpt <=? 0 then
    "0"%char :: "."%char :: zeros (- decpt) ++ ds
  else if nd <=? decpt then
    ds ++ zeros (decpt - nd) ++ ["."%char; "0"%char]
  else
    firstn (Z.to_nat decpt) ds ++ "."%char :: skipn (Z.to_nat decpt) ds.

Definition sign_chars (s : bool) : list ascii := if s then ["-"%char] else [].

Definition repr_chars (x : float) : list ascii :=
  match x with
  | S754_zero s => sign_chars s ++ list_ascii_of_string "0.0"
  | S754_infinity s => sign_chars s ++ list_ascii_of_string "inf"
  | S754_nan => list_ascii_of_string "nan"
  | S754_finite s m e =>
      let '(ds, decpt) := dtoa m e in sign_chars s ++ format_short ds decpt
  end.

(** [str(x)] for a float [x], which is [float.__repr__]. *)
Definition str (x : float) : string := string_of_list_ascii (repr_chars x).

End PyFloat.

(* ================================================================== *)
(** ** [decimal.Decimal] and its construction from a string *)

Module PyDecimal.

(** A decimal is a sign, a coefficient and an exponent, or a special
    value.  [Finite s c e] is [(-1)^s * c * 10^e]; the exponent is part of
    the value's representation: [245.5] and [245.50] are equal numbers with
    exponents [-1] and [-2]. *)
Inductive Decimal : Type :=
| Finite (sign : bool) (coefficient : N) (exponent : Z)
| Infinity (sign : bool)
| NaN (sign : bool) (signaling : bool) (payload : N).

Definition is_digit (c : ascii) : bool :=
  match c with
  | "0" | "1" | "2" | "3" | "4" | "5" | "6" | "7" | "8" | "9" => true
  | _ => false
  end%char.

Definition digit_val (c : ascii) : N :=
  match c with
  | "1" => 1 | "2" => 2 | "3" => 3 | "4" => 4 | "5" => 5
  | "6" => 6 | "7" => 7 | "8" => 8 | "9" => 9 | _ => 0
  end%char%N.

(** [int(s)] for a string of digits; the empty string counts as zero. *)
Definition int_of_digits (s : list ascii) : N :=
  fold_left (fun acc c => (acc * 10 + digit_val c)%N) s 0%N.

Definition is_space (c : ascii) : bool :=
  match c with
  | " " | "009" | "010" | "011" | "012" | "013" => true
  | _ => false
  end%char.

Fixpoint lstrip (s : list ascii) : list ascii :=
  match s with
  | c :: s' => if is_space c then lstrip s' else s
  | [] => []
  end.

Definition strip (s : list ascii) : list ascii := rev (lstrip (rev (lstrip s))).

Definition remove_underscores (s : list ascii) : list ascii :=
  filter (fun c => negb (Ascii.eqb c "_")) s.

Definition lower (c : ascii) : ascii :=
  let n := nat_of_ascii c in
  if (Nat.leb 65 n && Nat.leb n 90)%bool then ascii_of_nat (n + 32) else c.

Definition ieqb (s : list ascii) (lit : string) : bool :=
  String.eqb (string_of_list_ascii (map lower s)) lit.

(** The longest prefix of digits, and what follows it. *)
Fixpoint span_digits (s : list ascii) : list ascii * list ascii :=
  match s with
  | c :: s' =>
      if is_digit c then let '(ds, r) := span_digits s' in (c :: ds, r)
      else ([], s)
  | [] => ([], [])
  end.

Definition split_sign (s : list ascii) : bool * list ascii :=
  match s with
  | "-"%char :: r => (true, r)
  | "+"%char :: r => (false, r)
  | _ => (false, s)
  end.

(** An optional exponent, then the end of the string: the letter E (either
    case), an optional sign, one or more digits. *)
Definition parse_exponent (s : list ascii) : option Z :=
  match s with
  | [] => Some 0
  | c :: r =>
      if Ascii.eqb (lower c) "e" then
        let '(neg, r1) := split_sign r in
        match span_digits r1 with
        | ((_ :: _) as ds, []) =>
            let n := Z.of_N (int_of_digits ds) in
            Some (if neg then - n else n)
        | _ => None
        end
      else None
  end.

(** A number with at least one digit: a possibly empty integer part, an
    optional point with a possibly empty fractional part, then the exponent. *)
Definition parse_number (sign : bool) (s : list ascii) : option Decimal :=
  let '(intpart, r1) := span_digits s in
  let '(fracpart, r2) :=
    match r1 with
    | "."%char :: r => span_digits r
    | _ => ([], r1)
    end in
  match intpart ++ fracpart with
  | [] => None
  | (_ :: _) as digits =>
      match parse_exponent r2 with
      | Some e => Some (Finite sign (int_of_digits digits)
                               (e - Z.of_nat (List.length fracpart)))
      | None => None
      end
  end.

(** A NaN: an optional s (signaling), the letters NaN in either case, then
    possibly empty diagnostic digits. *)
Definition parse_nan (sign : bool) (s : list ascii) : option Decimal :=
  let '(signaling, r) :=
    match s with
    | c :: r' => if Ascii.eqb (lower c) "s" then (true, r') else (false, s)
    | [] => (false, s)
    end in
  if ieqb (firstn 3 r) "nan" then
    match span_digits (skipn 3 r) with
    | (diag, []) => Some (NaN sign signaling (int_of_digits diag))
    | _ => None
    end
  else None.

Definition parse (s : list ascii) : option Decimal :=
  let '(sign, r) := split_sign s in
  match r with
  | c :: _ =>
      if is_digit c || Ascii.eqb c "." then parse_number sign r
      else if ieqb r "inf" || ieqb r "infinity" then Some (Infinity sign)
      else parse_nan sign r
  | [] => None
  end.

(** [Decimal(value)] for a string [value]: surrounding white space and
    underscores are dropped, and a string outside the numeric-string
    grammar raises [InvalidOperation]. *)
Definition of_str (value : string) : result Decimal :=
  match parse (remove_underscores (strip (list_ascii_of_string value))) with
  | Some d => Ok d
  | None => Raise InvalidOperation
  end.

(** The number a finite decimal denotes, as a fraction [(numerator,
    denominator)] with a positive denominator. *)
Definition to_fraction (d : Decimal) : option (Z * Z) :=
  match d with
  | Finite s c e =>
      let n := if s then - Z.of_N c else Z.of_N c in
      Some (if 0 <=? e then (n * 10 ^ e, 1) else (n, 10 ^ (- e)))
  | _ => None
  end.

(** Two fractions denote the same number. *)
Definition same_number (a b : Z * Z) : Prop := fst a * snd b = fst b * snd a.

(** Two decimals are numerically equal: the same number when both are
    finite, the same special value otherwise. *)
Definition same_value (a b : Decimal) : Prop :=
  match to_fraction a, to_fraction b with
  | Some x, Some y => same_number x y
  | _, _ => a = b
  end.

End PyDecimal.

(* ================================================================== *)
(** ** Python values and dictionaries *)

(** The values that reach [_convert_decimals]: what [asdict] yields for the
    three dataclasses, and what a caller can put in a metrics mapping.  A
    dict is its [items()] in insertion order, with string keys (attribute
    names); the keys of a dict are pairwise distinct.  A tuple stands for
    the containers that [_convert_decimals] does not enter: it enters
    dicts and lists only. *)
#[warnings="-register-all"]
Inductive value : Type :=
| VNone
| VBool (b : bool)
| VInt (n : Z)
| VStr (s : string)
| VFloat (f : PyFloat.float)
| VDecimal (d : PyDecimal.Decimal)
| VList (items : list value)
| VTuple (items : list value)
| VDict (items : list (string * value)).

Definition dict := list (string * value).

Fixpoint dict_get (d : dict) (k : string) : option value :=
  match d with
  | [] => None
  | (k', v) :: d' => if String.eqb k' k then Some v else dict_get d' k
  end.

(** [d[k] = v]: an existing key keeps its place and takes the new value, a
    new key goes last. *)
Fixpoint dict_set (d : dict) (k : string) (v : value) : dict :=
  match d with
  | [] => [(k, v)]
  | (k', v') :: d' =>
      if String.eqb k' k then (k', v) :: d' else (k', v') :: dict_set d' k v
  end.

(** [d.update(other)], which is also what [**other] does inside a dict
    display. *)
Definition dict_update (d other : dict) : dict :=
  fold_left (fun acc kv => dict_set acc (fst kv) (snd kv)) other d.

Definition keys (d : dict) : list string := map fst d.

(* ================================================================== *)
(** ** [UrsusDataLogger._convert_decimals] *)

(** The three [isinstance] tests in the order of the source; the two
    comprehensions visit the entries left to right and stop at the first
    exception. *)
Fixpoint _convert_decimals (data : value) : result value :=
  match data with
  | VDict kvs =>
      let fix items (kvs : list (string * value)) : result dict :=
        match kvs with
        | [] => Ok []
        | (k, v) :: rest =>
            v' <- _convert_decimals v ;;
            rest' <- items rest ;;
            Ok ((k, v') :: rest')
        end in
      kvs' <- items kvs ;; Ok (VDict kvs')
  | VList l =>
      let fix elems (l : list value) : result (list value) :=
        match l with
        | [] => Ok []
        | item :: rest =>
            item' <- _convert_decimals item ;;
            rest' <- elems rest ;;
            Ok (item' :: rest')
        end in
      l' <- elems l ;; Ok (VList l')
  | VFloat f =>
      d <- PyDecimal.of_str (PyFloat.str f) ;; Ok (VDecimal d)
  | _ => Ok data
  end.

(** The two comprehensions on their own, for stating what they return. *)
Fixpoint convert_items (kvs : list (string * value)) : result dict :=
  match kvs with
  | [] => Ok []
  | (k, v) :: rest =>
      v' <- _convert_decimals v ;;
      rest' <- convert_items rest ;;
      Ok ((k, v') :: rest')
  end.

Fixpoint convert_elems (l : list value) : result (list value) :=
  match l with
  | [] => Ok []
  | item :: rest =>
      item' <- _convert_decimals item ;;
      rest' <- convert_elems rest ;;
      Ok (item' :: rest')
  end.

(* ================================================================== *)
(** ** [datetime] in UTC, [timedelta] and [isoformat] *)

Module PyDatetime.

(** An aware UTC datetime, as microseconds since 1970-01-01T00:00:00. *)
Definition datetime := Z.

Definition us_per_second := 1000000.
Definition us_per_day := 86400 * us_per_second.

(** 0001-01-01T00:00:00 and 9999-12-31T23:59:59.999999. *)
Definition datetime_min : datetime := -719162 * us_per_day.
Definition datetime_max : datetime := 2932897 * us_per_day - 1.

Definition in_range (t : datetime) : bool := (datetime_min <=? t) && (t <=? datetime_max).

(** A timedelta, in microseconds; [timedelta(days=d)] and
    [timedelta(hours=h)] raise [OverflowError] outside -999999999 days
    (included) to 1000000000 days (excluded). *)
Definition timedelta (us : Z) : result Z :=
  if (-999999999 * us_per_day <=? us) && (us <? 1000000000 * us_per_day)
  then Ok us else Raise OverflowError.

Definition days (d : Z) : result Z := timedelta (d * us_per_day).
Definition hours (h : Z) : result Z := timedelta (h * 3600 * us_per_second).

(** [t - delta], which raises [OverflowError] outside years 1 to 9999. *)
Definition sub (t : datetime) (delta : Z) : result datetime :=
  if in_range (t - delta) then Ok (t - delta) else Raise OverflowError.

(** Year, month and day of a day number counted from 1970-01-01. *)
Definition civil_from_days (z : Z) : Z * Z * Z :=
  let z := z + 719468 in
  let era := z / 146097 in
  let doe := z - era * 146097 in
  let yoe := (doe - doe / 1460 + doe / 36524 - doe / 146096) / 365 in
  let doy := doe - (365 * yoe + yoe / 4 - yoe / 100) in
  let mp := (5 * doy + 2) / 153 in
  let d := doy - (153 * mp + 2) / 5 + 1 in
  let m := if mp <? 10 then mp + 3 else mp - 9 in
  ((yoe + era * 400) + (if m <=? 2 then 1 else 0), m, d).

(** [z] on at least [width] digits, zero-padded on the left. *)
Definition pad (width : nat) (z : Z) : list ascii :=
  let ds := PyFloat.digits_of_Z z in
  repeat "0"%char (width - List.length ds) ++ ds.

(** [t.isoformat()]: the fraction is left out when the microseconds are
    zero; the offset of UTC is [+00:00]. *)
Definition isoformat (t : datetime) : string :=
  let day := t / us_per_day in
  let rest := t mod us_per_day in
  let '(y, m, d) := civil_from_days day in
  let secs := rest / us_per_second in
  let us := rest mod us_per_second in
  string_of_list_ascii
    (pad 4 y ++ "-"%char :: pad 2 m ++ "-"%char :: pad 2 d ++ "T"%char ::
     pad 2 (secs / 3600) ++ ":"%char :: pad 2 (secs / 60 mod 60) ++ ":"%char ::
     pad 2 (secs mod 60) ++
     (if us =? 0 then [] else "."%char :: pad 6 us) ++
     list_ascii_of_string "+00:00").

End PyDatetime.

(* ================================================================== *)
(** ** The dataclasses [TradeLog], [StrategyMetric] and [MarketSignal] *)

(** The fields carry the types of their annotations.  Field names that
    occur in more than one class ([timestamp], [symbol], [profit_loss])
    are prefixed with the class here; [asdict] below gives every field its
    name in the source. *)
Record TradeLog : Type := {
  trade_id : string;
  trade_timestamp : string;
  strategy : string;
  trade_symbol : string;
  action : string;                       (* 'BUY', 'SELL', 'HOLD' *)
  quantity : PyFloat.float;
  price : PyFloat.float;
  confidence : PyFloat.float;
  market_signal : string;
  execution_time_ms : PyFloat.float;
  trade_profit_loss : option PyFloat.float;
  portfolio_value : option PyFloat.float
}.

Record StrategyMetric : Type := {
  strategy_id : string;
  metric_timestamp : string;
  win_rate : PyFloat.float;
  total_trades : Z;
  metric_profit_loss : PyFloat.float;
  sharpe_ratio : PyFloat.float;
  max_drawdown : PyFloat.float;
  current_positions : Z;
  avg_hold_time : PyFloat.float
}.

Record MarketSignal : Type := {
  signal_id : string;
  signal_timestamp : string;
  signal_symbol : string;
  signal_type : string;                  (* 'BUY', 'SELL', 'NEUTRAL' *)
  strength : PyFloat.float;              (* 0.0 to 1.0 *)
  indicators : list (string * PyFloat.float);
  news_sentiment : option PyFloat.float;
  volume_analysis : option PyFloat.float
}.

(** An argument of the generated [__init__]: [None] when the caller did
    not pass it.  A field without a default raises [TypeError] when it is
    not passed; a field with default [None] takes that default. *)
Definition required {A} (arg : option A) : result A :=
  match arg with
  | Some a => Ok a
  | None => Raise TypeError
  end.

(** Whether the caller passed the argument. *)
Definition given {A} (arg : option A) : bool :=
  match arg with
  | Some _ => true
  | None => false
  end.

Definition defaulted {A} (arg : option (option A)) : option A :=
  match arg with
  | Some a => a
  | None => None
  end.

(** The [__init__] that [@dataclass] generates: it binds the arguments to
    the fields and does nothing else (the classes define no
    [__post_init__]). *)
Definition TradeLog_init
    (trade_id timestamp strategy symbol action : option string)
    (quantity price confidence : option PyFloat.float)
    (market_signal : option string)
    (execution_time_ms : option PyFloat.float)
    (profit_loss portfolio_value : option (option PyFloat.float))
  : result TradeLog :=
  trade_id <- required trade_id ;;
  timestamp <- required timestamp ;;
  strategy <- required strategy ;;
  symbol <- required symbol ;;
  action <- required action ;;
  quantity <- required quantity ;;
  price <- required price ;;
  confidence <- required confidence ;;
  market_signal <- required market_signal ;;
  execution_time_ms <- required execution_time_ms ;;
  Ok {| trade_id := trade_id; trade_timestamp := timestamp;
        strategy := strategy; trade_symbol := symbol; action := action;
        quantity := quantity; price := price; confidence := confidence;
        market_signal := market_signal;
        execution_time_ms := execution_time_ms;
        trade_profit_loss := defaulted profit_loss;
        portfolio_value := defaulted portfolio_value |}.

Definition StrategyMetric_init
    (strategy_id timestamp : option string)
    (win_rate : option PyFloat.float)
    (total_trades : option Z)
    (profit_loss sharpe_ratio max_drawdown : option PyFloat.float)
    (current_positions : option Z)
    (avg_hold_time : option PyFloat.float)
  : result StrategyMetric :=
  strategy_id <- required strategy_id ;;
  timestamp <- required timestamp ;;
  win_rate <- required win_rate ;;
  total_trades <- required total_trades ;;
  profit_loss <- required profit_loss ;;
  sharpe_ratio <- required sharpe_ratio ;;
  max_drawdown <- required max_drawdown ;;
  current_positions <- required current_positions ;;
  avg_hold_time <- required avg_hold_time ;;
  Ok {| strategy_id := strategy_id; metric_timestamp := timestamp;
        win_rate := win_rate; total_trades := total_trades;
        metric_profit_loss := profit_loss; sharpe_ratio := sharpe_ratio;
        max_drawdown := max_drawdown;
        current_positions := current_positions;
        avg_hold_time := avg_hold_time |}.

Definition MarketSignal_init
    (signal_id timestamp symbol signal_type : option string)
    (strength : option PyFloat.float)
    (indicators : option (list (string * PyFloat.float)))
    (news_sentiment volume_analysis : option (option PyFloat.float))
  : result MarketSignal :=
  signal_id <- required signal_id ;;
  timestamp <- required timestamp ;;
  symbol <- required symbol ;;
  signal_type <- required signal_type ;;
  strength <- required strength ;;
  indicators <- required indicators ;;
  Ok {| signal_id := signal_id; signal_timestamp := timestamp;
        signal_symbol := symbol; signal_type := signal_type;
        strength := strength; indicators := indicators;
        news_sentiment := defaulted news_sentiment;
        volume_analysis := defaulted volume_analysis |}.

Definition opt_float (x : option PyFloat.float) : value :=
  match x with
  | Some f => VFloat f
  | None => VNone
  end.

(** [dataclasses.asdict]: the fields by name, in declaration order. *)
Definition asdict_trade (t : TradeLog) : value :=
  VDict [ ("trade_id", VStr (trade_id t));
          ("timestamp", VStr (trade_timestamp t));
          ("strategy", VStr (strategy t));
          ("symbol", VStr (trade_symbol t));
          ("action", VStr (action t));
          ("quantity", VFloat (quantity t));
          ("price", VFloat (price t));
          ("confidence", VFloat (confidence t));
          ("market_signal", VStr (market_signal t));
          ("execution_time_ms", VFloat (execution_time_ms t));
          ("profit_loss", opt_float (trade_profit_loss t));
          ("portfolio_value", opt_float (portfolio_value t)) ]%string.

Definition asdict_metric (m : StrategyMetric) : value :=
  VDict [ ("strategy_id", VStr (strategy_id m));
          ("timestamp", VStr (metric_timestamp m));
          ("win_rate", VFloat (win_rate m));
          ("total_trades", VInt (total_trades m));
          ("profit_loss", VFloat (metric_profit_loss m));
          ("sharpe_ratio", VFloat (sharpe_ratio m));
          ("max_drawdown", VFloat (max_drawdown m));
          ("current_positions", VInt (current_positions m));
          ("avg_hold_time", VFloat (avg_hold_time m)) ]%string.

Definition asdict_signal (s : MarketSignal) : value :=
  VDict [ ("signal_id", VStr (signal_id s));
          ("timestamp", VStr (signal_timestamp s));
          ("symbol", VStr (signal_symbol s));
          ("signal_type", VStr (signal_type s));
          ("strength", VFloat (strength s));
          ("indicators",
           VDict (map (fun kv => (fst kv, VFloat (snd kv))) (indicators s)));
          ("news_sentiment", opt_float (news_sentiment s));
          ("volume_analysis", opt_float (volume_analysis s)) ]%string.

(** The sets the comments and the data model name, and the unit interval:
    what a validating constructor would test. *)
Definition trade_actions : list string := ["BUY"; "SELL"; "HOLD"]%string.
Definition signal_types : list string := ["BUY"; "SELL"; "NEUTRAL"]%string.

Definition in_set (s : string) (l : list string) : bool := existsb (String.eqb s) l.

Definition in_unit_interval (x : PyFloat.float) : bool :=
  SFleb (PyFloat.of_Z 0) x && SFleb x (PyFloat.of_Z 1).

(* ================================================================== *)
(** ** The DynamoDB tables behind the boto3 resource *)

Module DynamoDB.

Definition item := dict.

(** The primary key of a table: a partition key and, possibly, a sort key.
    The key attributes are of type S (string).  The table definitions are
    not part of the module, so the schemas are left open. *)
Record KeySchema : Type := {
  hash_key : string;
  range_key : option string
}.

Record Table : Type := {
  key_schema : KeySchema;
  rows : list item
}.

Inductive table_name : Type :=
| CryonithTradeLogs
| CryonithStrategyMetrics
| CryonithMarketSignals
| CryonithPerformance.

(** The calls made on the client, with their arguments. *)
Inductive api_call : Type :=
| PutItem (t : table_name) (it : item)
| BatchWriteItem (t : table_name) (its : list item)
| Query (t : table_name) (hk hv rk lo hi : string)
| Scan (t : table_name) (attr bound : string).

Record Store : Type := {
  reachable : bool;
  trade_logs : Table;
  strategy_metrics : Table;
  market_signals : Table;
  performance : Table;
  calls : list api_call                  (* oldest first *)
}.

Definition table (s : Store) (t : table_name) : Table :=
  match t with
  | CryonithTradeLogs => trade_logs s
  | CryonithStrategyMetrics => strategy_metrics s
  | CryonithMarketSignals => market_signals s
  | CryonithPerformance => performance s
  end.

Definition set_table (s : Store) (t : table_name) (tb : Table) : Store :=
  match t with
  | CryonithTradeLogs =>
      {| reachable := reachable s; trade_logs := tb;
         strategy_metrics := strategy_metrics s;
         market_signals := market_signals s; performance := performance s;
         calls := calls s |}
  | CryonithStrategyMetrics =>
      {| reachable := reachable s; trade_logs := trade_logs s;
         strategy_metrics := tb;
         market_signals := market_signals s; performance := performance s;
         calls := calls s |}
  | CryonithMarketSignals =>
      {| reachable := reachable s; trade_logs := trade_logs s;
         strategy_metrics := strategy_metrics s;
         market_signals := tb; performance := performance s;
         calls := calls s |}
  | CryonithPerformance =>
      {| reachable := reachable s; trade_logs := trade_logs s;
         strategy_metrics := strategy_metrics s;
         market_signals := market_signals s; performance := tb;
         calls := calls s |}
  end.

Definition record_call (c : api_call) (s : Store) : Store :=
  {| reachable := reachable s; trade_logs := trade_logs s;
     strategy_metrics := strategy_metrics s;
     market_signals := market_signals s; performance := performance s;
     calls := calls s ++ [c] |}.

Definition set_reachable (b : bool) (s : Store) : Store :=
  {| reachable := b; trade_logs := trade_logs s;
     strategy_metrics := strategy_metrics s;
     market_signals := market_signals s; performance := performance s;
     calls := calls s |}.

(** boto3's [TypeSerializer]: a float raises [TypeError] (floats are not
    supported, Decimal is), and so does an infinite or NaN Decimal; a tuple
    is taken like a list.  The 38-digit and exponent limits of DynamoDB
    numbers are not modelled: a Decimal outside them passes here and is
    refused by boto3. *)
Fixpoint serializable (v : value) : bool :=
  match v with
  | VFloat _ => false
  | VDecimal (PyDecimal.Finite _ _ _) => true
  | VDecimal _ => false
  | VList l | VTuple l =>
      (fix all (l : list value) : bool :=
         match l with
         | [] => true
         | x :: l' => serializable x && all l'
         end) l
  | VDict kvs =>
      (fix all (kvs : list (string * value)) : bool :=
         match kvs with
         | [] => true
         | (_, x) :: kvs' => serializable x && all kvs'
         end) kvs
  | _ => true
  end.

(** The primary key of an item, when the item carries the key attributes
    as strings.  An empty string, which DynamoDB refuses as a key value,
    is not told apart from other strings. *)
Definition key_of (ks : KeySchema) (it : item) : option (string * option string) :=
  match dict_get it (hash_key ks) with
  | Some (VStr h) =>
      match range_key ks with
      | None => Some (h, None)
      | Some rk =>
          match dict_get it rk with
          | Some (VStr r) => Some (h, Some r)
          | _ => None
          end
      end
  | _ => None
  end.

Definition key_eqb (a b : string * option string) : bool :=
  String.eqb (fst a) (fst b) &&
  match snd a, snd b with
  | Some x, Some y => String.eqb x y
  | None, None => true
  | _, _ => false
  end.

Definition has_key (ks : KeySchema) (k : string * option string) (it : item) : bool :=
  match key_of ks it with
  | Some k' => key_eqb k k'
  | None => false
  end.

(** A put replaces the row that has the same primary key, or adds a row. *)
Fixpoint upsert (ks : KeySchema) (k : string * option string) (it : item)
    (rs : list item) : list item :=
  match rs with
  | [] => [it]
  | r :: rs' => if has_key ks k r then it :: rs' else r :: upsert ks k it rs'
  end.

Definition put_row (tb : Table) (k : string * option string) (it : item) : Table :=
  {| key_schema := key_schema tb; rows := upsert (key_schema tb) k it (rows tb) |}.

Definition validation_error : exn := ClientError "ValidationException".

(** [Table.put_item(Item=item)] *)
Definition put_item (t : table_name) (it : item) (s : Store) : result unit * Store :=
  let s := record_call (PutItem t it) s in
  if negb (serializable (VDict it)) then (Raise TypeError, s)
  else if negb (reachable s) then (Raise EndpointConnectionError, s)
  else
    match key_of (key_schema (table s t)) it with
    | None => (Raise validation_error, s)
    | Some k => (Ok tt, set_table s t (put_row (table s t) k it))
    end.

Fixpoint all_keys (ks : KeySchema) (its : list item) : option (list (string * option string)) :=
  match its with
  | [] => Some []
  | it :: its' =>
      match key_of ks it, all_keys ks its' with
      | Some k, Some l => Some (k :: l)
      | _, _ => None
      end
  end.

Fixpoint distinct_keys (l : list (string * option string)) : bool :=
  match l with
  | [] => true
  | k :: l' => negb (existsb (key_eqb k) l') && distinct_keys l'
  end.

Definition put_rows (tb : Table) (kits : list ((string * option string) * item)) : Table :=
  fold_left (fun tb kit => put_row tb (fst kit) (snd kit)) kits tb.

(** [client.batch_write_item] with put requests for one table.  The request
    is accepted or refused as a whole: one to 25 items, each with the key
    attributes, no two with the same key.  The store leaves no item
    unprocessed. *)
Definition batch_write_item (t : table_name) (its : list item) (s : Store)
  : result unit * Store :=
  let s := record_call (BatchWriteItem t its) s in
  if negb (forallb (fun it => serializable (VDict it)) its) then (Raise TypeError, s)
  else if negb (reachable s) then (Raise EndpointConnectionError, s)
  else
    match all_keys (key_schema (table s t)) its with
    | Some ks =>
        if (Nat.leb 1 (List.length its) && Nat.leb (List.length its) 25
            && distinct_keys ks)%bool
        then (Ok tt, set_table s t (put_rows (table s t) (combine ks its)))
        else (Raise validation_error, s)
    | None => (Raise validation_error, s)
    end.

(** The response of a query or a scan, read with [response.get('Items', [])]. *)
Record response : Type := { Items : option (list item) }.

Definition get_items (r : response) (default : list item) : list item :=
  match Items r with
  | Some l => l
  | None => default
  end.

Definition str_attr (it : item) (a : string) : option string :=
  match dict_get it a with
  | Some (VStr x) => Some x
  | _ => None
  end.

Definition attr_eq (a v : string) (it : item) : bool :=
  match str_attr it a with
  | Some x => String.eqb x v
  | None => false
  end.

Definition attr_between (a lo hi : string) (it : item) : bool :=
  match str_attr it a with
  | Some x => String.leb lo x && String.leb x hi
  | None => false
  end.

Definition attr_gte (a bound : string) (it : item) : bool :=
  match str_attr it a with
  | Some x => String.leb bound x
  | None => false
  end.

Definition attr_leb (a : string) (x y : item) : bool :=
  match str_attr x a, str_attr y a with
  | Some u, Some v => String.leb u v
  | _, _ => true
  end.

Fixpoint insert_sorted (a : string) (it : item) (l : list item) : list item :=
  match l with
  | [] => [it]
  | x :: l' => if attr_leb a it x then it :: l else x :: insert_sorted a it l'
  end.

Definition sort_by (a : string) (l : list item) : list item :=
  fold_right (insert_sorted a) [] l.

(** [Table.query] with the key condition
    [Key(hk).eq(hv) & Key(rk).between(lo, hi)].  The condition has to name
    the table's partition key and sort key; the matching rows come in
    ascending order of the sort key.  The response holds all of them: the
    size limit of one response (1 MB), past which DynamoDB answers with a
    first page and a [LastEvaluatedKey], is not modelled. *)
Definition query (t : table_name) (hk hv rk lo hi : string) (s : Store)
  : result response * Store :=
  let s := record_call (Query t hk hv rk lo hi) s in
  if negb (reachable s) then (Raise EndpointConnectionError, s)
  else
    let ks := key_schema (table s t) in
    match range_key ks with
    | Some rk' =>
        if (String.eqb (hash_key ks) hk && String.eqb rk' rk)%bool then
          (Ok {| Items := Some (sort_by rk
                   (filter (fun it => attr_eq hk hv it && attr_between rk lo hi it)
                      (rows (table s t)))) |}, s)
        else (Raise validation_error, s)
    | None => (Raise validation_error, s)
    end.

(** [Table.scan] with the filter [Attr(attr).gte(bound)].  As for
    [query], the table is read whole; the 1 MB limit of one call is not
    modelled. *)
Definition scan (t : table_name) (attr bound : string) (s : Store)
  : result response * Store :=
  let s := record_call (Scan t attr bound) s in
  if negb (reachable s) then (Raise EndpointConnectionError, s)
  else (Ok {| Items := Some (filter (attr_gte attr bound) (rows (table s t))) |}, s).

(** boto3's [BatchWriter], the object [Table.batch_writer()] returns: it
    buffers the put requests and sends them 25 at a time. *)
Record BatchWriter : Type := {
  bw_table : table_name;
  items_buffer : list item
}.

Definition flush_amount : nat := 25.

Definition batch_writer (t : table_name) : BatchWriter :=
  {| bw_table := t; items_buffer := [] |}.

(** [_flush]: the first 25 buffered items leave the buffer, then go out in
    one [batch_write_item] call. *)
Definition _flush (bw : BatchWriter) (s : Store) : result unit * BatchWriter * Store :=
  let items_to_send := firstn flush_amount (items_buffer bw) in
  let bw' := {| bw_table := bw_table bw;
                items_buffer := skipn flush_amount (items_buffer bw) |} in
  let '(r, s') := batch_write_item (bw_table bw) items_to_send s in
  (r, bw', s').

(** [BatchWriter.put_item]: append, and flush once 25 items are buffered. *)
Definition bw_put_item (bw : BatchWriter) (it : item) (s : Store)
  : result unit * BatchWriter * Store :=
  let bw' := {| bw_table := bw_table bw; items_buffer := items_buffer bw ++ [it] |} in
  if Nat.leb flush_amount (List.length (items_buffer bw')) then _flush bw' s
  else (Ok tt, bw', s).

(** [__exit__]: flush until the buffer is empty. *)
Fixpoint bw_exit_loop (fuel : nat) (bw : BatchWriter) (s : Store)
  : result unit * BatchWriter * Store :=
  match fuel, items_buffer bw with
  | S fuel', _ :: _ =>
      match _flush bw s with
      | (Ok _, bw', s') => bw_exit_loop fuel' bw' s'
      | (Raise e, bw', s') => (Raise e, bw', s')
      end
  | _, _ => (Ok tt, bw, s)
  end.

Definition bw_exit (bw : BatchWriter) (s : Store) : result unit * BatchWriter * Store :=
  bw_exit_loop (List.length (items_buffer bw)) bw s.

End DynamoDB.

(* ================================================================== *)
(** ** [UrsusDataLogger] *)

Import DynamoDB.

(** The instance attributes.  [dynamodb] stands for the boto3 resource and
    the four tables reached through it; [data_queue] holds the content of
    the [Queue], oldest first; [processor_alive] is
    [processor_thread.is_alive()]. *)
Record UrsusDataLogger : Type := {
  region_name : string;
  dynamodb : Store;
  data_queue : list value;
  batch_size : nat;
  flush_interval : Z;
  running : bool;
  processor_alive : bool
}.

Definition set_dynamodb (self : UrsusDataLogger) (s : Store) : UrsusDataLogger :=
  {| region_name := region_name self; dynamodb := s;
     data_queue := data_queue self; batch_size := batch_size self;
     flush_interval := flush_interval self; running := running self;
     processor_alive := processor_alive self |}.

Definition set_running (self : UrsusDataLogger) (b : bool) : UrsusDataLogger :=
  {| region_name := region_name self; dynamodb := dynamodb self;
     data_queue := data_queue self; batch_size := batch_size self;
     flush_interval := flush_interval self; running := b;
     processor_alive := processor_alive self |}.

Definition set_processor_alive (self : UrsusDataLogger) (b : bool) : UrsusDataLogger :=
  {| region_name := region_name self; dynamodb := dynamodb self;
     data_queue := data_queue self; batch_size := batch_size self;
     flush_interval := flush_interval self; running := running self;
     processor_alive := b |}.

(** A method call ends with a returned value or a raised exception, and
    leaves the logger in a new state. *)
Definition M (A : Type) : Type := UrsusDataLogger -> result A * UrsusDataLogger.

Definition ret {A} (a : A) : M A := fun self => (Ok a, self).

Definition mbind {A B} (m : M A) (k : A -> M B) : M B :=
  fun self =>
    match m self with
    | (Ok a, self') => k a self'
    | (Raise e, self') => (Raise e, self')
    end.

Notation "x <~ c ;; k" := (mbind c (fun x => k))
  (at level 61, c at next level, right associativity).

(** A pure computation that may raise. *)
Definition lift {A} (r : result A) : M A := fun self => (r, self).

(** A call on the store. *)
Definition on_store {A} (f : Store -> result A * Store) : M A :=
  fun self => let '(r, s) := f (dynamodb self) in (r, set_dynamodb self s).

(** [try: body  except Exception as e: handler] *)
Definition try_ {A} (body : M A) (handler : exn -> M A) : M A :=
  fun self =>
    match body self with
    | (Ok a, self') => (Ok a, self')
    | (Raise e, self') => handler e self'
    end.

(** The item of a put has to be a dict. *)
Definition as_item (v : value) : result item :=
  match v with
  | VDict kvs => Ok kvs
  | _ => Raise TypeError
  end.

(** *** The module-level name [logger]

    The methods log through the global name [logger].  Line 27 binds it to
    a [logging.Logger], and that is what it names whenever the module is
    imported and its classes are used.  The main block of the module, run
    as a script, rebinds the name at line 305 to the data logger that
    [simulate_ursus_trading] returns; from then on the methods find an
    [UrsusDataLogger] under it, which has no attribute [info] or
    [error]. *)
Inductive module_logger : Type :=
| LoggingLogger                 (* logging.getLogger('UrsusDataLogger') *)
| DataLogger.                   (* an UrsusDataLogger instance *)

(** [logger.info(...)] and [logger.error(...)]: the attribute is looked up
    before the message is built.  On the [logging.Logger] the call writes
    a line and returns. *)
Definition logger_call (logger : module_logger) (name : string) : result unit :=
  match logger with
  | LoggingLogger => Ok tt
  | DataLogger => Raise (AttributeError name)
  end.

(** [__init__], lines 73 to 99: the queue is created empty, the worker
    thread is started.  The constructor is run under the [logging.Logger]
    (so is its [logger.info] of line 99), with a session that can be
    created. *)
Definition __init__ (region : string) (store : Store) : UrsusDataLogger :=
  {| region_name := region; dynamodb := store;
     data_queue := []; batch_size := 25; flush_interval := 30;
     running := true; processor_alive := true |}.

(** The dict display of [log_daily_performance]: the two fixed entries,
    then the entries of the normalized metrics, then the time stamp, each
    stored the way [d[k] = v] stores. *)
Definition daily_item (date : string) (metrics : dict) (timestamp : string) : item :=
  dict_set
    (dict_update
       (dict_set (dict_set [] "MetricType" (VStr "DAILY_PERFORMANCE"))
          "Date" (VStr date))
       metrics)
    "Timestamp" (VStr timestamp).

(** [trades[i:i + n]] for [i] in [range(0, len(trades), n)]. *)
Fixpoint batches {A} (fuel : nat) (n : nat) (l : list A) : list (list A) :=
  match fuel, l with
  | S fuel', _ :: _ => firstn n l :: batches fuel' n (skipn n l)
  | _, _ => []
  end.

(** The body of the [with] block: the loop over one batch.  It stops at the
    first exception; the counter and the writer keep what was done before
    it. *)
Fixpoint put_batch (batch : list TradeLog) (bw : BatchWriter)
    (success_count : nat) (s : Store)
  : result unit * BatchWriter * nat * Store :=
  match batch with
  | [] => (Ok tt, bw, success_count, s)
  | trade :: rest =>
      match bind (_convert_decimals (asdict_trade trade)) as_item with
      | Raise e => (Raise e, bw, success_count, s)
      | Ok item =>
          match bw_put_item bw item s with
          | (Raise e, bw', s') => (Raise e, bw', success_count, s')
          | (Ok _, bw', s') => put_batch rest bw' (success_count + 1) s'
          end
      end
  end.

(** The [with] statement of one round of [batch_log_trades].  The writer's
    [__exit__] runs whether or not the body raised; the statement ends
    with the exception of [__exit__] if it raised, else with that of the
    body, if any. *)
Definition with_batch_writer (batch : list TradeLog) (success_count : nat)
    (s : Store) : result unit * nat * Store :=
  let '(r, bw, success_count', s') :=
    put_batch batch (batch_writer CryonithTradeLogs) success_count s in
  let '(r', _, s'') := bw_exit bw s' in
  (match r' with Raise e => Raise e | Ok _ => r end, success_count', s'').

(** The methods, for either binding of the name [logger]. *)
Module Method.

Section UnderLogger.

Variable logger : module_logger.

Definition info : M unit := lift (logger_call logger "info").
Definition error : M unit := lift (logger_call logger "error").

Definition log_trade (trade : TradeLog) : M bool :=
  try_
    (item <~ lift (_convert_decimals (asdict_trade trade)) ;;
     item <~ lift (as_item item) ;;
     _ <~ on_store (put_item CryonithTradeLogs item) ;;
     _ <~ info ;;
     ret true)
    (fun _ => _ <~ error ;; ret false).

Definition log_strategy_metrics (metrics : StrategyMetric) : M bool :=
  try_
    (item <~ lift (_convert_decimals (asdict_metric metrics)) ;;
     item <~ lift (as_item item) ;;
     _ <~ on_store (put_item CryonithStrategyMetrics item) ;;
     _ <~ info ;;
     ret true)
    (fun _ => _ <~ error ;; ret false).

Definition log_market_signal (signal : MarketSignal) : M bool :=
  try_
    (item <~ lift (_convert_decimals (asdict_signal signal)) ;;
     item <~ lift (as_item item) ;;
     _ <~ on_store (put_item CryonithMarketSignals item) ;;
     _ <~ info ;;
     ret true)
    (fun _ => _ <~ error ;; ret false).

Definition log_daily_performance (date : string) (metrics : dict)
    (now : PyDatetime.datetime) : M bool :=
  try_
    (converted <~ lift (_convert_decimals (VDict metrics)) ;;
     converted <~ lift (as_item converted) ;;
     _ <~ on_store (put_item CryonithPerformance
                      (daily_item date converted (PyDatetime.isoformat now))) ;;
     _ <~ info ;;
     ret true)
    (fun _ => _ <~ error ;; ret false).

(** One round of the outer loop: the [with] statement and
    [logger.info] inside [try], [logger.error] in the handler.  The result
    is the exception that leaves the method, if any. *)
Definition log_batch (batch : list TradeLog) (success_count : nat) (s : Store)
  : result unit * nat * Store :=
  let '(r, success_count', s') := with_batch_writer batch success_count s in
  match _ <- r ;; logger_call logger "info" with
  | Ok _ => (Ok tt, success_count', s')
  | Raise _ => (logger_call logger "error", success_count', s')
  end.

(** The outer loop, left at the first exception that no handler takes. *)
Fixpoint log_batches (bs : list (list TradeLog)) (success_count : nat) (s : Store)
  : result nat * Store :=
  match bs with
  | [] => (Ok success_count, s)
  | batch :: rest =>
      match log_batch batch success_count s with
      | (Ok _, success_count', s') => log_batches rest success_count' s'
      | (Raise e, _, s') => (Raise e, s')
      end
  end.

Definition batch_log_trades (trades : list TradeLog) : M nat :=
  fun self =>
    let '(r, s) :=
      log_batches (batches (List.length trades) (batch_size self) trades)
        O (dynamodb self) in
    (r, set_dynamodb self s).

Definition get_strategy_performance (strategy_id : string) (days : Z)
    (now : PyDatetime.datetime) : M (list item) :=
  try_
    (let end_date := now in
     delta <~ lift (PyDatetime.days days) ;;
     start_date <~ lift (PyDatetime.sub end_date delta) ;;
     response <~ on_store
       (query CryonithStrategyMetrics "StrategyId" strategy_id "Timestamp"
          (PyDatetime.isoformat start_date) (PyDatetime.isoformat end_date)) ;;
     ret (get_items response []))
    (fun _ => _ <~ error ;; ret []).

Definition get_recent_trades (hours : Z) (now : PyDatetime.datetime) : M (list item) :=
  try_
    (delta <~ lift (PyDatetime.hours hours) ;;
     cutoff_time <~ lift (PyDatetime.sub now delta) ;;
     response <~ on_store
       (scan CryonithTradeLogs "timestamp" (PyDatetime.isoformat cutoff_time)) ;;
     ret (get_items response []))
    (fun _ => _ <~ error ;; ret []).

(** [shutdown]: the flag goes down; the join waits for the worker at most
    five seconds and changes nothing by itself; then [logger.info]. *)
Definition shutdown : M unit :=
  _ <~ (fun self => (Ok tt, set_running self false)) ;;
  info.

End UnderLogger.

End Method.

(** The methods as the users of the module call them: the name [logger]
    is bound to the [logging.Logger]. *)
Definition log_trade (trade : TradeLog) : M bool :=
  Method.log_trade LoggingLogger trade.

Definition log_strategy_metrics (metrics : StrategyMetric) : M bool :=
  Method.log_strategy_metrics LoggingLogger metrics.

Definition log_market_signal (signal : MarketSignal) : M bool :=
  Method.log_market_signal LoggingLogger signal.

Definition log_daily_performance (date : string) (metrics : dict)
    (now : PyDatetime.datetime) : M bool :=
  Method.log_daily_performance LoggingLogger date metrics now.

Definition batch_log_trades (trades : list TradeLog) : M nat :=
  Method.batch_log_trades LoggingLogger trades.

Definition get_strategy_performance (strategy_id : string) (days : Z)
    (now : PyDatetime.datetime) : M (list item) :=
  Method.get_strategy_performance LoggingLogger strategy_id days now.

Definition get_recent_trades (hours : Z) (now : PyDatetime.datetime) : M (list item) :=
  Method.get_recent_trades LoggingLogger hours now.

(** One round of [batch_log_trades] under the [logging.Logger]: the
    counter and the store it leaves; no exception leaves the round. *)
Definition log_batch (batch : list TradeLog) (success_count : nat) (s : Store)
  : nat * Store :=
  let '(_, success_count', s') := with_batch_writer batch success_count s in
  (success_count', s').

(** What the worker thread does to the outside world. *)
Inductive effect : Type :=
| Sleep (seconds : Z).

(** One pass through the body of the [while self.running] loop:
    [time.sleep(self.flush_interval)], then [pass]. *)
Definition _batch_processor_body (self : UrsusDataLogger) : list effect * UrsusDataLogger :=
  ([Sleep (flush_interval self)], self).

(** One step of the worker thread: the loop test, then the body or the end
    of the thread. *)
Definition _batch_processor_step (self : UrsusDataLogger) : list effect * UrsusDataLogger :=
  if processor_alive self then
    if running self then _batch_processor_body self
    else ([], set_processor_alive self false)
  else ([], self).

(** The loop run on its own for at most [fuel] passes. *)
Fixpoint _batch_processor (fuel : nat) (self : UrsusDataLogger)
  : list effect * UrsusDataLogger :=
  match fuel with
  | O => ([], self)
  | S fuel' =>
      if running self then
        let '(e1, self1) := _batch_processor_body self in
        let '(e2, self2) := _batch_processor fuel' self1 in
        (e1 ++ e2, self2)
      else ([], self)
  end.

Definition shutdown : M unit := Method.shutdown LoggingLogger.

(** *** The logger in use *)

(** The caller-facing operations with their arguments. *)
Inductive call : Type :=
| LogTrade (trade : TradeLog)
| LogStrategyMetrics (metrics : StrategyMetric)
| LogMarketSignal (signal : MarketSignal)
| LogDailyPerformance (date : string) (metrics : dict)
| BatchLogTrades (trades : list TradeLog)
| GetStrategyPerformance (strategy_id : string) (days : Z)
| GetRecentTrades (hours : Z)
| Shutdown.

(** What happens to a logger: a call from the trading code at some time of
    the clock, a step of the worker thread, or the network to the store
    going up or down. *)
Inductive event : Type :=
| Call (c : call) (now : PyDatetime.datetime)
| Worker
| Network (up : bool).

Definition discard {A} (m : M A) : UrsusDataLogger -> UrsusDataLogger :=
  fun self => snd (m self).

Definition do_call (c : call) (now : PyDatetime.datetime)
  : UrsusDataLogger -> UrsusDataLogger :=
  match c with
  | LogTrade t => discard (log_trade t)
  | LogStrategyMetrics m => discard (log_strategy_metrics m)
  | LogMarketSignal sg => discard (log_market_signal sg)
  | LogDailyPerformance d ms => discard (log_daily_performance d ms now)
  | BatchLogTrades ts => discard (batch_log_trades ts)
  | GetStrategyPerformance id d => discard (get_strategy_performance id d now)
  | GetRecentTrades h => discard (get_recent_trades h now)
  | Shutdown => discard shutdown
  end.

Definition exec (self : UrsusDataLogger) (ev : event) : UrsusDataLogger :=
  match ev with
  | Call c now => do_call c now self
  | Worker => snd (_batch_processor_step self)
  | Network up => set_dynamodb self (set_reachable up (dynamodb self))
  end.

Definition run (self : UrsusDataLogger) (evs : list event) : UrsusDataLogger :=
  fold_left exec evs self.

(* ================================================================== *)
(** ** The shape of the strings [str] produces *)

(** Used to show that [Decimal(str(x))] is always defined. *)
Module Shape.

Import PyDecimal.

Definition digits (l : list ascii) : Prop := Forall (fun c => is_digit c = true) l.

(** Neither white space nor an underscore. *)
Definition plain (c : ascii) : bool := negb (is_space c) && negb (Ascii.eqb c "_").

(** The rest of the string after a run of digits. *)
Definition not_digit_head (r : list ascii) : Prop :=
  match r with
  | [] => True
  | c :: _ => is_digit c = false
  end.

(** The exponent part of a rendered number: nothing, or [e], a sign and
    digits. *)
Inductive exponent_part : list ascii -> Prop :=
| exponent_none : exponent_part []
| exponent_some sg ed :
    sg = "+"%char \/ sg = "-"%char -> digits ed -> ed <> [] ->
    exponent_part ("e"%char :: sg :: ed).

Definition fraction_part (f : option (list ascii)) : list ascii :=
  match f with
  | Some ds => "."%char :: ds
  | None => []
  end.

Definition fraction_digits (f : option (list ascii)) : list ascii :=
  match f with
  | Some ds => ds
  | None => []
  end.

(** The decimal that the digits and the point position of [str(x)] spell:
    the digit string [ds] with the point after [decpt] digits is
    [ds * 10^(decpt - len ds)]. *)
Definition spelled (x : PyFloat.float) : Decimal :=
  match x with
  | S754_zero s => Finite s 0 0
  | S754_infinity s => Infinity s
  | S754_nan => NaN false false 0
  | S754_finite s m e =>
      let '(ds, decpt) := PyFloat.dtoa m e in
      Finite s (int_of_digits ds) (decpt - Z.of_nat (List.length ds))
  end.

End Shape.

(* ================================================================== *)
(** ** Statement vocabulary and sample data *)

(** No row of the strategy-metrics table matches the key condition that
    [get_strategy_performance] builds for these arguments. *)
Definition no_metric_matches (self : UrsusDataLogger) (strategy_id : string)
    (days : Z) (now : PyDatetime.datetime) : Prop :=
  forall delta start_date,
    PyDatetime.days days = Ok delta ->
    PyDatetime.sub now delta = Ok start_date ->
    Forall (fun it =>
              attr_eq "StrategyId" strategy_id it &&
              attr_between "Timestamp" (PyDatetime.isoformat start_date)
                (PyDatetime.isoformat now) it = false)
      (rows (strategy_metrics (dynamodb self))).

(** No row of the trade-logs table passes the filter that
    [get_recent_trades] builds for these arguments. *)
Definition no_trade_matches (self : UrsusDataLogger) (hours : Z)
    (now : PyDatetime.datetime) : Prop :=
  forall delta cutoff_time,
    PyDatetime.hours hours = Ok delta ->
    PyDatetime.sub now delta = Ok cutoff_time ->
    Forall (fun it =>
              attr_gte "timestamp" (PyDatetime.isoformat cutoff_time) it = false)
      (rows (trade_logs (dynamodb self))).

(** A method that leaves the queue as it found it. *)
Definition keeps_queue {A} (m : M A) : Prop :=
  forall self, data_queue (snd (m self)) = data_queue self.

(** The item [batch_log_trades] and [log_trade] build for a trade:
    [_convert_decimals(asdict(trade))]. *)
Definition trade_item (trade : TradeLog) : item :=
  match bind (_convert_decimals (asdict_trade trade)) as_item with
  | Ok it => it
  | Raise _ => []
  end.

(** The call that sends one batch of trades. *)
Definition batch_call (batch : list TradeLog) : api_call :=
  BatchWriteItem CryonithTradeLogs (map trade_item batch).

(** What one batch adds to [success_count]: every trade of the batch when
    the call goes through; when the call raises, every trade but the 25th
    of a full batch, whose [put_item] is the one that raised. *)
Definition counted (batch : list TradeLog) (s : Store) : nat :=
  if raises (fst (batch_write_item CryonithTradeLogs (map trade_item batch) s))
     && Nat.eqb (List.length batch) 25
  then 24%nat else List.length batch.

(** A batch of exactly 25 trades. *)
Definition full (batch : list TradeLog) : bool := Nat.eqb (List.length batch) 25.

(** Pairwise distinct keys. *)
Fixpoint distinct (l : list string) : bool :=
  match l with
  | [] => true
  | k :: l' => negb (existsb (String.eqb k) l') && distinct l'
  end.

Module Sample.

Import PyFloat.
Local Open Scope string_scope.

(** 2026-11-03T14:34:56.789012 UTC *)
Definition now : PyDatetime.datetime := 1793716496789012.

(** The trade, the metrics and the signal of [simulate_ursus_trading]. *)
Definition trade : TradeLog :=
  {| trade_id := "T1"; trade_timestamp := PyDatetime.isoformat now;
     strategy := "ursus_momentum_v1"; trade_symbol := "TSLA"; action := "BUY";
     quantity := of_Z 100; price := of_ratio 24550 100;
     confidence := of_ratio 85 100; market_signal := "BULLISH_MOMENTUM";
     execution_time_ms := of_ratio 1505 10;
     trade_profit_loss := None; portfolio_value := Some (of_Z 50000) |}.

Definition metric : StrategyMetric :=
  {| strategy_id := "ursus_momentum_v1";
     metric_timestamp := PyDatetime.isoformat now;
     win_rate := of_ratio 68 100; total_trades := 45;
     metric_profit_loss := of_ratio 275050 100;
     sharpe_ratio := of_ratio 185 100; max_drawdown := of_ratio 12 100;
     current_positions := 3; avg_hold_time := of_ratio 45 10 |}.

Definition signal : MarketSignal :=
  {| signal_id := "S1"; signal_timestamp := PyDatetime.isoformat now;
     signal_symbol := "TSLA"; signal_type := "BUY";
     strength := of_ratio 82 100;
     indicators := [("rsi", of_ratio 654 10); ("macd", of_ratio 23 10);
                    ("volume_sma", of_ratio 125 100);
                    ("price_momentum", of_ratio 15 100)];
     news_sentiment := Some (of_ratio 7 10); volume_analysis := None |}.

Definition empty_table (hk : string) (rk : option string) : Table :=
  {| key_schema := {| hash_key := hk; range_key := rk |}; rows := [] |}.

(** Four empty tables; the key schema of the strategy-metrics table is
    left open. *)
Definition store (up : bool) (metrics_keys : KeySchema) : Store :=
  {| reachable := up;
     trade_logs := empty_table "trade_id" None;
     strategy_metrics := {| key_schema := metrics_keys; rows := [] |};
     market_signals := empty_table "signal_id" None;
     performance := empty_table "MetricType" (Some "Date");
     calls := [] |}.

Definition logger (up : bool) (metrics_keys : KeySchema) : UrsusDataLogger :=
  __init__ "us-east-1" (store up metrics_keys).

(** The calls of [simulate_ursus_trading], then a read and a shutdown,
    as a user of the module makes them: a trade, the metrics and a signal
    are logged, the trades of the last hour are read, the logger is shut
    down. *)
Definition simulate_ursus_trading : list event :=
  [ Call (LogTrade trade) now;
    Call (LogStrategyMetrics metric) now;
    Call (LogMarketSignal signal) now;
    Worker;
    Call (GetRecentTrades 1) now;
    Call Shutdown now;
    Worker ].

Definition snake_keys : KeySchema :=
  {| hash_key := "strategy_id"; range_key := Some "timestamp" |}.

Definition camel_keys : KeySchema :=
  {| hash_key := "StrategyId"; range_key := Some "Timestamp" |}.

End Sample.

(* ================================================================== *)
(** ** The self-test: [simulate_ursus_trading] and the main block *)

Module SelfTest.

Import PyFloat.
Local Open Scope string_scope.

(** What the run reads from outside: the two [uuid.uuid4()] strings and the
    clock at each [datetime.now(timezone.utc)], in the order of the calls
    (trade, metrics, signal, then the cut-off of [get_recent_trades]). *)
Record readings : Type := {
  uuid_trade : string;
  uuid_signal : string;
  now_trade : PyDatetime.datetime;
  now_metrics : PyDatetime.datetime;
  now_signal : PyDatetime.datetime;
  now_recent : PyDatetime.datetime
}.

(** The lines written with [print], by kind and argument. *)
Inductive printed : Type :=
| TestingLogger
| MissingVariables (missing_vars : list string)
| SetThemWith
| ExportLine (var : string)
| TradeLogging (success : bool)
| TestCompleted
| RecentTradesInLastHour (n : nat)
| TestFailed (e : exn).

(** Lines 230 to 286.  The logger is returned with the result, so that the
    state of the store is known also when a call raises. *)
Definition simulate_ursus_trading (r : readings) (store : Store)
  : result unit * list printed * UrsusDataLogger :=
  let logger := __init__ "us-east-1" store in
  match TradeLog_init (Some (uuid_trade r))
          (Some (PyDatetime.isoformat (now_trade r)))
          (Some "ursus_momentum_v1") (Some "TSLA") (Some "BUY")
          (Some (of_Z 100)) (Some (of_ratio 24550 100)) (Some (of_ratio 85 100))
          (Some "BULLISH_MOMENTUM") (Some (of_ratio 1505 10))
          None (Some (Some (of_Z 50000))) with
  | Raise e => (Raise e, [], logger)
  | Ok trade =>
  match log_trade trade logger with
  | (Raise e, logger) => (Raise e, [], logger)
  | (Ok success, logger) =>
  let out := [TradeLogging success] in
  match StrategyMetric_init (Some "ursus_momentum_v1")
          (Some (PyDatetime.isoformat (now_metrics r)))
          (Some (of_ratio 68 100)) (Some 45) (Some (of_ratio 275050 100))
          (Some (of_ratio 185 100)) (Some (of_ratio 12 100)) (Some 3)
          (Some (of_ratio 45 10)) with
  | Raise e => (Raise e, out, logger)
  | Ok metrics =>
  match log_strategy_metrics metrics logger with
  | (Raise e, logger) => (Raise e, out, logger)
  | (Ok _, logger) =>
  match MarketSignal_init (Some (uuid_signal r))
          (Some (PyDatetime.isoformat (now_signal r)))
          (Some "TSLA") (Some "BUY") (Some (of_ratio 82 100))
          (Some [("rsi", of_ratio 654 10); ("macd", of_ratio 23 10);
                 ("volume_sma", of_ratio 125 100);
                 ("price_momentum", of_ratio 15 100)])
          (Some (Some (of_ratio 7 10))) None with
  | Raise e => (Raise e, out, logger)
  | Ok signal =>
  match log_market_signal signal logger with
  | (Raise e, logger) => (Raise e, out, logger)
  | (Ok _, logger) => (Ok tt, out, logger)
  end end end end end end.

(** The process environment, read with [os.getenv]. *)
Definition environ := list (string * string).

Fixpoint getenv (env : environ) (var : string) : option string :=
  match env with
  | [] => None
  | (k, v) :: env' => if String.eqb k var then Some v else getenv env' var
  end.

(** [not os.getenv(var)]: the variable is unset or empty. *)
Definition unset (env : environ) (var : string) : bool :=
  match getenv env var with
  | None => true
  | Some v => String.eqb v ""
  end.

Definition required_vars : list string :=
  ["AWS_ACCESS_KEY_ID"; "AWS_SECRET_ACCESS_KEY"].

(** The records that [simulate_ursus_trading] builds, for the statements. *)
Definition trade_of (r : readings) : TradeLog :=
  {| trade_id := uuid_trade r;
     trade_timestamp := PyDatetime.isoformat (now_trade r);
     strategy := "ursus_momentum_v1"; trade_symbol := "TSLA"; action := "BUY";
     quantity := of_Z 100; price := of_ratio 24550 100;
     confidence := of_ratio 85 100; market_signal := "BULLISH_MOMENTUM";
     execution_time_ms := of_ratio 1505 10;
     trade_profit_loss := None; portfolio_value := Some (of_Z 50000) |}.

Definition metrics_of (r : readings) : StrategyMetric :=
  {| strategy_id := "ursus_momentum_v1";
     metric_timestamp := PyDatetime.isoformat (now_metrics r);
     win_rate := of_ratio 68 100; total_trades := 45;
     metric_profit_loss := of_ratio 275050 100;
     sharpe_ratio := of_ratio 185 100; max_drawdown := of_ratio 12 100;
     current_positions := 3; avg_hold_time := of_ratio 45 10 |}.

Definition signal_of (r : readings) : MarketSignal :=
  {| signal_id := uuid_signal r;
     signal_timestamp := PyDatetime.isoformat (now_signal r);
     signal_symbol := "TSLA"; signal_type := "BUY";
     strength := of_ratio 82 100;
     indicators := [("rsi", of_ratio 654 10); ("macd", of_ratio 23 10);
                    ("volume_sma", of_ratio 125 100);
                    ("price_momentum", of_ratio 15 100)];
     news_sentiment := Some (of_ratio 7 10); volume_analysis := None |}.

(** The main block, lines 288 to 316: the exit status, the lines printed
    and the store as the process leaves it.  [exit(1)] ends the process
    with status 1; a script that runs to its end has status 0.  The
    assignment of line 305 is to the module-level name [logger]: once
    [simulate_ursus_trading] has returned, the methods called on the data
    logger find that data logger under the name they log through. *)
Definition main (env : environ) (r : readings) (store : Store)
  : Z * list printed * Store :=
  let out := [TestingLogger] in
  let missing_vars := filter (unset env) required_vars in
  match missing_vars with
  | _ :: _ =>
      (1, (out ++ [MissingVariables missing_vars; SetThemWith]
               ++ map ExportLine missing_vars)%list, store)
  | [] =>
      match simulate_ursus_trading r store with
      | (Raise e, printed, ursus) =>
          (1, (out ++ printed ++ [TestFailed e])%list, dynamodb ursus)
      | (Ok _, printed, ursus) =>
          let logger := DataLogger in
          let out := (out ++ printed ++ [TestCompleted])%list in
          match Method.get_recent_trades logger 1 (now_recent r) ursus with
          | (Raise e, ursus) => (1, (out ++ [TestFailed e])%list, dynamodb ursus)
          | (Ok recent_trades, ursus) =>
              let out :=
                (out ++ [RecentTradesInLastHour (List.length recent_trades)])%list in
              match Method.shutdown logger ursus with
              | (Raise e, ursus) =>
                  (1, (out ++ [TestFailed e])%list, dynamodb ursus)
              | (Ok _, ursus) => (0, out, dynamodb ursus)
              end
          end
      end
  end.

End SelfTest.

(* ================================================================== *)
(** ** More statement vocabulary *)

(** No float at any place that [_convert_decimals] reaches: it goes
    through dicts and lists and looks into nothing else, so what a tuple
    holds does not count here. *)
Fixpoint float_free (v : value) : bool :=
  match v with
  | VFloat _ => false
  | VList l =>
      (fix all (l : list value) : bool :=
         match l with
         | [] => true
         | x :: l' => float_free x && all l'
         end) l
  | VDict kvs =>
      (fix all (kvs : list (string * value)) : bool :=
         match kvs with
         | [] => true
         | (_, x) :: kvs' => float_free x && all kvs'
         end) kvs
  | _ => true
  end.

(** No tuple at any place reached through dicts and lists. *)
Fixpoint tuple_free (v : value) : bool :=
  match v with
  | VTuple _ => false
  | VList l =>
      (fix all (l : list value) : bool :=
         match l with
         | [] => true
         | x :: l' => tuple_free x && all l'
         end) l
  | VDict kvs =>
      (fix all (kvs : list (string * value)) : bool :=
         match kvs with
         | [] => true
         | (_, x) :: kvs' => tuple_free x && all kvs'
         end) kvs
  | _ => true
  end.

(** No float at any depth, the elements of tuples included. *)
Fixpoint no_float (v : value) : bool :=
  match v with
  | VFloat _ => false
  | VList l | VTuple l =>
      (fix all (l : list value) : bool :=
         match l with
         | [] => true
         | x :: l' => no_float x && all l'
         end) l
  | VDict kvs =>
      (fix all (kvs : list (string * value)) : bool :=
         match kvs with
         | [] => true
         | (_, x) :: kvs' => no_float x && all kvs'
         end) kvs
  | _ => true
  end.

(** The items of the calls made on the client. *)
Definition call_items (c : api_call) : list item :=
  match c with
  | PutItem _ it => [it]
  | BatchWriteItem _ its => its
  | Query _ _ _ _ _ _ => []
  | Scan _ _ _ => []
  end.

(** A batch-write request the store takes: every item serializable and
    carrying the key attributes, one to 25 items, no key twice. *)
Definition acceptable (ks : KeySchema) (its : list item) : bool :=
  forallb (fun it => serializable (VDict it)) its &&
  match all_keys ks its with
  | Some keys =>
      Nat.leb 1 (List.length its) && Nat.leb (List.length its) 25
      && distinct_keys keys
  | None => false
  end.

(** [Decimal(str(x))], with a default for the error that never occurs. *)
Definition decimal_of (x : PyFloat.float) : PyDecimal.Decimal :=
  match PyDecimal.of_str (PyFloat.str x) with
  | Ok d => d
  | Raise _ => PyDecimal.NaN false false 0
  end.

Definition opt_decimal (x : option PyFloat.float) : value :=
  match x with
  | Some f => VDecimal (decimal_of f)
  | None => VNone
  end.

(** The item carries the key attributes of the table, as strings. *)
Definition keyed (ks : KeySchema) (it : item) : bool :=
  match key_of ks it with
  | Some _ => true
  | None => false
  end.

(** A strategy-metrics table keyed the way [get_strategy_performance]
    asks, with four rows: two of the strategy inside the week before
    [Sample.now], later one first; one of another strategy; one of the
    strategy from two months before. *)
Definition camel_metrics_store : Store :=
  {| reachable := true;
     trade_logs := Sample.empty_table "trade_id" None;
     strategy_metrics :=
       {| key_schema := Sample.camel_keys;
          rows :=
            [ [("StrategyId", VStr "ursus_momentum_v1");
               ("Timestamp", VStr "2026-11-02T10:00:00+00:00");
               ("win_rate", VDecimal (PyDecimal.Finite false 68 (-2)))];
              [("StrategyId", VStr "ursus_momentum_v1");
               ("Timestamp", VStr "2026-11-01T09:30:00.250000+00:00");
               ("win_rate", VDecimal (PyDecimal.Finite false 7 (-1)))];
              [("StrategyId", VStr "ursus_reversal_v2");
               ("Timestamp", VStr "2026-11-02T11:00:00+00:00");
               ("win_rate", VDecimal (PyDecimal.Finite false 5 (-1)))];
              [("StrategyId", VStr "ursus_momentum_v1");
               ("Timestamp", VStr "2026-09-01T00:00:00+00:00");
               ("win_rate", VDecimal (PyDecimal.Finite false 6 (-1)))] ]%string |};
     market_signals := Sample.empty_table "signal_id" None;
     performance := Sample.empty_table "MetricType" (Some "Date"%string);
     calls := [] |}.

(** Every float of a trade is a finite number or a zero. *)
Definition finite (x : PyFloat.float) : bool :=
  match x with
  | S754_zero _ | S754_finite _ _ _ => true
  | _ => false
  end.

Definition finite_opt (x : option PyFloat.float) : bool :=
  match x with
  | Some f => finite f
  | None => true
  end.

Definition finite_trade (t : TradeLog) : bool :=
  finite (quantity t) && finite (price t) && finite (confidence t) &&
  finite (execution_time_ms t) && finite_opt (trade_profit_loss t) &&
  finite_opt (portfolio_value t).

(** [a <= b], or [a < b] where the end is left out. *)
Definition within (closed : bool) (a b : Z) : bool :=
  if closed then a <=? b else a <? b.

Definition Within (closed : bool) (a b : Z) : Prop :=
  if closed then a <= b else a < b.

(** Whether the number [n/d], for [0 < d], rounds to the double [x] under
    round-half-to-even, which is how [float(...)] reads a decimal: it is
    no farther from [x] than half the gap to the next double on its side
    (below a power of two the doubles are twice as dense, and the gap is
    half the unit), and a tie goes to [x] when the mantissa of [x] is
    even.  Zero takes what is at most half the smallest subnormal. *)
Definition rounds_to (x : PyFloat.float) (f : Z * Z) : bool :=
  let '(n, d) := f in
  match x with
  | S754_zero s => Z.abs n * 2 ^ (PyFloat.emax + PyFloat.prec - 2) <=? d
  | S754_finite s m e =>
      let n := if s then - n else n in
      let up := 2 ^ Z.max 0 e in
      let dn := 2 ^ Z.max 0 (- e) in
      let closed := Z.even (Z.pos m) in
      (if (Z.pos m =? 2 ^ (PyFloat.prec - 1))
          && (3 - PyFloat.emax - PyFloat.prec <? e)
       then within closed ((4 * Z.pos m - 1) * up * d) (4 * n * dn)
       else within closed ((2 * Z.pos m - 1) * up * d) (2 * n * dn))
      && within closed (2 * n * dn) ((2 * Z.pos m + 1) * up * d)
  | _ => false
  end.

(** Region, batch size and flush interval: what [__init__] sets once. *)
Definition settings (self : UrsusDataLogger) : string * nat * Z :=
  (region_name self, batch_size self, flush_interval self).

Definition is_shutdown (ev : event) : bool :=
  match ev with
  | Call Shutdown _ => true
  | _ => false
  end.

(** A method that changes nothing of the logger but the store. *)
Definition only_store {A} (m : M A) : Prop :=
  forall self, exists s, snd (m self) = set_dynamodb self s.

(** A method that runs the same whatever the flag [running] says. *)
Definition ignores_running {A} (m : M A) : Prop :=
  forall self b,
    m (set_running self b) = (fst (m self), set_running (snd (m self)) b).

(** Every item of the call is free of floats. *)
Definition sends_no_float (c : api_call) : bool :=
  forallb (fun it => float_free (VDict it)) (call_items c).

(** The items [log_strategy_metrics] and [log_market_signal] build. *)
Definition metric_item (metrics : StrategyMetric) : item :=
  match bind (_convert_decimals (asdict_metric metrics)) as_item with
  | Ok it => it
  | Raise _ => []
  end.

Definition signal_item (signal : MarketSignal) : item :=
  match bind (_convert_decimals (asdict_signal signal)) as_item with
  | Ok it => it
  | Raise _ => []
  end.

(** The store after the three puts of [simulate_ursus_trading]. *)
Definition after_simulation (r : SelfTest.readings) (store : Store) : Store :=
  let s1 := snd (put_item CryonithTradeLogs
                   (trade_item (SelfTest.trade_of r)) store) in
  let s2 := snd (put_item CryonithStrategyMetrics
                   (metric_item (SelfTest.metrics_of r)) s1) in
  snd (put_item CryonithMarketSignals (signal_item (SelfTest.signal_of r)) s2).

(** The normalized metrics of [log_daily_performance]. *)
Definition converted_metrics (metrics : dict) : dict :=
  match bind (_convert_decimals (VDict metrics)) as_item with
  | Ok it => it
  | Raise _ => []
  end.

(** A performance table keyed on the tag and the date, and metrics that
    use neither name. *)
Definition performance_keys : KeySchema :=
  {| hash_key := "MetricType"; range_key := Some "Date"%string |}.

Definition keeps_tag_and_date (metrics : dict) : bool :=
  negb (in_set "MetricType" (keys metrics)) && negb (in_set "Date" (keys metrics)).

(** An environment with both credentials. *)
Definition full_environ : SelfTest.environ :=
  [("HOME", "/home/pi"); ("AWS_ACCESS_KEY_ID", "AKIAEXAMPLE");
   ("AWS_SECRET_ACCESS_KEY", "example")]%string.

Definition sample_readings : SelfTest.readings :=
  {| SelfTest.uuid_trade := "T1"; SelfTest.uuid_signal := "S1";
     SelfTest.now_trade := Sample.now;
     SelfTest.now_metrics := Sample.now + 1000;
     SelfTest.now_signal := Sample.now + 2000;
     SelfTest.now_recent := Sample.now + 3000 |}%string.

(* ================================================================== *)
(** * Properties *)

(** ** The methods under the module's own logger

    With [logger] bound to the [logging.Logger] the logging calls return
    without any effect on the logger object or the store, so each method
    is the same function as its body without them. *)

Section UnderLoggingLogger.

Lemma log_trade_unfold trade :
  log_trade trade =
  try_
    (item <~ lift (_convert_decimals (asdict_trade trade)) ;;
     item <~ lift (as_item item) ;;
     _ <~ on_store (put_item CryonithTradeLogs item) ;;
     ret true)
    (fun _ => ret false).
Proof. reflexivity. Qed.

Lemma log_strategy_metrics_unfold metrics :
  log_strategy_metrics metrics =
  try_
    (item <~ lift (_convert_decimals (asdict_metric metrics)) ;;
     item <~ lift (as_item item) ;;
     _ <~ on_store (put_item CryonithStrategyMetrics item) ;;
     ret true)
    (fun _ => ret false).
Proof. reflexivity. Qed.

Lemma log_market_signal_unfold signal :
  log_market_signal signal =
  try_
    (item <~ lift (_convert_decimals (asdict_signal signal)) ;;
     item <~ lift (as_item item) ;;
     _ <~ on_store (put_item CryonithMarketSignals item) ;;
     ret true)
    (fun _ => ret false).
Proof. reflexivity. Qed.

Lemma log_daily_performance_unfold date metrics now :
  log_daily_performance date metrics now =
  try_
    (converted <~ lift (_convert_decimals (VDict metrics)) ;;
     converted <~ lift (as_item converted) ;;
     _ <~ on_store (put_item CryonithPerformance
                      (daily_item date converted (PyDatetime.isoformat now))) ;;
     ret true)
    (fun _ => ret false).
Proof. reflexivity. Qed.

Lemma get_strategy_performance_unfold strategy_id days now :
  get_strategy_performance strategy_id days now =
  try_
    (delta <~ lift (PyDatetime.days days) ;;
     start_date <~ lift (PyDatetime.sub now delta) ;;
     response <~ on_store
       (query CryonithStrategyMetrics "StrategyId" strategy_id "Timestamp"
          (PyDatetime.isoformat start_date) (PyDatetime.isoformat now)) ;;
     ret (get_items response []))
    (fun _ => ret []).
Proof. reflexivity. Qed.

Lemma get_recent_trades_unfold hours now :
  get_recent_trades hours now =
  try_
    (delta <~ lift (PyDatetime.hours hours) ;;
     cutoff_time <~ lift (PyDatetime.sub now delta) ;;
     response <~ on_store
       (scan CryonithTradeLogs "timestamp" (PyDatetime.isoformat cutoff_time)) ;;
     ret (get_items response []))
    (fun _ => ret []).
Proof. reflexivity. Qed.

Lemma shutdown_unfold self : shutdown self = (Ok tt, set_running self false).
Proof. reflexivity. Qed.

Lemma log_batch_round batch success_count s :
  Method.log_batch LoggingLogger batch success_count s =
  (Ok tt, fst (log_batch batch success_count s),
   snd (log_batch batch success_count s)).
Proof.
  unfold Method.log_batch, log_batch.
  destruct (with_batch_writer batch success_count s) as [[[u|e] c] s'];
    reflexivity.
Qed.

Lemma log_batches_fold bs : forall success_count s,
  Method.log_batches LoggingLogger bs success_count s =
  (Ok (fst (fold_left (fun acc batch => log_batch batch (fst acc) (snd acc))
              bs (success_count, s))),
   snd (fold_left (fun acc batch => log_batch batch (fst acc) (snd acc))
          bs (success_count, s))).
Proof.
  induction bs as [|b bs IH]; intros c s; [reflexivity|].
  cbn [Method.log_batches fold_left fst snd].
  rewrite log_batch_round, IH. destruct (log_batch b c s); reflexivity.
Qed.

Lemma batch_log_trades_unfold trades self :
  batch_log_trades trades self =
  let '(success_count, s) :=
    fold_left (fun acc batch => log_batch batch (fst acc) (snd acc))
      (batches (List.length trades) (batch_size self) trades)
      (O, dynamodb self) in
  (Ok success_count, set_dynamodb self s).
Proof.
  unfold batch_log_trades, Method.batch_log_trades.
  rewrite log_batches_fold. destruct (fold_left _ _ _); reflexivity.
Qed.

End UnderLoggingLogger.


(** ** Digits and the strings [str] produces *)

Section FloatStrings.

Import PyFloat PyDecimal Shape.

Lemma is_digit_plain c : is_digit c = true -> plain c = true.
Proof.
  destruct c as [[] [] [] [] [] [] [] []]; simpl; intros H;
    try discriminate H; reflexivity.
Qed.

Lemma digits_plain l : digits l -> Forall (fun c => plain c = true) l.
Proof.
  intros H. eapply Forall_impl; [|exact H]. apply is_digit_plain.
Qed.

Lemma uint_chars_digits u : digits (uint_chars u).
Proof.
  induction u; simpl; constructor; auto.
Qed.

Lemma uint_chars_nonempty u : u <> Decimal.Nil -> uint_chars u <> [].
Proof.
  destruct u; simpl; intros H; try discriminate; contradiction.
Qed.

Lemma digits_of_Z_digits z : digits (digits_of_Z z).
Proof. apply uint_chars_digits. Qed.

Lemma digits_of_Z_nonempty z : digits_of_Z z <> [].
Proof.
  unfold digits_of_Z. apply uint_chars_nonempty.
  destruct (Z.to_N z) as [|p]; simpl.
  - discriminate.
  - apply Unsigned.to_uint_nonnil.
Qed.

Lemma strip_zeros_rev_digits l : digits l -> digits (strip_zeros_rev l).
Proof.
  induction l as [|c l IH]; simpl; intros H; [exact H|].
  inversion H; subst.
  destruct c as [[] [] [] [] [] [] [] []]; auto.
Qed.

Lemma strip_trailing_zeros_digits l : digits l -> digits (strip_trailing_zeros l).
Proof.
  destruct l as [|c l]; simpl; intros H; [exact H|].
  inversion H; subst. constructor; [assumption|].
  apply Forall_rev, strip_zeros_rev_digits, Forall_rev. assumption.
Qed.

Lemma strip_trailing_zeros_nonempty l : l <> [] -> strip_trailing_zeros l <> [].
Proof.
  destruct l; simpl; [contradiction|discriminate].
Qed.

Lemma dtoa_digits m e :
  digits (fst (dtoa m e)) /\ fst (dtoa m e) <> [].
Proof.
  unfold dtoa.
  destruct (normalize_mantissa m e) as [m' e'].
  destruct (interval m' e') as [[v lo] hi].
  destruct (shortest _ _ _ _ _ _ _ _) as [q k]. simpl. split.
  - apply strip_trailing_zeros_digits, digits_of_Z_digits.
  - apply strip_trailing_zeros_nonempty, digits_of_Z_nonempty.
Qed.

(** *** Digits and the numbers they denote *)

Lemma int_of_digits_fold b : forall acc,
  fold_left (fun acc c => (acc * 10 + digit_val c)%N) b acc =
  (acc * 10 ^ N.of_nat (List.length b) + int_of_digits b)%N.
Proof.
  unfold int_of_digits.
  induction b as [|c b IH]; intros acc; cbn [fold_left List.length].
  - rewrite N.pow_0_r. lia.
  - rewrite IH, (IH (0 * 10 + digit_val c)%N), Nat2N.inj_succ, N.pow_succ_r'.
    ring.
Qed.

Lemma int_of_digits_app a b :
  int_of_digits (a ++ b) =
  (int_of_digits a * 10 ^ N.of_nat (List.length b) + int_of_digits b)%N.
Proof.
  unfold int_of_digits at 1. rewrite fold_left_app. apply int_of_digits_fold.
Qed.

Lemma int_of_digits_zero_cons l : int_of_digits ("0"%char :: l) = int_of_digits l.
Proof. reflexivity. Qed.

Lemma int_of_digits_zeros n : int_of_digits (zeros n) = 0%N.
Proof.
  unfold zeros. induction (Z.to_nat n) as [|k IH]; [reflexivity|].
  cbn [repeat]. rewrite int_of_digits_zero_cons. exact IH.
Qed.

Lemma length_zeros n : List.length (zeros n) = Z.to_nat n.
Proof. apply repeat_length. Qed.

Lemma int_of_uint_acc u : forall acc,
  N.pos (Pos.of_uint_acc u acc) =
  fold_left (fun acc c => (acc * 10 + digit_val c)%N) (uint_chars u) (N.pos acc).
Proof.
  induction u as [|u IH|u IH|u IH|u IH|u IH|u IH|u IH|u IH|u IH|u IH];
    intros acc; cbn [Pos.of_uint_acc uint_chars fold_left];
    [reflexivity|rewrite IH; f_equal; cbn [digit_val]; lia ..].
Qed.

Lemma int_of_uint u : int_of_digits (uint_chars u) = N.of_uint u.
Proof.
  unfold N.of_uint, int_of_digits.
  induction u as [|u IH|u IH|u IH|u IH|u IH|u IH|u IH|u IH|u IH|u IH];
    cbn [Pos.of_uint uint_chars fold_left];
    [reflexivity|exact IH|rewrite int_of_uint_acc; reflexivity ..].
Qed.

Lemma int_of_digits_of_Z z : 0 <= z -> Z.of_N (int_of_digits (digits_of_Z z)) = z.
Proof.
  intros H. unfold digits_of_Z.
  rewrite int_of_uint, DecimalN.Unsigned.of_to. apply Z2N.id. exact H.
Qed.

(** *** The parser on a rendered number *)

Lemma span_digits_app ds r :
  digits ds -> not_digit_head r -> span_digits (ds ++ r) = (ds, r).
Proof.
  induction ds as [|c ds IH]; cbn [span_digits app]; intros Hd Hr.
  - destruct r as [|c r]; [reflexivity|]. cbn [span_digits].
    unfold not_digit_head in Hr. rewrite Hr. reflexivity.
  - inversion Hd; subst. rewrite H1, IH by assumption. reflexivity.
Qed.

Lemma span_digits_all ds : digits ds -> span_digits ds = (ds, []).
Proof.
  intros H. rewrite <- (app_nil_r ds) at 1. apply span_digits_app; simpl; auto.
Qed.

Lemma exponent_part_head r : exponent_part r -> not_digit_head r.
Proof. destruct 1; simpl; auto. Qed.

Lemma exponent_part_not_point r :
  exponent_part r ->
  match r with "."%char :: _ => False | _ => True end.
Proof. destruct 1; simpl; auto. Qed.

Lemma parse_exponent_exp_chars x : parse_exponent ("e"%char :: exp_chars x) = Some x.
Proof.
  unfold parse_exponent, exp_chars.
  change (Ascii.eqb (lower "e") "e") with true. cbv beta iota.
  set (rest := if Z.abs x <? 10 then "0"%char :: digits_of_Z (Z.abs x)
               else digits_of_Z (Z.abs x)).
  assert (Hd : digits rest).
  { subst rest. destruct (Z.abs x <? 10); [constructor; [reflexivity|]|];
      apply digits_of_Z_digits. }
  assert (Hv : Z.of_N (int_of_digits rest) = Z.abs x).
  { subst rest. destruct (Z.abs x <? 10); [rewrite int_of_digits_zero_cons|];
      apply int_of_digits_of_Z, Z.abs_nonneg. }
  assert (Hne : rest <> []).
  { subst rest. destruct (Z.abs x <? 10); [discriminate|apply digits_of_Z_nonempty]. }
  pose proof (span_digits_all rest Hd) as E. clearbody rest.
  destruct rest as [|c rest]; [contradiction|].
  destruct (x <? 0) eqn:Ex; unfold split_sign; cbv beta iota; rewrite E, Hv;
    f_equal; [apply Z.ltb_lt in Ex|apply Z.ltb_ge in Ex]; lia.
Qed.

Lemma parse_number_value sign i f r z :
  digits i -> i <> [] ->
  match f with Some ds => digits ds | None => True end ->
  exponent_part r -> parse_exponent r = Some z ->
  parse_number sign (i ++ fraction_part f ++ r) =
  Some (Finite sign (int_of_digits (i ++ fraction_digits f))
          (z - Z.of_nat (List.length (fraction_digits f)))).
Proof.
  intros Hi Hne Hf Hr Hz. unfold parse_number.
  destruct f as [ds|]; cbn [fraction_part fraction_digits].
  - change (("."%char :: ds) ++ r) with ("."%char :: ds ++ r).
    rewrite span_digits_app; [|assumption|reflexivity].
    cbv beta iota.
    rewrite span_digits_app; [|assumption|apply exponent_part_head; assumption].
    destruct (i ++ ds) eqn:E.
    { apply app_eq_nil in E. destruct E; contradiction. }
    rewrite Hz. reflexivity.
  - cbn [app].
    rewrite span_digits_app; [|assumption|apply exponent_part_head; assumption].
    cbv beta iota.
    assert (Hp := exponent_part_not_point r Hr).
    assert (E : match r with
                | "."%char :: r0 => span_digits r0
                | _ => ([], r)
                end = ([], r)).
    { destruct r as [|c r]; [reflexivity|].
      destruct c as [[] [] [] [] [] [] [] []]; try reflexivity; contradiction. }
    rewrite E.
    destruct (i ++ []) eqn:E'.
    { apply app_eq_nil in E'. destruct E'; contradiction. }
    rewrite Hz. reflexivity.
Qed.

Lemma lstrip_plain l : Forall (fun c => plain c = true) l -> lstrip l = l.
Proof.
  destruct 1 as [|c l Hc Hl]; [reflexivity|]. simpl.
  unfold plain in Hc. destruct (is_space c); [discriminate|reflexivity].
Qed.

Lemma strip_plain l : Forall (fun c => plain c = true) l -> strip l = l.
Proof.
  intros H. unfold strip. rewrite (lstrip_plain l H).
  rewrite lstrip_plain by (apply Forall_rev; assumption).
  apply rev_involutive.
Qed.

Lemma remove_underscores_plain l :
  Forall (fun c => plain c = true) l -> remove_underscores l = l.
Proof.
  induction 1 as [|c l Hc Hl IH]; [reflexivity|].
  unfold remove_underscores in *. cbn [filter].
  unfold plain in Hc. destruct (Ascii.eqb c "_"); cbn [negb].
  - rewrite andb_false_r in Hc. discriminate.
  - f_equal. exact IH.
Qed.

Lemma of_str_plain l :
  Forall (fun c => plain c = true) l ->
  of_str (string_of_list_ascii l) =
  match parse l with Some d => Ok d | None => Raise InvalidOperation end.
Proof.
  intros H. unfold of_str.
  rewrite list_ascii_of_string_of_list_ascii, strip_plain, remove_underscores_plain;
    auto.
Qed.

Lemma split_sign_digit c l : is_digit c = true -> split_sign (c :: l) = (false, c :: l).
Proof.
  destruct c as [[] [] [] [] [] [] [] []]; simpl; intros H;
    try discriminate H; reflexivity.
Qed.

Lemma parse_rendered_value s i f r z :
  digits i -> i <> [] ->
  match f with Some ds => digits ds | None => True end ->
  exponent_part r -> parse_exponent r = Some z ->
  parse (sign_chars s ++ i ++ fraction_part f ++ r) =
  Some (Finite s (int_of_digits (i ++ fraction_digits f))
          (z - Z.of_nat (List.length (fraction_digits f)))).
Proof.
  intros Hi Hne Hf Hr Hz.
  pose proof (parse_number_value s i f r z Hi Hne Hf Hr Hz) as Hp.
  destruct i as [|d i]; [contradiction|].
  inversion Hi as [|? ? Hd Hi']; subst.
  unfold parse. destruct s; cbn [sign_chars app].
  - cbn [split_sign]. cbv beta iota. rewrite Hd. exact Hp.
  - rewrite split_sign_digit by assumption. cbv beta iota. rewrite Hd. exact Hp.
Qed.

Lemma exponent_part_plain r : exponent_part r -> Forall (fun c => plain c = true) r.
Proof.
  destruct 1 as [|sg ed Hsg Hd _]; constructor; [reflexivity|].
  constructor; [destruct Hsg; subst; reflexivity|apply digits_plain; assumption].
Qed.

Lemma zeros_digits n : digits (zeros n).
Proof.
  unfold zeros. induction (Z.to_nat n); simpl; constructor; auto.
Qed.

Lemma exp_chars_part x : exponent_part ("e"%char :: exp_chars x).
Proof.
  unfold exp_chars. constructor.
  - destruct (x <? 0); auto.
  - destruct (Z.abs x <? 10); [constructor; [reflexivity|]|];
      apply digits_of_Z_digits.
  - destruct (Z.abs x <? 10); [discriminate|apply digits_of_Z_nonempty].
Qed.

Lemma same_value_refl d : same_value d d.
Proof.
  unfold same_value. destruct (to_fraction d); reflexivity.
Qed.

(** Trailing zeros before the point, and the [.0] after it, change the
    representation and not the number. *)
Lemma same_value_padded s c k :
  0 <= k ->
  same_value
    (Finite s ((c * 10 ^ N.of_nat (Z.to_nat k) + 0) * 10 ^ N.of_nat 1 + 0)%N (0 - 1))
    (Finite s c k).
Proof.
  intros Hk. unfold same_value, to_fraction, same_number.
  replace (0 <=? 0 - 1) with false by reflexivity.
  replace (0 <=? k) with true by (symmetry; apply Z.leb_le; exact Hk).
  cbn [fst snd].
  assert (E : Z.of_N ((c * 10 ^ N.of_nat (Z.to_nat k) + 0) * 10 ^ N.of_nat 1 + 0)
              = Z.of_N c * 10 ^ k * 10).
  { repeat first [rewrite N2Z.inj_add | rewrite N2Z.inj_mul
                  | rewrite N2Z.inj_pow | rewrite nat_N_Z].
    rewrite Z2Nat.id by exact Hk.
    change (Z.of_N 10) with 10. change (Z.of_N 0) with 0.
    change (10 ^ Z.of_nat 1) with 10. ring. }
  rewrite E. change (10 ^ (- (0 - 1))) with 10.
  destruct s; lia.
Qed.

(** The four layouts of [format_short]: each is a rendered number whose
    digits and exponent spell [ds * 10^(decpt - len ds)]. *)
Lemma format_short_cases ds decpt :
  digits ds -> ds <> [] ->
  exists i f r z,
    format_short ds decpt = i ++ fraction_part f ++ r /\
    digits i /\ i <> [] /\
    match f with Some x => digits x | None => True end /\
    exponent_part r /\ parse_exponent r = Some z /\
    forall s,
      same_value
        (Finite s (int_of_digits (i ++ fraction_digits f))
           (z - Z.of_nat (List.length (fraction_digits f))))
        (Finite s (int_of_digits ds) (decpt - Z.of_nat (List.length ds))).
Proof.
  intros Hd Hne. unfold format_short.
  destruct ((decpt <=? -4) || (16 <? decpt)).
  - destruct ds as [|d ds]; [contradiction|]. inversion Hd; subst.
    cbn [firstn skipn].
    destruct (1 <? Z.of_nat (List.length (d :: ds))) eqn:E1.
    + exists [d], (Some ds), ("e"%char :: exp_chars (decpt - 1)), (decpt - 1).
      split; [reflexivity|]. split; [repeat constructor; assumption|].
      split; [discriminate|]. split; [assumption|].
      split; [apply exp_chars_part|]. split; [apply parse_exponent_exp_chars|].
      intros s. cbn [fraction_digits app].
      replace (decpt - 1 - Z.of_nat (List.length ds))
        with (decpt - Z.of_nat (List.length (d :: ds)))
        by (cbn [List.length]; lia).
      apply same_value_refl.
    + exists [d], None, ("e"%char :: exp_chars (decpt - 1)), (decpt - 1).
      split; [reflexivity|]. split; [repeat constructor; assumption|].
      split; [discriminate|]. split; [exact I|].
      split; [apply exp_chars_part|]. split; [apply parse_exponent_exp_chars|].
      intros s. cbn [fraction_digits app].
      assert (ds = []) as ->.
      { destruct ds; [reflexivity|]. apply Z.ltb_ge in E1.
        cbn [List.length] in E1. lia. }
      replace (decpt - 1 - Z.of_nat (List.length (@nil ascii)))
        with (decpt - Z.of_nat (List.length [d]))
        by (cbn [List.length]; lia).
      apply same_value_refl.
  - destruct (decpt <=? 0) eqn:E0.
    + apply Z.leb_le in E0.
      exists ["0"%char], (Some (zeros (- decpt) ++ ds)), [], 0.
      split; [rewrite app_nil_r; reflexivity|]. split; [repeat constructor|].
      split; [discriminate|].
      split; [apply Forall_app; split; [apply zeros_digits|assumption]|].
      split; [constructor|]. split; [reflexivity|].
      intros s. cbn [fraction_digits app].
      rewrite int_of_digits_zero_cons, int_of_digits_app, int_of_digits_zeros.
      rewrite length_app, length_zeros.
      replace (0 * 10 ^ N.of_nat (List.length ds) + int_of_digits ds)%N
        with (int_of_digits ds) by lia.
      replace (0 - Z.of_nat (Z.to_nat (- decpt) + List.length ds))
        with (decpt - Z.of_nat (List.length ds)) by lia.
      apply same_value_refl.
    + apply Z.leb_gt in E0.
      destruct (Z.of_nat (List.length ds) <=? decpt) eqn:E2.
      * apply Z.leb_le in E2.
        exists (ds ++ zeros (decpt - Z.of_nat (List.length ds))),
          (Some ["0"%char]), [], 0.
        split; [rewrite <- app_assoc; reflexivity|].
        split; [apply Forall_app; split; [assumption|apply zeros_digits]|].
        split; [intros E; apply app_eq_nil in E; destruct E; contradiction|].
        split; [repeat constructor|]. split; [constructor|].
        split; [reflexivity|].
        intros s. cbn [fraction_digits].
        rewrite !int_of_digits_app, int_of_digits_zeros, length_zeros.
        change (int_of_digits ["0"%char]) with 0%N.
        change (Z.of_nat (List.length ["0"%char])) with 1.
        change (N.of_nat (List.length ["0"%char])) with (N.of_nat 1).
        apply same_value_padded. lia.
      * apply Z.leb_gt in E2.
        exists (firstn (Z.to_nat decpt) ds), (Some (skipn (Z.to_nat decpt) ds)), [], 0.
        split; [rewrite app_nil_r; reflexivity|].
        split; [rewrite <- (firstn_skipn (Z.to_nat decpt) ds) in Hd;
                apply Forall_app in Hd; apply Hd|].
        split.
        { destruct ds as [|d ds]; [contradiction|].
          destruct (Z.to_nat decpt) eqn:En; [lia|discriminate]. }
        split; [rewrite <- (firstn_skipn (Z.to_nat decpt) ds) in Hd;
                apply Forall_app in Hd; apply Hd|].
        split; [constructor|]. split; [reflexivity|].
        intros s. cbn [fraction_digits].
        rewrite firstn_skipn, length_skipn.
        replace (0 - Z.of_nat (List.length ds - Z.to_nat decpt))
          with (decpt - Z.of_nat (List.length ds)) by lia.
        apply same_value_refl.
Qed.

Lemma rendered_plain s i f r :
  digits i -> match f with Some x => digits x | None => True end ->
  exponent_part r ->
  Forall (fun c => plain c = true) (sign_chars s ++ i ++ fraction_part f ++ r).
Proof.
  intros Hi Hf Hr. apply Forall_app. split.
  - destruct s; simpl; repeat constructor.
  - apply Forall_app. split; [apply digits_plain; assumption|].
    apply Forall_app. split; [|apply exponent_part_plain; assumption].
    destruct f; simpl; constructor; [reflexivity|apply digits_plain; assumption].
Qed.

(** [Decimal(str(x))] never raises for a float [x], and the decimal it
    builds is the number that the digits of [str(x)] spell. *)
Lemma of_str_str_spelled (x : float) :
  exists d, of_str (str x) = Ok d /\ same_value d (spelled x).
Proof.
  unfold str. destruct x as [s|s| |s m e].
  - destruct s; eexists; (split; [reflexivity|]); reflexivity.
  - destruct s; eexists; (split; [reflexivity|]); reflexivity.
  - eexists; split; reflexivity.
  - unfold repr_chars, spelled. destruct (dtoa_digits m e) as [Hd Hne].
    destruct (dtoa m e) as [ds decpt]. cbn [fst] in Hd, Hne.
    destruct (format_short_cases ds decpt Hd Hne)
      as (i & f & r & z & E & Hi & Hin & Hf & Hr & Hz & Hv).
    rewrite E, of_str_plain by (apply rendered_plain; assumption).
    rewrite (parse_rendered_value s i f r z Hi Hin Hf Hr Hz).
    eexists. split; [reflexivity|apply Hv].
Qed.

Lemma of_str_str_ok (x : float) : exists d, of_str (str x) = Ok d.
Proof.
  destruct (of_str_str_spelled x) as (d & H & _). eauto.
Qed.

End FloatStrings.

(* ================================================================== *)
(** ** The value normalizer *)

Section Normalizer.

Import PyFloat PyDecimal Shape.

(** Induction on values, with the hypothesis available for every element
    of a list and every value of a dict. *)
Lemma value_nested_ind (P : value -> Prop) :
  P VNone ->
  (forall b, P (VBool b)) ->
  (forall n, P (VInt n)) ->
  (forall s, P (VStr s)) ->
  (forall f, P (VFloat f)) ->
  (forall d, P (VDecimal d)) ->
  (forall l, Forall P l -> P (VList l)) ->
  (forall l, Forall P l -> P (VTuple l)) ->
  (forall kvs, Forall (fun kv => P (snd kv)) kvs -> P (VDict kvs)) ->
  forall v, P v.
Proof.
  intros HNone HBool HInt HStr HFloat HDec HList HTuple HDict.
  fix IH 1. intros [ | b | n | s | f | d | l | l | kvs].
  - exact HNone.
  - apply HBool.
  - apply HInt.
  - apply HStr.
  - apply HFloat.
  - apply HDec.
  - apply HList. induction l as [|x l IHl]; constructor; [apply IH|exact IHl].
  - apply HTuple. induction l as [|x l IHl]; constructor; [apply IH|exact IHl].
  - apply HDict. induction kvs as [|[k v] kvs IHk]; constructor;
      [apply IH|exact IHk].
Qed.

Lemma convert_dict kvs :
  _convert_decimals (VDict kvs) = kvs' <- convert_items kvs ;; Ok (VDict kvs').
Proof.
  reflexivity.
Qed.

Lemma convert_list l :
  _convert_decimals (VList l) = l' <- convert_elems l ;; Ok (VList l').
Proof.
  reflexivity.
Qed.

Lemma convert_float f :
  _convert_decimals (VFloat f) = d <- of_str (str f) ;; Ok (VDecimal d).
Proof. reflexivity. Qed.

Lemma bind_ok {A B} (r : result A) (k : A -> result B) (b : B) :
  bind r k = Ok b -> exists a, r = Ok a /\ k a = Ok b.
Proof.
  destruct r as [a|e]; simpl; intros H; [eauto|discriminate].
Qed.

(** The entries of a dict: same keys in the same order, each value
    normalized, as soon as every value can be normalized. *)
Lemma convert_items_spec kvs :
  Forall (fun kv => exists v', _convert_decimals (snd kv) = Ok v') kvs ->
  exists kvs',
    convert_items kvs = Ok kvs' /\
    keys kvs' = keys kvs /\
    Forall2 (fun kv kv' => fst kv' = fst kv /\
                           _convert_decimals (snd kv) = Ok (snd kv')) kvs kvs'.
Proof.
  induction 1 as [|[k v] kvs [v' Hv] _ (kvs' & Hc & Hk & Hf)].
  - exists []. repeat split; constructor.
  - exists ((k, v') :: kvs'). cbn [convert_items]. simpl in Hv.
    rewrite Hv, Hc. simpl. rewrite Hk. repeat split. constructor; auto.
Qed.

Lemma convert_elems_spec l :
  Forall (fun x => exists x', _convert_decimals x = Ok x') l ->
  exists l',
    convert_elems l = Ok l' /\
    List.length l' = List.length l /\
    Forall2 (fun x x' => _convert_decimals x = Ok x') l l'.
Proof.
  induction 1 as [|x l [x' Hx] _ (l' & Hc & Hl & Hf)].
  - exists []. repeat split; constructor.
  - exists (x' :: l'). cbn [convert_elems].
    rewrite Hx, Hc. simpl. rewrite Hl. repeat split. constructor; auto.
Qed.

(** No branch of [_convert_decimals] raises. *)
Lemma convert_total v : exists v', _convert_decimals v = Ok v'.
Proof.
  induction v as [ | b | n | s | f | d | l IH | tl IH | kvs IH] using value_nested_ind;
    try (eexists; reflexivity).
  - destruct (of_str_str_ok f) as [d Hd]. exists (VDecimal d).
    rewrite convert_float, Hd. reflexivity.
  - destruct (convert_elems_spec l IH) as (l' & Hc & _).
    exists (VList l'). rewrite convert_list, Hc. reflexivity.
  - destruct (convert_items_spec kvs IH) as (kvs' & Hc & _).
    exists (VDict kvs'). rewrite convert_dict, Hc. reflexivity.
Qed.

(** A normalized value is left as it is by a second pass. *)
Lemma convert_fixed v : forall v', _convert_decimals v = Ok v' -> _convert_decimals v' = Ok v'.
Proof.
  induction v as [ | b | n | s | f | d | l IH | tl IH | kvs IH] using value_nested_ind;
    intros v' H; try (injection H as <-; reflexivity).
  - rewrite convert_float in H. apply bind_ok in H. destruct H as (d & _ & H).
    injection H as <-. reflexivity.
  - rewrite convert_list in H. apply bind_ok in H. destruct H as (l' & Hc & H).
    injection H as <-. rewrite convert_list.
    assert (E : convert_elems l' = Ok l'); [|rewrite E; reflexivity].
    revert l' Hc. induction IH as [|x l Hx _ IHl]; intros l' Hc.
    + injection Hc as <-. reflexivity.
    + cbn [convert_elems] in Hc.
      apply bind_ok in Hc. destruct Hc as (x' & Hx' & Hc).
      apply bind_ok in Hc. destruct Hc as (r' & Hr' & Hc).
      injection Hc as <-. cbn [convert_elems].
      rewrite (Hx _ Hx'), (IHl _ Hr'). reflexivity.
  - rewrite convert_dict in H. apply bind_ok in H. destruct H as (kvs' & Hc & H).
    injection H as <-. rewrite convert_dict.
    assert (E : convert_items kvs' = Ok kvs'); [|rewrite E; reflexivity].
    revert kvs' Hc. induction IH as [|[k v] kvs Hv _ IHk]; intros kvs' Hc.
    + injection Hc as <-. reflexivity.
    + cbn [convert_items] in Hc.
      apply bind_ok in Hc. destruct Hc as (v' & Hv' & Hc).
      apply bind_ok in Hc. destruct Hc as (r' & Hr' & Hc).
      injection Hc as <-. cbn [convert_items].
      rewrite (Hv _ Hv'), (IHk _ Hr'). reflexivity.
Qed.

(** C1, as it fails.  A tuple is a sequence, and it comes back as it
    went in: the float inside is not replaced, in a tuple given directly
    and in one held by a dict. *)
Lemma convert_decimals_leaves_tuples :
  _convert_decimals (VTuple [VFloat (of_ratio 3 2)])
    = Ok (VTuple [VFloat (of_ratio 3 2)]) /\
  _convert_decimals (VTuple [VFloat (of_ratio 3 2)])
    <> Ok (VTuple [VDecimal (Finite false 15 (-1))]) /\
  _convert_decimals (VFloat (of_ratio 3 2))
    = Ok (VDecimal (Finite false 15 (-1))) /\
  _convert_decimals (VDict [("x"%string, VTuple [VFloat (of_ratio 3 2)])])
    = Ok (VDict [("x"%string, VTuple [VFloat (of_ratio 3 2)])]).
Proof.
  repeat split; try reflexivity; try (vm_compute; reflexivity).
  discriminate.
Qed.

(** C1, amended.  [_convert_decimals] case by case: a dict comes back as a
    dict with the same keys in the same order and every value normalized;
    a list comes back as a list of the same length with every element
    normalized in place; a float [x] comes back as the Decimal built from
    the string [str(x)], which is numerically the decimal that the digits
    of [str(x)] spell; everything else comes back unchanged: [None], a
    bool, an int, a string, a Decimal, and also a tuple, whose elements
    are not looked at.  The strings and Decimals of sample floats are
    given in full: 245.50 is stored as the decimal 245.5, the same number
    as 245.50 and not 245.50000000000001; 0.1 as 0.1; the sum 0.1 + 0.2 as
    0.30000000000000004, the shortest decimal that reads back as that
    float; 1e22 and 1e-07 with their exponents. *)
Theorem convert_decimals_case_wise :
  (forall kvs, exists kvs',
      _convert_decimals (VDict kvs) = Ok (VDict kvs') /\
      keys kvs' = keys kvs /\
      Forall2 (fun kv kv' => fst kv' = fst kv /\
                             _convert_decimals (snd kv) = Ok (snd kv')) kvs kvs') /\
  (forall l, exists l',
      _convert_decimals (VList l) = Ok (VList l') /\
      List.length l' = List.length l /\
      Forall2 (fun x x' => _convert_decimals x = Ok x') l l') /\
  (forall x, exists d,
      of_str (str x) = Ok d /\ _convert_decimals (VFloat x) = Ok (VDecimal d) /\
      same_value d (spelled x)) /\
  (is_binary64 (of_ratio 24550 100) = true /\
   str (of_ratio 24550 100) = "245.5"%string /\
   _convert_decimals (VFloat (of_ratio 24550 100))
     = Ok (VDecimal (Finite false 2455 (-1))) /\
   to_fraction (Finite false 2455 (-1)) = Some (2455, 10) /\
   same_number (2455, 10) (24550, 100) /\
   ~ same_number (2455, 10) (24550000000000001, 100000000000000)) /\
  (map (fun x => (str x, _convert_decimals (VFloat x)))
     [ of_ratio 1 10; of_ratio 68 100; of_ratio 275050 100;
       add (of_ratio 1 10) (of_ratio 2 10); of_ratio 1 3;
       of_Z 100; of_Z (10 ^ 15); of_Z (10 ^ 16); of_Z (10 ^ 22);
       of_ratio 1 10000; of_ratio 1 10000000;
       of_ratio 123456789123456789 1000000000; of_Z (2 ^ 53);
       SFopp (of_ratio 3 2) ]
   = [ ("0.1", Ok (VDecimal (Finite false 1 (-1))));
       ("0.68", Ok (VDecimal (Finite false 68 (-2))));
       ("2750.5", Ok (VDecimal (Finite false 27505 (-1))));
       ("0.30000000000000004",
        Ok (VDecimal (Finite false 30000000000000004 (-17))));
       ("0.3333333333333333",
        Ok (VDecimal (Finite false 3333333333333333 (-16))));
       ("100.0", Ok (VDecimal (Finite false 1000 (-1))));
       ("1000000000000000.0",
        Ok (VDecimal (Finite false 10000000000000000 (-1))));
       ("1e+16", Ok (VDecimal (Finite false 1 16)));
       ("1e+22", Ok (VDecimal (Finite false 1 22)));
       ("0.0001", Ok (VDecimal (Finite false 1 (-4))));
       ("1e-07", Ok (VDecimal (Finite false 1 (-7))));
       ("123456789.12345679",
        Ok (VDecimal (Finite false 12345678912345679 (-8))));
       ("9007199254740992.0",
        Ok (VDecimal (Finite false 90071992547409920 (-1))));
       ("-1.5", Ok (VDecimal (Finite true 15 (-1)))) ]%string) /\
  (_convert_decimals VNone = Ok VNone /\
   (forall b, _convert_decimals (VBool b) = Ok (VBool b)) /\
   (forall n, _convert_decimals (VInt n) = Ok (VInt n)) /\
   (forall s, _convert_decimals (VStr s) = Ok (VStr s)) /\
   (forall d, _convert_decimals (VDecimal d) = Ok (VDecimal d)) /\
   (forall l, _convert_decimals (VTuple l) = Ok (VTuple l))).
Proof.
  split; [|split; [|split; [|split; [|split]]]].
  - intros kvs.
    destruct (convert_items_spec kvs) as (kvs' & Hc & Hk & Hf).
    { apply Forall_forall. intros kv _. apply convert_total. }
    exists kvs'. rewrite convert_dict, Hc. auto.
  - intros l.
    destruct (convert_elems_spec l) as (l' & Hc & Hl & Hf).
    { apply Forall_forall. intros x _. apply convert_total. }
    exists l'. rewrite convert_list, Hc. auto.
  - intros x. destruct (of_str_str_spelled x) as (d & Hd & Hv). exists d.
    rewrite convert_float, Hd. auto.
  - repeat split; try (vm_compute; reflexivity).
    unfold same_number; simpl. lia.
  - vm_compute. reflexivity.
  - repeat split; reflexivity.
Qed.

(** C5.  Normalizing twice is normalizing once: every value [x] has a
    normal form [y], and [y] is its own normal form (the second pass
    returns the very value it was given); a Decimal is passed through as it
    is. *)
Theorem convert_decimals_idempotent :
  (forall x, exists y,
      _convert_decimals x = Ok y /\ _convert_decimals y = Ok y /\
      bind (_convert_decimals x) _convert_decimals = _convert_decimals x) /\
  (forall d, _convert_decimals (VDecimal d) = Ok (VDecimal d)).
Proof.
  split; [|reflexivity].
  intros x. destruct (convert_total x) as [y Hy]. exists y.
  pose proof (convert_fixed x y Hy) as Hf.
  repeat split; try assumption. rewrite Hy. exact Hf.
Qed.

(** C6.  [_convert_decimals] returns a value for every input built from
    dicts, lists, floats and scalars: the only call that can raise,
    [Decimal(str(x))], never does, whatever the float (finite, zero,
    infinite or NaN). *)
Theorem convert_decimals_total :
  forall v, exists v', _convert_decimals v = Ok v' /\ raises (_convert_decimals v) = false.
Proof.
  intros v. destruct (convert_total v) as [v' H]. exists v'.
  rewrite H. auto.
Qed.

End Normalizer.

(* ================================================================== *)
(** ** The record model *)

Section RecordModel.

Import PyFloat.
Local Open Scope string_scope.

(** C2, as it fails.  A trade whose action is outside BUY, SELL, HOLD and
    whose confidence is 1.5, a metric whose win_rate is 1.5 and a signal
    whose type is outside BUY, SELL, NEUTRAL and whose strength is 1.5 are
    all constructed without an error; a missing required field raises
    [TypeError]. *)
Lemma TradeLog_init_accepts_out_of_range :
  (in_set "FOO" trade_actions = false /\
   in_set "HOLD" signal_types = false /\
   is_binary64 (of_ratio 15 10) = true /\
   in_unit_interval (of_ratio 15 10) = false) /\
  (exists t,
      TradeLog_init (Some "T1") (Some "2026-11-03T14:34:56+00:00")
        (Some "ursus_momentum_v1") (Some "TSLA") (Some "FOO")
        (Some (of_Z 100)) (Some (of_ratio 24550 100)) (Some (of_ratio 15 10))
        (Some "BULLISH_MOMENTUM") (Some (of_ratio 1505 10)) None None = Ok t /\
      action t = "FOO" /\ confidence t = of_ratio 15 10) /\
  (exists m,
      StrategyMetric_init (Some "ursus_momentum_v1")
        (Some "2026-11-03T14:34:56+00:00") (Some (of_ratio 15 10)) (Some 45)
        (Some (of_ratio 275050 100)) (Some (of_ratio 185 100))
        (Some (of_ratio 12 100)) (Some 3) (Some (of_ratio 45 10)) = Ok m /\
      win_rate m = of_ratio 15 10) /\
  (exists g,
      MarketSignal_init (Some "S1") (Some "2026-11-03T14:34:56+00:00")
        (Some "TSLA") (Some "HOLD") (Some (of_ratio 15 10)) (Some [])
        None None = Ok g /\
      signal_type g = "HOLD" /\ strength g = of_ratio 15 10) /\
  TradeLog_init None (Some "2026-11-03T14:34:56+00:00")
    (Some "ursus_momentum_v1") (Some "TSLA") (Some "BUY")
    (Some (of_Z 100)) (Some (of_ratio 24550 100)) (Some (of_ratio 85 100))
    (Some "BULLISH_MOMENTUM") (Some (of_ratio 1505 10)) None None
  = Raise TypeError.
Proof.
  split; [repeat split; vm_compute; reflexivity|].
  split; [eexists; split; [reflexivity|]; split; reflexivity|].
  split; [eexists; split; reflexivity|].
  split; [eexists; split; [reflexivity|]; split; reflexivity|].
  reflexivity.
Qed.

(** C2, amended.  The three constructors bind their arguments and test
    nothing: with every required field given they return the record
    holding the values as given, whatever the action, the signal type and
    the values of confidence, win_rate and strength; the only failure is
    [TypeError], raised when a required field is not given.  They read and
    write no state. *)
Theorem dataclass_init_binds_without_validation :
  (forall trade_id timestamp strategy symbol action quantity price confidence
          market_signal execution_time_ms profit_loss portfolio_value,
      TradeLog_init (Some trade_id) (Some timestamp) (Some strategy) (Some symbol)
        (Some action) (Some quantity) (Some price) (Some confidence)
        (Some market_signal) (Some execution_time_ms) profit_loss portfolio_value
      = Ok {| trade_id := trade_id; trade_timestamp := timestamp;
              strategy := strategy; trade_symbol := symbol; action := action;
              quantity := quantity; price := price; confidence := confidence;
              market_signal := market_signal;
              execution_time_ms := execution_time_ms;
              trade_profit_loss := defaulted profit_loss;
              portfolio_value := defaulted portfolio_value |}) /\
  (forall strategy_id timestamp win_rate total_trades profit_loss sharpe_ratio
          max_drawdown current_positions avg_hold_time,
      StrategyMetric_init (Some strategy_id) (Some timestamp) (Some win_rate)
        (Some total_trades) (Some profit_loss) (Some sharpe_ratio)
        (Some max_drawdown) (Some current_positions) (Some avg_hold_time)
      = Ok {| strategy_id := strategy_id; metric_timestamp := timestamp;
              win_rate := win_rate; total_trades := total_trades;
              metric_profit_loss := profit_loss; sharpe_ratio := sharpe_ratio;
              max_drawdown := max_drawdown;
              current_positions := current_positions;
              avg_hold_time := avg_hold_time |}) /\
  (forall signal_id timestamp symbol signal_type strength indicators
          news_sentiment volume_analysis,
      MarketSignal_init (Some signal_id) (Some timestamp) (Some symbol)
        (Some signal_type) (Some strength) (Some indicators)
        news_sentiment volume_analysis
      = Ok {| signal_id := signal_id; signal_timestamp := timestamp;
              signal_symbol := symbol; signal_type := signal_type;
              strength := strength; indicators := indicators;
              news_sentiment := defaulted news_sentiment;
              volume_analysis := defaulted volume_analysis |}) /\
  (forall a1 a2 a3 a4 a5 a6 a7 a8 a9 a10 a11 a12,
      match TradeLog_init a1 a2 a3 a4 a5 a6 a7 a8 a9 a10 a11 a12 with
      | Ok _ => given a1 && given a2 && given a3 && given a4 && given a5 &&
                given a6 && given a7 && given a8 && given a9 && given a10 = true
      | Raise e => e = TypeError /\
                   given a1 && given a2 && given a3 && given a4 && given a5 &&
                   given a6 && given a7 && given a8 && given a9 && given a10 = false
      end) /\
  (forall a1 a2 a3 a4 a5 a6 a7 a8 a9,
      match StrategyMetric_init a1 a2 a3 a4 a5 a6 a7 a8 a9 with
      | Ok _ => given a1 && given a2 && given a3 && given a4 && given a5 &&
                given a6 && given a7 && given a8 && given a9 = true
      | Raise e => e = TypeError /\
                   given a1 && given a2 && given a3 && given a4 && given a5 &&
                   given a6 && given a7 && given a8 && given a9 = false
      end) /\
  (forall a1 a2 a3 a4 a5 a6 a7 a8,
      match MarketSignal_init a1 a2 a3 a4 a5 a6 a7 a8 with
      | Ok _ => given a1 && given a2 && given a3 && given a4 && given a5 &&
                given a6 = true
      | Raise e => e = TypeError /\
                   given a1 && given a2 && given a3 && given a4 && given a5 &&
                   given a6 = false
      end).
Proof.
  repeat split; intros; try reflexivity.
  - destruct a1, a2, a3, a4, a5, a6, a7, a8, a9, a10; simpl; auto.
  - destruct a1, a2, a3, a4, a5, a6, a7, a8, a9; simpl; auto.
  - destruct a1, a2, a3, a4, a5, a6; simpl; auto.
Qed.

End RecordModel.

(* ================================================================== *)
(** ** The logger: what its methods return *)

Section ReadAccessors.

Local Open Scope string_scope.

Lemma filter_none {A} (f : A -> bool) l :
  Forall (fun x => f x = false) l -> filter f l = [].
Proof.
  induction 1 as [|x l Hx _ IH]; simpl; [reflexivity|]. rewrite Hx. exact IH.
Qed.

(** What [get_recent_trades] returns, in every state. *)
Lemma get_recent_trades_eval hours now self :
  fst (get_recent_trades hours now self) =
  Ok match PyDatetime.hours hours with
     | Ok delta =>
         match PyDatetime.sub now delta with
         | Ok cutoff_time =>
             if reachable (dynamodb self)
             then filter (attr_gte "timestamp" (PyDatetime.isoformat cutoff_time))
                    (rows (trade_logs (dynamodb self)))
             else []
         | Raise _ => []
         end
     | Raise _ => []
     end.
Proof.
  rewrite get_recent_trades_unfold. unfold try_, mbind, lift, on_store, ret, scan.
  destruct (PyDatetime.hours hours) as [delta|]; [|reflexivity].
  destruct (PyDatetime.sub now delta) as [cutoff|]; [|reflexivity].
  simpl. destruct (reachable (dynamodb self)); reflexivity.
Qed.

(** What [get_strategy_performance] returns, in every state. *)
Lemma get_strategy_performance_eval strategy_id days now self :
  fst (get_strategy_performance strategy_id days now self) =
  Ok match PyDatetime.days days with
     | Ok delta =>
         match PyDatetime.sub now delta with
         | Ok start_date =>
             let tb := strategy_metrics (dynamodb self) in
             if reachable (dynamodb self) &&
                String.eqb (hash_key (key_schema tb)) "StrategyId" &&
                match range_key (key_schema tb) with
                | Some rk => String.eqb rk "Timestamp"
                | None => false
                end
             then sort_by "Timestamp"
                    (filter (fun it =>
                               attr_eq "StrategyId" strategy_id it &&
                               attr_between "Timestamp"
                                 (PyDatetime.isoformat start_date)
                                 (PyDatetime.isoformat now) it)
                       (rows tb))
             else []
         | Raise _ => []
         end
     | Raise _ => []
     end.
Proof.
  rewrite get_strategy_performance_unfold.
  unfold try_, mbind, lift, on_store, ret, query.
  destruct (PyDatetime.days days) as [delta|]; [|reflexivity].
  destruct (PyDatetime.sub now delta) as [start|]; [|reflexivity].
  simpl. destruct (reachable (dynamodb self)); [|reflexivity]. simpl.
  destruct (range_key (key_schema (strategy_metrics (dynamodb self)))) as [rk|];
    [|rewrite andb_false_r; reflexivity].
  destruct (String.eqb (hash_key _) "StrategyId"); [|reflexivity].
  destruct (String.eqb rk "Timestamp"); reflexivity.
Qed.

(** C3, as it fails.  With the store unreachable the scan and the query
    raise, and both accessors return the empty list instead of letting the
    error through. *)
Lemma read_accessors_hide_unreachable_store :
  fst (scan CryonithTradeLogs "timestamp" "2026-11-02T14:34:56.789012+00:00"
         (dynamodb (Sample.logger false Sample.camel_keys)))
    = Raise EndpointConnectionError /\
  fst (get_recent_trades 24 Sample.now (Sample.logger false Sample.camel_keys))
    = Ok [] /\
  fst (get_strategy_performance "ursus_momentum_v1" 7 Sample.now
         (Sample.logger false Sample.camel_keys)) = Ok [] /\
  fst (get_recent_trades 24 Sample.now (Sample.logger false Sample.camel_keys))
    <> Raise EndpointConnectionError /\
  fst (get_strategy_performance "ursus_momentum_v1" 7 Sample.now
         (Sample.logger false Sample.camel_keys))
    <> Raise EndpointConnectionError.
Proof.
  repeat split; try (vm_compute; reflexivity); vm_compute; discriminate.
Qed.

(** The accessors with the name [logger] naming the data logger, as in
    the main block after line 305: the handler's [logger.error] raises. *)
Lemma get_recent_trades_under_data_logger hours now self :
  fst (Method.get_recent_trades DataLogger hours now self) =
  match bind (PyDatetime.hours hours) (PyDatetime.sub now) with
  | Ok cutoff_time =>
      if reachable (dynamodb self)
      then Ok (filter (attr_gte "timestamp" (PyDatetime.isoformat cutoff_time))
                 (rows (trade_logs (dynamodb self))))
      else Raise (AttributeError "error")
  | Raise _ => Raise (AttributeError "error")
  end.
Proof.
  unfold Method.get_recent_trades, Method.error, try_, mbind, lift, on_store,
    ret, scan, logger_call.
  destruct (PyDatetime.hours hours) as [delta|]; [|reflexivity].
  cbn [bind].
  destruct (PyDatetime.sub now delta) as [cutoff|]; [|reflexivity].
  cbn [reachable record_call].
  destruct (reachable (dynamodb self)); reflexivity.
Qed.

Lemma get_strategy_performance_under_data_logger strategy_id days now self :
  fst (Method.get_strategy_performance DataLogger strategy_id days now self) =
  match bind (PyDatetime.days days) (PyDatetime.sub now) with
  | Ok start_date =>
      let tb := strategy_metrics (dynamodb self) in
      if reachable (dynamodb self) &&
         String.eqb (hash_key (key_schema tb)) "StrategyId" &&
         match range_key (key_schema tb) with
         | Some rk => String.eqb rk "Timestamp"
         | None => false
         end
      then Ok (sort_by "Timestamp"
                 (filter (fun it =>
                            attr_eq "StrategyId" strategy_id it &&
                            attr_between "Timestamp"
                              (PyDatetime.isoformat start_date)
                              (PyDatetime.isoformat now) it)
                    (rows tb)))
      else Raise (AttributeError "error")
  | Raise _ => Raise (AttributeError "error")
  end.
Proof.
  unfold Method.get_strategy_performance, Method.error, try_, mbind, lift,
    on_store, ret, query, logger_call.
  destruct (PyDatetime.days days) as [delta|]; [|reflexivity].
  cbn [bind].
  destruct (PyDatetime.sub now delta) as [start|]; [|reflexivity].
  cbn [reachable record_call table strategy_metrics]. cbv zeta.
  destruct (reachable (dynamodb self)); [|reflexivity]. cbn [negb andb].
  destruct (range_key (key_schema (strategy_metrics (dynamodb self)))) as [rk|];
    [|rewrite andb_false_r; reflexivity].
  destruct (String.eqb (hash_key _) "StrategyId"); [|reflexivity].
  destruct (String.eqb rk "Timestamp"); reflexivity.
Qed.

(** C3, amended.  Neither read accessor passes the error of an unreachable
    store on to its caller: the error is caught inside the accessor.
    While the name [logger] is the module's [logging.Logger], both
    accessors return a list in every state, the empty list when the store
    is reachable and no row matches and also when the store cannot be
    reached.  Once the name has been rebound to the data logger, as the
    main block does, the handler's own [logger.error] raises
    [AttributeError], and that is the only exception an accessor ever
    raises. *)
Theorem read_accessors_catch_store_errors :
  forall self strategy_id days hours now,
    ((exists items,
         fst (get_strategy_performance strategy_id days now self) = Ok items) /\
     (exists items, fst (get_recent_trades hours now self) = Ok items)) /\
    (reachable (dynamodb self) = false \/
     (no_metric_matches self strategy_id days now /\
      no_trade_matches self hours now) ->
     fst (get_strategy_performance strategy_id days now self) = Ok [] /\
     fst (get_recent_trades hours now self) = Ok []) /\
    (forall logger e,
        fst (Method.get_strategy_performance logger strategy_id days now self)
        = Raise e \/
        fst (Method.get_recent_trades logger hours now self) = Raise e ->
        logger = DataLogger /\ e = AttributeError "error") /\
    (reachable (dynamodb self) = false ->
     fst (Method.get_strategy_performance DataLogger strategy_id days now self)
     = Raise (AttributeError "error") /\
     fst (Method.get_recent_trades DataLogger hours now self)
     = Raise (AttributeError "error")).
Proof.
  intros self strategy_id days hours now.
  split; [|split; [|split]].
  - rewrite get_strategy_performance_eval, get_recent_trades_eval.
    split; eexists; reflexivity.
  - rewrite get_strategy_performance_eval, get_recent_trades_eval.
    intros [Hdown|[Hm Ht]].
    + rewrite Hdown. simpl.
      split; f_equal.
      * destruct (PyDatetime.days days) as [delta|]; [|reflexivity].
        destruct (PyDatetime.sub now delta); reflexivity.
      * destruct (PyDatetime.hours hours) as [delta|]; [|reflexivity].
        destruct (PyDatetime.sub now delta); reflexivity.
    + split; f_equal.
      * destruct (PyDatetime.days days) as [delta|] eqn:Ed; [|reflexivity].
        destruct (PyDatetime.sub now delta) as [start|] eqn:Es; [|reflexivity].
        cbv zeta. rewrite (filter_none _ _ (Hm delta start Ed Es)).
        destruct (_ && _); reflexivity.
      * destruct (PyDatetime.hours hours) as [delta|] eqn:Ed; [|reflexivity].
        destruct (PyDatetime.sub now delta) as [cutoff|] eqn:Es; [|reflexivity].
        rewrite (filter_none _ _ (Ht delta cutoff Ed Es)).
        destruct (reachable _); reflexivity.
  - intros [|] e [H|H].
    + change (Method.get_strategy_performance LoggingLogger strategy_id days now)
        with (get_strategy_performance strategy_id days now) in H.
      rewrite get_strategy_performance_eval in H. discriminate H.
    + change (Method.get_recent_trades LoggingLogger hours now)
        with (get_recent_trades hours now) in H.
      rewrite get_recent_trades_eval in H. discriminate H.
    + split; [reflexivity|].
      rewrite get_strategy_performance_under_data_logger in H.
      destruct (bind _ _) as [start|]; cbv zeta in H;
        [destruct (_ && _ && _) in H|]; congruence.
    + split; [reflexivity|].
      rewrite get_recent_trades_under_data_logger in H.
      destruct (bind _ _) as [cutoff|];
        [destruct (reachable _) in H|]; congruence.
  - intros Hdown.
    rewrite get_strategy_performance_under_data_logger,
      get_recent_trades_under_data_logger, Hdown. cbn [andb]. cbv zeta.
    split.
    + destruct (bind _ _); reflexivity.
    + destruct (bind _ _); reflexivity.
Qed.

(** C3 at work: a logger whose store is down, under either binding of
    the name [logger]. *)
Lemma read_accessors_catch_store_errors_witness :
  (fst (get_strategy_performance "ursus_momentum_v1" 7 Sample.now
          (Sample.logger false Sample.camel_keys)) = Ok [] /\
   fst (get_recent_trades 24 Sample.now (Sample.logger false Sample.camel_keys))
     = Ok []) /\
  (fst (Method.get_strategy_performance DataLogger "ursus_momentum_v1" 7
          Sample.now (Sample.logger false Sample.camel_keys))
     = Raise (AttributeError "error") /\
   fst (Method.get_recent_trades DataLogger 24 Sample.now
          (Sample.logger false Sample.camel_keys))
     = Raise (AttributeError "error")).
Proof.
  split.
  - apply (read_accessors_catch_store_errors
             (Sample.logger false Sample.camel_keys)
             "ursus_momentum_v1" 7 24 Sample.now).
    left. reflexivity.
  - apply (read_accessors_catch_store_errors
             (Sample.logger false Sample.camel_keys)
             "ursus_momentum_v1" 7 24 Sample.now).
    reflexivity.
Defined.

End ReadAccessors.

(* ================================================================== *)
(** ** The queue and the background worker *)

Section QueueAndWorker.

Local Open Scope string_scope.

Lemma keeps_queue_ret {A} (a : A) : keeps_queue (ret a).
Proof. intros self. reflexivity. Qed.

Lemma keeps_queue_lift {A} (r : result A) : keeps_queue (lift r).
Proof. intros self. reflexivity. Qed.

Lemma keeps_queue_on_store {A} (f : Store -> result A * Store) :
  keeps_queue (on_store f).
Proof.
  intros self. unfold on_store. destruct (f (dynamodb self)). reflexivity.
Qed.

Lemma keeps_queue_mbind {A B} (m : M A) (k : A -> M B) :
  keeps_queue m -> (forall a, keeps_queue (k a)) -> keeps_queue (mbind m k).
Proof.
  intros Hm Hk self. unfold mbind. specialize (Hm self).
  destruct (m self) as [[a|e] self']; simpl in *.
  - rewrite Hk. exact Hm.
  - exact Hm.
Qed.

Lemma keeps_queue_try {A} (body : M A) (handler : exn -> M A) :
  keeps_queue body -> (forall e, keeps_queue (handler e)) ->
  keeps_queue (try_ body handler).
Proof.
  intros Hb Hh self. unfold try_. specialize (Hb self).
  destruct (body self) as [[a|e] self']; simpl in *.
  - exact Hb.
  - rewrite Hh. exact Hb.
Qed.

Lemma keeps_queue_batch_log_trades trades : keeps_queue (batch_log_trades trades).
Proof.
  intros self. rewrite batch_log_trades_unfold.
  destruct (fold_left _ _ _). reflexivity.
Qed.

Lemma keeps_queue_shutdown : keeps_queue shutdown.
Proof. intros self. reflexivity. Qed.

Create HintDb queue.
#[local] Hint Resolve keeps_queue_ret keeps_queue_lift keeps_queue_on_store
  keeps_queue_batch_log_trades keeps_queue_shutdown : queue.
#[local] Hint Extern 2 (keeps_queue (mbind _ _)) =>
  apply keeps_queue_mbind; [|intros ?] : queue.
#[local] Hint Extern 2 (keeps_queue (try_ _ _)) =>
  apply keeps_queue_try; [|intros ?] : queue.

Lemma keeps_queue_call c now : keeps_queue (fun self => (Ok tt, do_call c now self)).
Proof.
  intros self. cbn [snd].
  destruct c; cbn [do_call]; unfold discard;
    match goal with
    | |- data_queue (snd (?m self)) = _ =>
        assert (H : keeps_queue m);
        [rewrite ?log_trade_unfold, ?log_strategy_metrics_unfold,
           ?log_market_signal_unfold, ?log_daily_performance_unfold,
           ?get_strategy_performance_unfold, ?get_recent_trades_unfold;
         auto 20 with queue
        |apply H]
    end.
Qed.

Lemma exec_keeps_queue self ev : data_queue (exec self ev) = data_queue self.
Proof.
  destruct ev as [c now| |up]; cbn [exec].
  - apply (keeps_queue_call c now self).
  - unfold _batch_processor_step, _batch_processor_body.
    destruct (processor_alive self), (running self); reflexivity.
  - reflexivity.
Qed.

Lemma batch_processor_id fuel self :
  snd (_batch_processor fuel self) = self /\
  fst (_batch_processor fuel self) =
  repeat (Sleep (flush_interval self))
    (if running self then fuel else O).
Proof.
  induction fuel as [|fuel [IH1 IH2]]; cbn [_batch_processor].
  - destruct (running self); auto.
  - destruct (running self) eqn:R; [|auto].
    unfold _batch_processor_body.
    destruct (_batch_processor fuel self) as [e2 self2]. simpl in *.
    subst. auto.
Qed.

Lemma put_item_calls t it s :
  calls (snd (put_item t it s)) = (calls s ++ [PutItem t it])%list.
Proof.
  unfold put_item.
  destruct (negb (serializable (VDict it))); [reflexivity|].
  destruct (negb (reachable _)); [reflexivity|].
  destruct (key_of _ it); [|reflexivity].
  destruct t; reflexivity.
Qed.

Lemma convert_dict_ok kvs :
  exists kvs',
    _convert_decimals (VDict kvs) = Ok (VDict kvs') /\
    keys kvs' = keys kvs /\
    Forall2 (fun kv kv' => fst kv' = fst kv /\
                           _convert_decimals (snd kv) = Ok (snd kv')) kvs kvs'.
Proof.
  destruct (convert_items_spec kvs) as (kvs' & Hc & Hk & Hf).
  { apply Forall_forall. intros kv _. apply convert_total. }
  exists kvs'. rewrite convert_dict, Hc. auto.
Qed.

(** The shape shared by the three [log_*] methods on a dataclass: normalize,
    put, return. *)
Lemma direct_put t kvs self :
  exists item,
    _convert_decimals (VDict kvs) = Ok (VDict item) /\
    keys item = keys kvs /\
    calls (dynamodb (snd (try_
       (item <~ lift (_convert_decimals (VDict kvs)) ;;
        item <~ lift (as_item item) ;;
        _ <~ on_store (put_item t item) ;;
        ret true)
       (fun _ => ret false) self)))
    = (calls (dynamodb self) ++ [PutItem t item])%list.
Proof.
  destruct (convert_dict_ok kvs) as (item & Hc & Hk & _).
  exists item. split; [exact Hc|]. split; [exact Hk|].
  unfold try_, mbind, lift, on_store, ret. rewrite Hc. cbn [as_item].
  pose proof (put_item_calls t item (dynamodb self)) as Hp.
  destruct (put_item t item (dynamodb self)) as [[u|e] s']; exact Hp.
Qed.

(** The calls of [simulate_ursus_trading], a read and a shutdown on empty
    tables: three puts and a scan reach the store, one row lands in each
    of the three tables, the scan returns one item, the queue is empty and
    the worker has ended. *)
Example simulate_ursus_trading_run :
  let final := run (Sample.logger true Sample.snake_keys)
                 Sample.simulate_ursus_trading in
  List.length (calls (dynamodb final)) = 4%nat /\
  List.length (rows (trade_logs (dynamodb final))) = 1%nat /\
  List.length (rows (strategy_metrics (dynamodb final))) = 1%nat /\
  List.length (rows (market_signals (dynamodb final))) = 1%nat /\
  dict_get (hd [] (rows (trade_logs (dynamodb final)))) "price"
    = Some (VDecimal (PyDecimal.Finite false 2455 (-1))) /\
  option_map (@List.length item)
    (match fst (get_recent_trades 1 Sample.now final) with
     | Ok items => Some items
     | Raise _ => None
     end) = Some 1%nat /\
  data_queue final = [] /\
  running final = false /\
  processor_alive final = false.
Proof.
  vm_compute. repeat split; reflexivity.
Qed.

(** C8.  The background worker does nothing but sleep: run for any number
    of passes, the loop leaves the logger exactly as it was and its only
    effects are sleeps of [flush_interval] seconds; a step of the worker
    thread taken at any moment leaves the queue and the store (tables and
    calls) unchanged, so it drains and flushes nothing. *)
Theorem batch_processor_only_sleeps :
  forall self,
    (forall fuel,
        snd (_batch_processor fuel self) = self /\
        fst (_batch_processor fuel self) =
        repeat (Sleep (flush_interval self)) (if running self then fuel else O)) /\
    fst (_batch_processor_step self) =
      (if processor_alive self && running self
       then [Sleep (flush_interval self)] else []) /\
    data_queue (exec self Worker) = data_queue self /\
    dynamodb (exec self Worker) = dynamodb self /\
    running (exec self Worker) = running self.
Proof.
  intros self. split; [intros fuel; apply batch_processor_id|].
  cbn [exec]. unfold _batch_processor_step, _batch_processor_body.
  destruct (processor_alive self) eqn:A, (running self) eqn:R;
    cbn [fst snd andb]; repeat split; try assumption;
    cbn [set_processor_alive data_queue dynamodb running]; auto.
Qed.

(** C9.  Nothing is ever put on [data_queue]: it is empty after
    [__init__] and after any sequence of calls of the eight caller-facing
    methods, interleaved in any way with steps of the worker and with
    network changes; every event leaves the queue as it was.  The four
    [log_*] methods go to the store directly: each makes one [put_item]
    call with the normalized item. *)
Theorem data_queue_is_never_used :
  (forall region store evs, data_queue (run (__init__ region store) evs) = []) /\
  (forall self ev, data_queue (exec self ev) = data_queue self) /\
  (forall self trade, exists item,
      _convert_decimals (asdict_trade trade) = Ok (VDict item) /\
      calls (dynamodb (snd (log_trade trade self)))
      = (calls (dynamodb self) ++ [PutItem CryonithTradeLogs item])%list) /\
  (forall self metrics, exists item,
      _convert_decimals (asdict_metric metrics) = Ok (VDict item) /\
      calls (dynamodb (snd (log_strategy_metrics metrics self)))
      = (calls (dynamodb self) ++ [PutItem CryonithStrategyMetrics item])%list) /\
  (forall self signal, exists item,
      _convert_decimals (asdict_signal signal) = Ok (VDict item) /\
      calls (dynamodb (snd (log_market_signal signal self)))
      = (calls (dynamodb self) ++ [PutItem CryonithMarketSignals item])%list) /\
  (forall self date metrics now, exists converted,
      _convert_decimals (VDict metrics) = Ok (VDict converted) /\
      calls (dynamodb (snd (log_daily_performance date metrics now self)))
      = (calls (dynamodb self) ++
         [PutItem CryonithPerformance
            (daily_item date converted (PyDatetime.isoformat now))])%list).
Proof.
  split; [|split; [exact exec_keeps_queue|]].
  - intros region store evs. unfold run.
    assert (H : forall self, data_queue (fold_left exec evs self) = data_queue self).
    { induction evs as [|ev evs IH]; intros self; [reflexivity|].
      cbn [fold_left]. rewrite IH. apply exec_keeps_queue. }
    rewrite H. reflexivity.
  - repeat split.
    + intros self trade.
      rewrite log_trade_unfold. unfold asdict_trade.
      edestruct (direct_put CryonithTradeLogs) as (item & Hc & _ & Hp).
      exists item. split; [exact Hc|exact Hp].
    + intros self metrics.
      rewrite log_strategy_metrics_unfold. unfold asdict_metric.
      edestruct (direct_put CryonithStrategyMetrics) as (item & Hc & _ & Hp).
      exists item. split; [exact Hc|exact Hp].
    + intros self signal.
      rewrite log_market_signal_unfold. unfold asdict_signal.
      edestruct (direct_put CryonithMarketSignals) as (item & Hc & _ & Hp).
      exists item. split; [exact Hc|exact Hp].
    + intros self date metrics now.
      destruct (convert_dict_ok metrics) as (converted & Hc & _).
      exists converted. split; [exact Hc|].
      rewrite log_daily_performance_unfold. unfold try_, mbind, lift, on_store, ret.
      rewrite Hc. cbn [as_item].
      pose proof (put_item_calls CryonithPerformance
                    (daily_item date converted (PyDatetime.isoformat now))
                    (dynamodb self)) as Hp.
      destruct (put_item _ _ (dynamodb self)) as [[u|e] s']; exact Hp.
Qed.

End QueueAndWorker.

(* ================================================================== *)
(** ** Dictionaries and the daily-performance item *)

Section DailyPerformance.

Local Open Scope string_scope.

Lemma dict_get_set d k v k' :
  dict_get (dict_set d k v) k' = if String.eqb k k' then Some v else dict_get d k'.
Proof.
  induction d as [|[k0 v0] d IH]; cbn [dict_set dict_get].
  - reflexivity.
  - destruct (String.eqb k0 k) eqn:E0; cbn [dict_get].
    + apply String.eqb_eq in E0. subst k0.
      destruct (String.eqb k k'); reflexivity.
    + destruct (String.eqb k0 k') eqn:E1.
      * apply String.eqb_eq in E1. subst k'. rewrite String.eqb_sym, E0. reflexivity.
      * exact IH.
Qed.

Lemma dict_get_absent d k :
  existsb (String.eqb k) (keys d) = false -> dict_get d k = None.
Proof.
  induction d as [|[k0 v0] d IH]; cbn [keys map fst existsb dict_get];
    [reflexivity|].
  intros H. apply orb_false_iff in H. destruct H as [H0 H1].
  rewrite String.eqb_sym, H0. apply IH. exact H1.
Qed.

Lemma dict_get_update other : forall d k,
  distinct (keys other) = true ->
  dict_get (dict_update d other) k =
  match dict_get other k with
  | Some v => Some v
  | None => dict_get d k
  end.
Proof.
  unfold dict_update.
  induction other as [|[k1 v1] other IH]; intros d k H; [reflexivity|].
  cbn [keys map fst distinct] in H. apply andb_true_iff in H.
  destruct H as [H1 H2]. apply negb_true_iff in H1.
  cbn [fold_left fst snd dict_get]. rewrite (IH _ _ H2), dict_get_set.
  destruct (String.eqb k1 k) eqn:E.
  - apply String.eqb_eq in E. subst k.
    rewrite (dict_get_absent other k1 H1). reflexivity.
  - reflexivity.
Qed.

Lemma upsert_In ks k it rs : In it (upsert ks k it rs).
Proof.
  induction rs as [|r rs IH]; cbn [upsert]; [left; reflexivity|].
  destruct (has_key ks k r); [left; reflexivity|right; exact IH].
Qed.

(** A put that returns leaves the item in the table. *)
Lemma put_item_ok_row t it s :
  fst (put_item t it s) = Ok tt ->
  In it (rows (table (snd (put_item t it s)) t)).
Proof.
  unfold put_item.
  destruct (negb (serializable (VDict it))); [discriminate|].
  destruct (negb (reachable _)); [discriminate|].
  destruct (key_of _ it) as [k|]; [|discriminate].
  intros _. cbn [snd]. destruct t; cbn [set_table table put_row rows];
    apply upsert_In.
Qed.

(** The entries of the dict display, key by key. *)
Lemma daily_item_get date metrics timestamp k :
  distinct (keys metrics) = true ->
  dict_get (daily_item date metrics timestamp) k =
  if String.eqb "Timestamp" k then Some (VStr timestamp)
  else match dict_get metrics k with
       | Some v => Some v
       | None =>
           if String.eqb "Date" k then Some (VStr date)
           else if String.eqb "MetricType" k then Some (VStr "DAILY_PERFORMANCE")
           else None
       end.
Proof.
  intros H. unfold daily_item.
  rewrite dict_get_set, (dict_get_update metrics _ _ H), !dict_get_set.
  reflexivity.
Qed.

(** C10.  The item that [log_daily_performance] puts, looked up key by
    key, for a metrics mapping (a dict, so with distinct keys): under
    ['Timestamp'] the write-time stamp, whatever the metrics hold there;
    under any other key the normalized metric of that name when there is
    one, so that metrics named ['MetricType'] or ['Date'] take the place of
    the tag and of the date; otherwise the tag ['DAILY_PERFORMANCE'] under
    ['MetricType'], the date under ['Date'], and nothing under other
    keys. *)
Theorem log_daily_performance_item :
  forall self date metrics now k,
    distinct (keys metrics) = true ->
    exists converted,
      _convert_decimals (VDict metrics) = Ok (VDict converted) /\
      keys converted = keys metrics /\
      Forall2 (fun kv kv' => fst kv' = fst kv /\
                             _convert_decimals (snd kv) = Ok (snd kv'))
        metrics converted /\
      calls (dynamodb (snd (log_daily_performance date metrics now self)))
      = (calls (dynamodb self) ++
         [PutItem CryonithPerformance
            (daily_item date converted (PyDatetime.isoformat now))])%list /\
      (fst (log_daily_performance date metrics now self) = Ok true ->
       In (daily_item date converted (PyDatetime.isoformat now))
          (rows (performance
                   (dynamodb (snd (log_daily_performance date metrics now self)))))) /\
      dict_get (daily_item date converted (PyDatetime.isoformat now)) k =
      if String.eqb "Timestamp" k then Some (VStr (PyDatetime.isoformat now))
      else match dict_get converted k with
           | Some v => Some v
           | None =>
               if String.eqb "Date" k then Some (VStr date)
               else if String.eqb "MetricType" k
                    then Some (VStr "DAILY_PERFORMANCE")
                    else None
           end.
Proof.
  intros self date metrics now k H.
  destruct (convert_dict_ok metrics) as (converted & Hc & Hk & Hf).
  exists converted.
  split; [exact Hc|]. split; [exact Hk|]. split; [exact Hf|].
  assert (E : log_daily_performance date metrics now self =
              let r := put_item CryonithPerformance
                         (daily_item date converted (PyDatetime.isoformat now))
                         (dynamodb self) in
              (Ok (negb (raises (fst r))), set_dynamodb self (snd r))).
  { rewrite log_daily_performance_unfold. unfold try_, mbind, lift, on_store, ret.
    rewrite Hc. cbn [as_item].
    destruct (put_item _ _ (dynamodb self)) as [[u|e] s']; reflexivity. }
  rewrite E. cbv zeta. cbn [fst snd dynamodb set_dynamodb].
  split; [apply put_item_calls|]. split.
  - intros Hok. apply (put_item_ok_row CryonithPerformance).
    destruct (fst (put_item _ _ _)) as [[]|e]; [reflexivity|discriminate].
  - apply daily_item_get. rewrite Hk. exact H.
Qed.

(** C10 at work: metrics that use all three fixed names.  The metric
    ['MetricType'] replaces the tag. *)
Lemma log_daily_performance_item_witness :
  exists converted,
    _convert_decimals
      (VDict [("MetricType", VFloat (PyFloat.of_ratio 15 10));
              ("Timestamp", VStr "yesterday");
              ("pnl", VFloat (PyFloat.of_ratio 275050 100))])
    = Ok (VDict converted) /\
    keys converted = ["MetricType"; "Timestamp"; "pnl"] /\
    Forall2 (fun kv kv' => fst kv' = fst kv /\
                           _convert_decimals (snd kv) = Ok (snd kv'))
      [("MetricType", VFloat (PyFloat.of_ratio 15 10));
       ("Timestamp", VStr "yesterday");
       ("pnl", VFloat (PyFloat.of_ratio 275050 100))] converted /\
    calls (dynamodb (snd (log_daily_performance "2026-11-03"
       [("MetricType", VFloat (PyFloat.of_ratio 15 10));
        ("Timestamp", VStr "yesterday");
        ("pnl", VFloat (PyFloat.of_ratio 275050 100))]
       Sample.now (Sample.logger true Sample.camel_keys))))
    = ([] ++
       [PutItem CryonithPerformance
          (daily_item "2026-11-03" converted (PyDatetime.isoformat Sample.now))])%list /\
    (fst (log_daily_performance "2026-11-03"
       [("MetricType", VFloat (PyFloat.of_ratio 15 10));
        ("Timestamp", VStr "yesterday");
        ("pnl", VFloat (PyFloat.of_ratio 275050 100))]
       Sample.now (Sample.logger true Sample.camel_keys)) = Ok true ->
     In (daily_item "2026-11-03" converted (PyDatetime.isoformat Sample.now))
        (rows (performance (dynamodb (snd (log_daily_performance "2026-11-03"
           [("MetricType", VFloat (PyFloat.of_ratio 15 10));
            ("Timestamp", VStr "yesterday");
            ("pnl", VFloat (PyFloat.of_ratio 275050 100))]
           Sample.now (Sample.logger true Sample.camel_keys))))))) /\
    dict_get (daily_item "2026-11-03" converted (PyDatetime.isoformat Sample.now))
      "MetricType" =
    match dict_get converted "MetricType" with
    | Some v => Some v
    | None => Some (VStr "DAILY_PERFORMANCE")
    end.
Proof.
  apply (log_daily_performance_item (Sample.logger true Sample.camel_keys)
           "2026-11-03"
           [("MetricType", VFloat (PyFloat.of_ratio 15 10));
            ("Timestamp", VStr "yesterday");
            ("pnl", VFloat (PyFloat.of_ratio 275050 100))]
           Sample.now "MetricType").
  reflexivity.
Defined.

End DailyPerformance.

(* ================================================================== *)
(** ** Strategy metrics: what is written and what is read *)

Section StrategyMetrics.

Local Open Scope string_scope.

Lemma table_record_call c s t : table (record_call c s) t = table s t.
Proof. destruct t; reflexivity. Qed.

Lemma table_set_table s t tb : table (set_table s t tb) t = tb.
Proof. destruct t; reflexivity. Qed.

(** A put on an empty table leaves it empty or holding the item. *)
Lemma put_item_rows_empty t it s :
  rows (table s t) = [] ->
  rows (table (snd (put_item t it s)) t) = [] \/
  rows (table (snd (put_item t it s)) t) = [it].
Proof.
  intros H. unfold put_item.
  destruct (negb (serializable (VDict it)));
    [left; cbn [snd]; rewrite table_record_call; exact H|].
  destruct (negb (reachable _));
    [left; cbn [snd]; rewrite table_record_call; exact H|].
  destruct (key_of _ it) as [k|];
    [|left; cbn [snd]; rewrite table_record_call; exact H].
  right. cbn [snd]. rewrite table_set_table, table_record_call.
  unfold put_row. cbn [rows]. rewrite H. reflexivity.
Qed.

(** The store after one of the three [log_*] methods on a dataclass, and
    the value returned. *)
Lemma direct_put_store t kvs self :
  exists item,
    _convert_decimals (VDict kvs) = Ok (VDict item) /\
    keys item = keys kvs /\
    dynamodb (snd (try_
       (item <~ lift (_convert_decimals (VDict kvs)) ;;
        item <~ lift (as_item item) ;;
        _ <~ on_store (put_item t item) ;;
        ret true)
       (fun _ => ret false) self))
    = snd (put_item t item (dynamodb self)).
Proof.
  destruct (convert_dict_ok kvs) as (item & Hc & Hk & _).
  exists item. split; [exact Hc|]. split; [exact Hk|].
  unfold try_, mbind, lift, on_store, ret. rewrite Hc. cbn [as_item].
  destruct (put_item t item (dynamodb self)) as [[u|e] s']; reflexivity.
Qed.

Lemma get_strategy_performance_no_match strategy_id days now self :
  Forall (fun it => attr_eq "StrategyId" strategy_id it = false)
    (rows (strategy_metrics (dynamodb self))) ->
  fst (get_strategy_performance strategy_id days now self) = Ok [].
Proof.
  intros H. rewrite get_strategy_performance_eval. f_equal.
  destruct (PyDatetime.days days) as [delta|]; [|reflexivity].
  destruct (PyDatetime.sub now delta) as [start|]; [|reflexivity].
  cbv zeta. rewrite filter_none.
  - destruct (_ && _); reflexivity.
  - eapply Forall_impl; [|exact H]. intros it Hit. cbv beta.
    rewrite Hit. reflexivity.
Qed.

Lemma insert_sorted_Forall (P : item -> Prop) a it l :
  P it -> Forall P l -> Forall P (insert_sorted a it l).
Proof.
  intros Hit. induction 1 as [|x l Hx Hl IH]; cbn [insert_sorted].
  - repeat constructor. exact Hit.
  - destruct (attr_leb a it x); repeat constructor; assumption.
Qed.

Lemma sort_by_Forall (P : item -> Prop) a l : Forall P l -> Forall P (sort_by a l).
Proof.
  unfold sort_by. induction 1 as [|x l Hx Hl IH]; cbn [fold_right].
  - constructor.
  - apply insert_sorted_Forall; assumption.
Qed.

(** Whatever the state of the store, every item that
    [get_strategy_performance] returns carries the attribute
    ['StrategyId'] with the strategy asked for, and a ['Timestamp'] inside
    the window. *)
Lemma get_strategy_performance_items strategy_id days now self items :
  fst (get_strategy_performance strategy_id days now self) = Ok items ->
  Forall (fun it => attr_eq "StrategyId" strategy_id it = true /\
                    exists lo, attr_between "Timestamp" lo
                                 (PyDatetime.isoformat now) it = true) items.
Proof.
  rewrite get_strategy_performance_eval. intros H. injection H as <-.
  destruct (PyDatetime.days days) as [delta|]; [|constructor].
  destruct (PyDatetime.sub now delta) as [start|]; [|constructor].
  cbv zeta. destruct (_ && _); [|constructor].
  apply sort_by_Forall. apply Forall_forall. intros it Hin.
  apply filter_In in Hin. destruct Hin as [_ Hf].
  apply andb_true_iff in Hf. destruct Hf as [H1 H2]. eauto.
Qed.

(** The item that [log_strategy_metrics] writes has no ['StrategyId']. *)
Lemma metric_item_has_no_StrategyId m item strategy_id :
  keys item = keys (match asdict_metric m with VDict kvs => kvs | _ => [] end) ->
  attr_eq "StrategyId" strategy_id item = false.
Proof.
  intros Hk. unfold attr_eq, str_attr.
  rewrite dict_get_absent; [reflexivity|]. rewrite Hk. reflexivity.
Qed.

(** C7, the failing input.  A metric written by [log_strategy_metrics] is
    never returned by [get_strategy_performance]: the writer names the key
    attributes [strategy_id] and [timestamp], the reader asks for
    [StrategyId] and [Timestamp].  Starting from an empty strategy-metrics
    table, whatever its key schema and whether or not the store is
    reachable, logging a metric and then asking for that strategy returns
    the empty list.  With the keys the writer uses, the metric is stored
    and lies in the window, and the read returns nothing; with the keys the
    reader uses, the write is refused. *)
Theorem logged_metric_is_not_read_back :
  (forall s ks region m days now,
      fst (get_strategy_performance (strategy_id m) days now
             (snd (log_strategy_metrics m
                     (__init__ region
                        (set_table s CryonithStrategyMetrics
                           {| key_schema := ks; rows := [] |})))))
      = Ok []) /\
  (fst (log_strategy_metrics Sample.metric (Sample.logger true Sample.snake_keys))
     = Ok true /\
   List.length (rows (strategy_metrics (dynamodb
     (snd (log_strategy_metrics Sample.metric
             (Sample.logger true Sample.snake_keys)))))) = 1%nat /\
   forallb (fun it =>
              attr_eq "strategy_id" "ursus_momentum_v1" it &&
              attr_between "timestamp" "2026-10-27T14:34:56.789012+00:00"
                (PyDatetime.isoformat Sample.now) it)
     (rows (strategy_metrics (dynamodb
        (snd (log_strategy_metrics Sample.metric
                (Sample.logger true Sample.snake_keys)))))) = true /\
   fst (get_strategy_performance "ursus_momentum_v1" 7 Sample.now
          (snd (log_strategy_metrics Sample.metric
                  (Sample.logger true Sample.snake_keys)))) = Ok []) /\
  (fst (log_strategy_metrics Sample.metric (Sample.logger true Sample.camel_keys))
     = Ok false /\
   rows (strategy_metrics (dynamodb
     (snd (log_strategy_metrics Sample.metric
             (Sample.logger true Sample.camel_keys))))) = []).
Proof.
  split; [|split].
  - intros s ks region m days now.
    apply get_strategy_performance_no_match.
    rewrite log_strategy_metrics_unfold. unfold asdict_metric.
    edestruct (direct_put_store CryonithStrategyMetrics) as (item & Hc & Hk & Hs).
    rewrite Hs. clear Hs.
    edestruct (put_item_rows_empty CryonithStrategyMetrics item) as [E|E];
      [|cbn [table] in E; rewrite E; constructor
       |cbn [table] in E; rewrite E; repeat constructor].
    + cbn [__init__ dynamodb]. rewrite table_set_table. reflexivity.
    + apply (metric_item_has_no_StrategyId m). exact Hk.
  - repeat split; vm_compute; reflexivity.
  - split; vm_compute; reflexivity.
Qed.

End StrategyMetrics.

(* ================================================================== *)
(** ** Batches of trades *)

Section BatchLogTrades.

Local Open Scope string_scope.
Local Open Scope nat_scope.

Lemma trade_item_ok trade :
  bind (_convert_decimals (asdict_trade trade)) as_item = Ok (trade_item trade).
Proof.
  unfold trade_item, asdict_trade.
  edestruct convert_dict_ok as (item & Hc & _). rewrite Hc. reflexivity.
Qed.

Lemma batch_write_item_calls t its s :
  calls (snd (batch_write_item t its s)) = (calls s ++ [BatchWriteItem t its])%list.
Proof.
  unfold batch_write_item.
  destruct (negb (forallb (fun it => serializable (VDict it)) its));
    [reflexivity|].
  destruct (negb (reachable _)); [reflexivity|].
  destruct (all_keys _ its); [|reflexivity].
  destruct (_ && _)%bool; [|reflexivity].
  destruct t; reflexivity.
Qed.

(** Below 25 buffered items the writer only buffers. *)
Lemma put_batch_app pre : forall rest t buf c s,
  List.length buf + List.length pre < 25 ->
  put_batch (pre ++ rest) {| bw_table := t; items_buffer := buf |} c s =
  put_batch rest
    {| bw_table := t; items_buffer := (buf ++ map trade_item pre)%list |}
    (c + List.length pre) s.
Proof.
  induction pre as [|trade pre IH]; intros rest t buf c s H.
  - cbn [app map List.length]. rewrite app_nil_r, Nat.add_0_r. reflexivity.
  - cbn [app put_batch]. rewrite trade_item_ok.
    unfold bw_put_item. cbn [bw_table items_buffer].
    cbn [List.length] in H.
    replace (Nat.leb flush_amount (List.length (buf ++ [trade_item trade])))
      with false.
    2:{ symmetry. apply Nat.leb_gt. rewrite length_app. cbn [List.length].
        unfold flush_amount. lia. }
    rewrite IH.
    + cbn [map List.length]. rewrite <- app_assoc. cbn [app].
      f_equal. lia.
    + rewrite length_app. cbn [List.length]. lia.
Qed.

Lemma firstn_skipn_short {A} (l : list A) :
  List.length l <= 25 -> firstn flush_amount l = l /\ skipn flush_amount l = [].
Proof.
  intros H. split.
  - apply firstn_all2. exact H.
  - apply skipn_all2. exact H.
Qed.

(** One round of the loop of [batch_log_trades] on a batch of 1 to 25
    trades: one [batch_write_item] call with the items of the batch; the
    counter grows by [counted]. *)
Lemma log_batch_spec batch c s :
  1 <= List.length batch <= 25 ->
  log_batch batch c s =
  (c + counted batch s,
   snd (batch_write_item CryonithTradeLogs (map trade_item batch) s)).
Proof.
  intros [Hlo Hhi]. unfold log_batch, with_batch_writer, counted.
  destruct (Nat.eq_dec (List.length batch) 25) as [E|E].
  - (* a full batch: the 25th put flushes *)
    rewrite E, Nat.eqb_refl, andb_true_r.
    assert (Hne : batch <> []) by (intros ->; discriminate).
    destruct (exists_last Hne) as (pre & last & ->).
    rewrite length_app in E. cbn [List.length] in E.
    unfold batch_writer. rewrite put_batch_app by (cbn [List.length]; lia).
    cbn [app put_batch]. rewrite trade_item_ok.
    unfold bw_put_item. cbn [bw_table items_buffer].
    assert (L : List.length (map trade_item pre ++ [trade_item last]) = 25).
    { rewrite length_app, length_map. cbn [List.length]. lia. }
    rewrite L. change (Nat.leb flush_amount 25) with true. cbv iota.
    unfold _flush. cbn [bw_table items_buffer].
    destruct (firstn_skipn_short (map trade_item pre ++ [trade_item last]))
      as [F S]; [lia|].
    rewrite F, S, map_app. cbn [map].
    destruct (batch_write_item _ _ s) as [[u|e] s']; cbn [fst snd raises].
    + unfold bw_exit. cbn. f_equal. lia.
    + unfold bw_exit. cbn. f_equal. lia.
  - (* a short batch: the flush comes when the writer is left *)
    replace (Nat.eqb (List.length batch) 25) with false
      by (symmetry; apply Nat.eqb_neq; exact E).
    rewrite andb_false_r.
    unfold batch_writer.
    rewrite <- (app_nil_r batch) at 1.
    rewrite put_batch_app by (cbn [List.length]; lia).
    cbn [put_batch app].
    unfold bw_exit. cbn [items_buffer].
    destruct (map trade_item batch) as [|it its] eqn:M.
    { destruct batch; [cbn [List.length] in Hlo; lia|discriminate]. }
    cbn [List.length bw_exit_loop items_buffer].
    unfold _flush. cbn [bw_table items_buffer].
    destruct (firstn_skipn_short (it :: its)) as [F S].
    { rewrite <- M, length_map. lia. }
    rewrite F, S.
    destruct (batch_write_item _ _ s) as [[u|e] s']; cbn [fst snd].
    + destruct (List.length its); reflexivity.
    + reflexivity.
Qed.

(** The slices of the outer loop: each holds 1 to 25 trades, together they
    are the input in order, there are [ceil(n/25)] of them, and [n/25] are
    full. *)
Lemma batches_spec fuel : forall (l : list TradeLog),
  List.length l <= fuel ->
  Forall (fun b => 1 <= List.length b <= 25) (batches fuel 25 l) /\
  List.concat (batches fuel 25 l) = l /\
  List.length (batches fuel 25 l) = (List.length l + 24) / 25 /\
  List.length (filter full (batches fuel 25 l)) = List.length l / 25.
Proof.
  induction fuel as [|fuel IH]; intros l H.
  - destruct l; [|cbn [List.length] in H; lia].
    cbn [batches]. repeat split. constructor.
  - destruct l as [|x l]; [cbn [batches]; repeat split; constructor|].
    cbn [batches]. set (L := x :: l) in *.
    assert (Hn : 1 <= List.length L) by (subst L; cbn [List.length]; lia).
    destruct (IH (skipn 25 L)) as (Hf & Hc & Hl & Hfull).
    { rewrite length_skipn. lia. }
    assert (Hfirst : List.length (firstn 25 L) = Nat.min 25 (List.length L))
      by apply length_firstn.
    repeat split.
    + constructor; [lia|exact Hf].
    + cbn [List.concat]. rewrite Hc. apply firstn_skipn.
    + cbn [List.length]. rewrite Hl, length_skipn.
      replace (List.length L + 24) with (List.length L - 1 + 1 * 25) by lia.
      rewrite Nat.div_add by discriminate.
      destruct (Nat.le_gt_cases 25 (List.length L)) as [G|G].
      * replace (List.length L - 25 + 24) with (List.length L - 1) by lia. lia.
      * replace (List.length L - 25 + 24) with 24 by lia.
        rewrite (Nat.div_small (List.length L - 1)) by lia. reflexivity.
    + cbn [filter]. unfold full at 1. rewrite Hfirst.
      destruct (Nat.le_gt_cases 25 (List.length L)) as [G|G].
      * rewrite Nat.min_l by exact G.
        change (Nat.eqb 25 25) with true. cbv iota.
        cbn [List.length]. rewrite Hfull, length_skipn.
        replace (List.length L) with (List.length L - 25 + 1 * 25) at 2 by lia.
        rewrite Nat.div_add by discriminate. lia.
      * rewrite Nat.min_r by lia.
        replace (Nat.eqb (List.length L) 25) with false
          by (symmetry; apply Nat.eqb_neq; lia).
        rewrite Hfull, length_skipn.
        replace (List.length L - 25) with 0 by lia.
        rewrite (Nat.div_small (List.length L)) by lia. reflexivity.
Qed.

Lemma counted_bounds batch s :
  counted batch s <= List.length batch /\
  List.length batch <= counted batch s + (if full batch then 1 else 0).
Proof.
  unfold counted, full.
  destruct (Nat.eqb (List.length batch) 25) eqn:E.
  - apply Nat.eqb_eq in E. rewrite E.
    destruct (raises _); cbn [andb]; lia.
  - rewrite andb_false_r. lia.
Qed.

(** The whole loop: one call per batch, in order; the counter ends between
    the number of trades less the number of full batches and the number
    of trades, whatever the store answered. *)
Lemma fold_log_batch bs : forall c s,
  Forall (fun b => 1 <= List.length b <= 25) bs ->
  let r := fold_left (fun acc batch => log_batch batch (fst acc) (snd acc))
             bs (c, s) in
  calls (snd r) = (calls s ++ map batch_call bs)%list /\
  fst r <= c + List.length (List.concat bs) /\
  c + List.length (List.concat bs) <= fst r + List.length (filter full bs).
Proof.
  induction bs as [|b bs IH]; intros c s H; cbn zeta.
  - cbn [fold_left map List.concat List.length filter fst snd].
    rewrite app_nil_r. repeat split; lia.
  - inversion H as [|? ? Hb Hbs]; subst.
    cbn [fold_left fst snd]. rewrite (log_batch_spec b c s Hb).
    specialize (IH (c + counted b s)
                  (snd (batch_write_item CryonithTradeLogs (map trade_item b) s))
                  Hbs).
    cbn zeta in IH. destruct IH as (Hc & Hu & Hl).
    rewrite Hc, batch_write_item_calls.
    destruct (counted_bounds b s) as [B1 B2].
    cbn [map List.concat filter]. rewrite length_app, <- app_assoc.
    repeat split.
    + lia.
    + destruct (full b); cbn [List.length]; lia.
Qed.

Lemma batch_write_item_unreachable t its s :
  reachable s = false ->
  raises (fst (batch_write_item t its s)) = true /\
  snd (batch_write_item t its s) = record_call (BatchWriteItem t its) s.
Proof.
  intros H. unfold batch_write_item.
  destruct (negb (forallb (fun it => serializable (VDict it)) its));
    [split; reflexivity|].
  cbn [record_call reachable]. rewrite H. split; reflexivity.
Qed.

(** With the store out of reach every call raises, no table changes, and
    the counter still grows: by 24 for a full batch, by the size of the
    batch otherwise. *)
Lemma fold_log_batch_unreachable bs : forall c s,
  reachable s = false ->
  Forall (fun b => 1 <= List.length b <= 25) bs ->
  let r := fold_left (fun acc batch => log_batch batch (fst acc) (snd acc))
             bs (c, s) in
  fst r + List.length (filter full bs) = c + List.length (List.concat bs) /\
  reachable (snd r) = false /\
  forall t, table (snd r) t = table s t.
Proof.
  induction bs as [|b bs IH]; intros c s Hs H; cbn zeta.
  - cbn [fold_left map List.concat List.length filter fst snd]. auto.
  - inversion H as [|? ? Hb Hbs]; subst.
    cbn [fold_left fst snd]. rewrite (log_batch_spec b c s Hb).
    destruct (batch_write_item_unreachable CryonithTradeLogs
                (map trade_item b) s Hs) as [Hr Hsnd].
    specialize (IH (c + counted b s)
                  (snd (batch_write_item CryonithTradeLogs (map trade_item b) s))
                  (eq_trans (f_equal reachable Hsnd) Hs) Hbs).
    cbn zeta in IH. destruct IH as (Hc & Hu & Ht).
    split; [|split; [exact Hu|]].
    + assert (Hcnt : counted b s =
                     if Nat.eqb (List.length b) 25 then 24 else List.length b)
        by (unfold counted; rewrite Hr; reflexivity).
      cbn [List.concat filter]. rewrite length_app. unfold full at 1.
      destruct (Nat.eqb (List.length b) 25) eqn:E; cbn [List.length];
        [apply Nat.eqb_eq in E|]; lia.
    + intros t. rewrite Ht, Hsnd. apply table_record_call.
Qed.

(** C4, the failing input.  [success_count] counts the trades handed to
    the batch writer, which only buffers them; the store is asked when 25
    items are buffered or when the writer is left.  So the number returned
    says little about what was stored: for [n] trades it always lies
    between [n - n/25] and [n], whatever the store answers.  With the store
    out of reach it is [n - n/25] while no table changes; for one trade it
    is 1 with nothing stored.  The calls themselves are as claimed: one
    [batch_write_item] per slice of the input, [ceil(n/25)] of them, none
    above 25 items. *)
Theorem batch_log_trades_counts_buffered_trades :
  (forall region s trades,
      exists count,
        fst (batch_log_trades trades (__init__ region s)) = Ok count /\
        count <= List.length trades /\
        List.length trades <= count + List.length trades / 25 /\
        calls (dynamodb (snd (batch_log_trades trades (__init__ region s))))
        = (calls s ++ map batch_call (batches (List.length trades) 25 trades))%list /\
        List.length (batches (List.length trades) 25 trades)
        = (List.length trades + 24) / 25 /\
        Forall (fun b => List.length b <= 25)
          (batches (List.length trades) 25 trades)) /\
  (forall region s trades,
      exists count,
        fst (batch_log_trades trades (__init__ region (set_reachable false s)))
        = Ok count /\
        count + List.length trades / 25 = List.length trades /\
        forall t,
          table (dynamodb (snd (batch_log_trades trades
                                  (__init__ region (set_reachable false s))))) t
          = table s t) /\
  (fst (batch_log_trades [Sample.trade] (Sample.logger false Sample.snake_keys))
     = Ok 1 /\
   rows (trade_logs (dynamodb (snd (batch_log_trades [Sample.trade]
                                      (Sample.logger false Sample.snake_keys)))))
     = []).
Proof.
  split; [|split].
  - intros region s trades.
    destruct (batches_spec (List.length trades) trades (le_n _))
      as (Hf & Hc & Hl & Hfull).
    pose proof (fold_log_batch _ O s Hf) as Hfold. cbn zeta in Hfold.
    rewrite batch_log_trades_unfold. cbn [__init__ batch_size dynamodb].
    destruct (fold_left _ _ _) as [count s'] eqn:E.
    cbn [fst snd] in *. destruct Hfold as (Hcalls & Hu & Hlo).
    rewrite Hc, Hfull in *.
    exists count. repeat split; try assumption; try lia.
    eapply Forall_impl; [|exact Hf]. cbv beta. intros b Hb. lia.
  - intros region s trades.
    destruct (batches_spec (List.length trades) trades (le_n _))
      as (Hf & Hc & Hl & Hfull).
    pose proof (fold_log_batch_unreachable _ O (set_reachable false s)
                  eq_refl Hf) as Hfold. cbn zeta in Hfold.
    rewrite batch_log_trades_unfold. cbn [__init__ batch_size dynamodb].
    destruct (fold_left _ _ _) as [count s'] eqn:E.
    cbn [fst snd] in *. destruct Hfold as (Hcount & _ & Ht).
    rewrite Hc, Hfull in *.
    exists count. repeat split; [lia|].
    intros t. rewrite Ht. destruct t; reflexivity.
  - split; vm_compute; reflexivity.
Qed.

End BatchLogTrades.

(* ================================================================== *)
(** * Further properties *)

(** ** The normalizer on nested values *)

Section NormalizerStructure.

Import PyFloat PyDecimal Shape.
Local Open Scope string_scope.

Lemma float_free_list l : float_free (VList l) = forallb float_free l.
Proof. induction l as [|x l IH]; [reflexivity|]. cbn in *. rewrite IH. reflexivity. Qed.

Lemma float_free_dict kvs :
  float_free (VDict kvs) = forallb (fun kv => float_free (snd kv)) kvs.
Proof.
  induction kvs as [|[k v] kvs IH]; [reflexivity|]. cbn in *. rewrite IH.
  reflexivity.
Qed.

Lemma convert_float_free v : forall v',
  _convert_decimals v = Ok v' -> float_free v' = true.
Proof.
  induction v as [ | b | n | s | f | d | l IH | tl IH | kvs IH] using value_nested_ind;
    intros v' H; try (injection H as <-; reflexivity).
  - rewrite convert_float in H. apply bind_ok in H. destruct H as (d & _ & H).
    injection H as <-. reflexivity.
  - rewrite convert_list in H. apply bind_ok in H. destruct H as (l' & Hc & H).
    injection H as <-. rewrite float_free_list.
    revert l' Hc. induction IH as [|x l Hx _ IHl]; intros l' Hc.
    + injection Hc as <-. reflexivity.
    + cbn [convert_elems] in Hc.
      apply bind_ok in Hc. destruct Hc as (x' & Hx' & Hc).
      apply bind_ok in Hc. destruct Hc as (r' & Hr' & Hc).
      injection Hc as <-. cbn [forallb].
      rewrite (Hx _ Hx'), (IHl _ Hr'). reflexivity.
  - rewrite convert_dict in H. apply bind_ok in H. destruct H as (kvs' & Hc & H).
    injection H as <-. rewrite float_free_dict.
    revert kvs' Hc. induction IH as [|[k v] kvs Hv _ IHk]; intros kvs' Hc.
    + injection Hc as <-. reflexivity.
    + cbn [convert_items] in Hc.
      apply bind_ok in Hc. destruct Hc as (v' & Hv' & Hc).
      apply bind_ok in Hc. destruct Hc as (r' & Hr' & Hc).
      injection Hc as <-. cbn [forallb snd].
      rewrite (Hv _ Hv'), (IHk _ Hr'). reflexivity.
Qed.

Lemma convert_float_free_id v : float_free v = true -> _convert_decimals v = Ok v.
Proof.
  induction v as [ | b | n | s | f | d | l IH | tl IH | kvs IH] using value_nested_ind;
    intros H; try reflexivity.
  - discriminate H.
  - rewrite float_free_list in H. rewrite convert_list.
    assert (E : convert_elems l = Ok l); [|rewrite E; reflexivity].
    induction IH as [|x l Hx _ IHl]; [reflexivity|].
    cbn [forallb] in H. apply andb_true_iff in H. destruct H as [H1 H2].
    cbn [convert_elems]. rewrite (Hx H1), (IHl H2). reflexivity.
  - rewrite float_free_dict in H. rewrite convert_dict.
    assert (E : convert_items kvs = Ok kvs); [|rewrite E; reflexivity].
    induction IH as [|[k v] kvs Hv _ IHk]; [reflexivity|].
    cbn [forallb snd] in H. apply andb_true_iff in H. destruct H as [H1 H2].
    cbn [snd] in Hv. cbn [convert_items]. rewrite (Hv H1), (IHk H2). reflexivity.
Qed.

Lemma tuple_free_list l : tuple_free (VList l) = forallb tuple_free l.
Proof. induction l as [|x l IH]; [reflexivity|]. cbn in *. rewrite IH. reflexivity. Qed.

Lemma tuple_free_dict kvs :
  tuple_free (VDict kvs) = forallb (fun kv => tuple_free (snd kv)) kvs.
Proof.
  induction kvs as [|[k v] kvs IH]; [reflexivity|]. cbn in *. rewrite IH.
  reflexivity.
Qed.

Lemma no_float_list l : no_float (VList l) = forallb no_float l.
Proof. induction l as [|x l IH]; [reflexivity|]. cbn in *. rewrite IH. reflexivity. Qed.

Lemma no_float_dict kvs :
  no_float (VDict kvs) = forallb (fun kv => no_float (snd kv)) kvs.
Proof.
  induction kvs as [|[k v] kvs IH]; [reflexivity|]. cbn in *. rewrite IH.
  reflexivity.
Qed.

Lemma convert_no_float v : forall v',
  tuple_free v = true -> _convert_decimals v = Ok v' -> no_float v' = true.
Proof.
  induction v as [ | b | n | s | f | d | l IH | tl IH | kvs IH]
    using value_nested_ind;
    intros v' Ht H; try (injection H as <-; reflexivity).
  - rewrite convert_float in H. apply bind_ok in H. destruct H as (d & _ & H).
    injection H as <-. reflexivity.
  - rewrite convert_list in H. apply bind_ok in H. destruct H as (l' & Hc & H).
    injection H as <-. rewrite no_float_list. rewrite tuple_free_list in Ht.
    revert l' Hc Ht. induction IH as [|x l Hx _ IHl]; intros l' Hc Ht.
    + injection Hc as <-. reflexivity.
    + cbn [convert_elems] in Hc. cbn [forallb] in Ht.
      apply andb_true_iff in Ht. destruct Ht as [Ht1 Ht2].
      apply bind_ok in Hc. destruct Hc as (x' & Hx' & Hc).
      apply bind_ok in Hc. destruct Hc as (r' & Hr' & Hc).
      injection Hc as <-. cbn [forallb].
      rewrite (Hx _ Ht1 Hx'), (IHl _ Hr' Ht2). reflexivity.
  - discriminate Ht.
  - rewrite convert_dict in H. apply bind_ok in H. destruct H as (kvs' & Hc & H).
    injection H as <-. rewrite no_float_dict. rewrite tuple_free_dict in Ht.
    revert kvs' Hc Ht. induction IH as [|[k v] kvs Hv _ IHk]; intros kvs' Hc Ht.
    + injection Hc as <-. reflexivity.
    + cbn [convert_items] in Hc. cbn [forallb snd] in Ht.
      apply andb_true_iff in Ht. destruct Ht as [Ht1 Ht2].
      apply bind_ok in Hc. destruct Hc as (v' & Hv' & Hc).
      apply bind_ok in Hc. destruct Hc as (r' & Hr' & Hc).
      injection Hc as <-. cbn [forallb snd].
      cbn [snd] in Hv. rewrite (Hv _ Ht1 Hv'), (IHk _ Hr' Ht2). reflexivity.
Qed.

(** X1.  What [_convert_decimals] returns holds no float at any place
    reached through dicts and lists: every float of the input found
    there, however deep, has been replaced.  For an input without tuples
    the result holds no float at all.  A tuple is returned as it is, and
    so are the floats in it. *)
Theorem convert_decimals_leaves_no_float :
  (forall v, exists v', _convert_decimals v = Ok v' /\ float_free v' = true) /\
  (forall v, tuple_free v = true ->
             exists v', _convert_decimals v = Ok v' /\ no_float v' = true) /\
  (forall l, _convert_decimals (VTuple l) = Ok (VTuple l)).
Proof.
  split; [|split].
  - intros v. destruct (convert_total v) as [v' H]. exists v'.
    split; [exact H|]. apply (convert_float_free v). exact H.
  - intros v Ht. destruct (convert_total v) as [v' H]. exists v'.
    split; [exact H|]. apply (convert_no_float v); assumption.
  - reflexivity.
Qed.

(** X2.  [_convert_decimals] returns its argument unchanged exactly when
    the argument holds no float at a place reached through dicts and
    lists: such floats are the only thing it touches.  A float inside a
    tuple does not count: the tuple is returned unchanged with it. *)
Theorem convert_decimals_changes_only_floats :
  (forall v, _convert_decimals v = Ok v <-> float_free v = true) /\
  (forall x, float_free (VTuple [VFloat x]) = true /\
             _convert_decimals (VTuple [VFloat x]) = Ok (VTuple [VFloat x])).
Proof.
  split.
  - intros v. split.
    + apply convert_float_free.
    + apply convert_float_free_id.
  - intros x. split; reflexivity.
Qed.

Lemma Forall2_dict_get kvs kvs' k :
  Forall2 (fun kv kv' => fst kv' = fst kv /\
                         _convert_decimals (snd kv) = Ok (snd kv')) kvs kvs' ->
  match dict_get kvs k with
  | Some v => exists v', dict_get kvs' k = Some v' /\ _convert_decimals v = Ok v'
  | None => dict_get kvs' k = None
  end.
Proof.
  induction 1 as [|[k1 v1] [k2 v2] kvs kvs' [Hk Hv] _ IH]; [reflexivity|].
  cbn [fst snd] in Hk, Hv. subst k2. cbn [dict_get].
  destruct (String.eqb k1 k); [eauto|exact IH].
Qed.

Lemma Forall2_nth_error l l' i :
  Forall2 (fun x x' => _convert_decimals x = Ok x') l l' ->
  match nth_error l i with
  | Some x => exists x', nth_error l' i = Some x' /\ _convert_decimals x = Ok x'
  | None => nth_error l' i = None
  end.
Proof.
  intros H. revert i. induction H as [|x x' l l' Hx _ IH]; intros i.
  - destruct i; reflexivity.
  - destruct i as [|i]; cbn [nth_error]; [eauto|apply IH].
Qed.

(** X3.  Looking up and normalizing commute: in the dict returned for a
    dict, a key is bound exactly when it was bound in the input, and its
    value is the normalized value of the input; in the list returned for a
    list, position [i] holds the normalized element of position [i]. *)
Theorem convert_decimals_commutes_with_lookup :
  (forall kvs k, exists kvs',
      _convert_decimals (VDict kvs) = Ok (VDict kvs') /\
      match dict_get kvs k with
      | Some v => exists v', dict_get kvs' k = Some v' /\
                             _convert_decimals v = Ok v'
      | None => dict_get kvs' k = None
      end) /\
  (forall l i, exists l',
      _convert_decimals (VList l) = Ok (VList l') /\
      match nth_error l i with
      | Some x => exists x', nth_error l' i = Some x' /\
                             _convert_decimals x = Ok x'
      | None => nth_error l' i = None
      end).
Proof.
  split.
  - intros kvs k. destruct (convert_dict_ok kvs) as (kvs' & Hc & _ & Hf).
    exists kvs'. split; [exact Hc|]. apply Forall2_dict_get. exact Hf.
  - intros l i.
    destruct (convert_elems_spec l) as (l' & Hc & _ & Hf).
    { apply Forall_forall. intros x _. apply convert_total. }
    exists l'. rewrite convert_list, Hc. split; [reflexivity|].
    apply Forall2_nth_error. exact Hf.
Qed.

Lemma convert_float_decimal_of x :
  _convert_decimals (VFloat x) = Ok (VDecimal (decimal_of x)).
Proof.
  rewrite convert_float. unfold decimal_of.
  destruct (of_str_str_ok x) as [d Hd]. rewrite Hd. reflexivity.
Qed.

(** The decimal of a float is finite exactly when the float is, and has
    the sign of the float. *)
Lemma decimal_of_cases x :
  match x with
  | S754_zero s => decimal_of x = Finite s 0 (-1)
  | S754_infinity s => decimal_of x = Infinity s
  | S754_nan => decimal_of x = NaN false false 0
  | S754_finite s m e => exists c ex, decimal_of x = Finite s c ex
  end.
Proof.
  unfold decimal_of, str. destruct x as [s|s| |s m e].
  - destruct s; reflexivity.
  - destruct s; reflexivity.
  - reflexivity.
  - unfold repr_chars. destruct (dtoa_digits m e) as [Hd Hne].
    destruct (dtoa m e) as [ds decpt]. cbn [fst] in Hd, Hne.
    destruct (format_short_cases ds decpt Hd Hne)
      as (i & f & r & z & E & Hi & Hin & Hf & Hr & Hz & _).
    rewrite E, of_str_plain by (apply rendered_plain; assumption).
    rewrite (parse_rendered_value s i f r z Hi Hin Hf Hr Hz). eauto.
Qed.

(** X4.  Floats that are not numbers do not make [_convert_decimals]
    fail: an infinity becomes the Decimal infinity of the same sign, NaN
    becomes the Decimal NaN, a zero becomes the decimal zero [0.0] of the
    same sign, and a finite float becomes a finite Decimal of the same
    sign. *)
Theorem convert_decimals_on_special_floats :
  (forall s, _convert_decimals (VFloat (S754_infinity s))
             = Ok (VDecimal (Infinity s))) /\
  _convert_decimals (VFloat S754_nan) = Ok (VDecimal (NaN false false 0)) /\
  (forall s, _convert_decimals (VFloat (S754_zero s))
             = Ok (VDecimal (Finite s 0 (-1)))) /\
  (forall s m e, exists c ex,
      _convert_decimals (VFloat (S754_finite s m e))
      = Ok (VDecimal (Finite s c ex))).
Proof.
  split; [|split; [|split]].
  - intros s. rewrite convert_float_decimal_of.
    rewrite (decimal_of_cases (S754_infinity s)). reflexivity.
  - rewrite convert_float_decimal_of.
    rewrite (decimal_of_cases S754_nan). reflexivity.
  - intros s. rewrite convert_float_decimal_of.
    rewrite (decimal_of_cases (S754_zero s)). reflexivity.
  - intros s m e. destruct (decimal_of_cases (S754_finite s m e)) as (c & ex & H).
    exists c, ex. rewrite convert_float_decimal_of, H. reflexivity.
Qed.

End NormalizerStructure.

(* ================================================================== *)
(** ** The three [log_*] methods on a dataclass *)

Section LogMethods.

Import PyFloat PyDecimal.
Local Open Scope string_scope.

Lemma put_item_frame t it s :
  reachable (snd (put_item t it s)) = reachable s /\
  (forall t', t' <> t -> table (snd (put_item t it s)) t' = table s t') /\
  (forall t', key_schema (table (snd (put_item t it s)) t')
              = key_schema (table s t')) /\
  (raises (fst (put_item t it s)) = true ->
   forall t', table (snd (put_item t it s)) t' = table s t').
Proof.
  unfold put_item.
  destruct (negb (serializable (VDict it)));
    [cbn [fst snd]; repeat split; intros; try apply table_record_call;
     rewrite table_record_call; reflexivity|].
  destruct (negb (reachable _)) eqn:R;
    [cbn [fst snd]; repeat split; intros; try apply table_record_call;
     rewrite table_record_call; reflexivity|].
  destruct (key_of _ it) as [k|];
    [|cbn [fst snd]; repeat split; intros; try apply table_record_call;
      rewrite table_record_call; reflexivity].
  cbn [fst snd raises]. split; [destruct t; reflexivity|]. split; [|split].
  - intros t' Ht. destruct t, t'; try reflexivity; contradiction.
  - intros t'. destruct t, t'; reflexivity.
  - discriminate.
Qed.

(** When a put goes through. *)
Lemma put_item_accepts t it s :
  raises (fst (put_item t it s)) =
  negb (serializable (VDict it) && reachable s
        && keyed (key_schema (table s t)) it).
Proof.
  unfold put_item, keyed. rewrite table_record_call.
  destruct (serializable (VDict it)); [|reflexivity]. cbn [negb andb].
  change (reachable (record_call (PutItem t it) s)) with (reachable s).
  destruct (reachable s); [|reflexivity]. cbn [negb andb].
  destruct (key_of _ it); reflexivity.
Qed.

Lemma direct_put_outcome t kvs self :
  exists item,
    _convert_decimals (VDict kvs) = Ok (VDict item) /\
    try_
      (item <~ lift (_convert_decimals (VDict kvs)) ;;
       item <~ lift (as_item item) ;;
       _ <~ on_store (put_item t item) ;;
       ret true)
      (fun _ => ret false) self
    = (Ok (negb (raises (fst (put_item t item (dynamodb self))))),
       set_dynamodb self (snd (put_item t item (dynamodb self)))).
Proof.
  destruct (convert_dict_ok kvs) as (item & Hc & _).
  exists item. split; [exact Hc|].
  unfold try_, mbind, lift, on_store, ret. rewrite Hc. cbn [as_item].
  destruct (put_item t item (dynamodb self)) as [[u|e] s']; reflexivity.
Qed.

Lemma convert_opt_float o : _convert_decimals (opt_float o) = Ok (opt_decimal o).
Proof.
  destruct o as [f|]; [apply convert_float_decimal_of|reflexivity].
Qed.

Lemma trade_item_eq t :
  trade_item t =
  [ ("trade_id", VStr (trade_id t));
    ("timestamp", VStr (trade_timestamp t));
    ("strategy", VStr (strategy t));
    ("symbol", VStr (trade_symbol t));
    ("action", VStr (action t));
    ("quantity", VDecimal (decimal_of (quantity t)));
    ("price", VDecimal (decimal_of (price t)));
    ("confidence", VDecimal (decimal_of (confidence t)));
    ("market_signal", VStr (market_signal t));
    ("execution_time_ms", VDecimal (decimal_of (execution_time_ms t)));
    ("profit_loss", opt_decimal (trade_profit_loss t));
    ("portfolio_value", opt_decimal (portfolio_value t)) ].
Proof.
  unfold trade_item, asdict_trade. rewrite convert_dict.
  cbn [convert_items].
  rewrite !convert_float_decimal_of, !convert_opt_float. reflexivity.
Qed.

Lemma trade_item_converted t :
  _convert_decimals (asdict_trade t) = Ok (VDict (trade_item t)).
Proof.
  rewrite trade_item_eq. unfold asdict_trade. rewrite convert_dict.
  cbn [convert_items].
  rewrite !convert_float_decimal_of, !convert_opt_float. reflexivity.
Qed.

(** X5.  The item built for a trade, [_convert_decimals(asdict(trade))]:
    always the same twelve attributes in the order of the fields; the
    string fields as they are, each float field as [Decimal(str(x))], an
    optional field that is [None] as [None] (the attribute is kept, not
    dropped). *)
Theorem trade_item_attributes :
  forall t,
    _convert_decimals (asdict_trade t) = Ok (VDict (trade_item t)) /\
    trade_item t =
    [ ("trade_id", VStr (trade_id t));
      ("timestamp", VStr (trade_timestamp t));
      ("strategy", VStr (strategy t));
      ("symbol", VStr (trade_symbol t));
      ("action", VStr (action t));
      ("quantity", VDecimal (decimal_of (quantity t)));
      ("price", VDecimal (decimal_of (price t)));
      ("confidence", VDecimal (decimal_of (confidence t)));
      ("market_signal", VStr (market_signal t));
      ("execution_time_ms", VDecimal (decimal_of (execution_time_ms t)));
      ("profit_loss", opt_decimal (trade_profit_loss t));
      ("portfolio_value", opt_decimal (portfolio_value t)) ] /\
    (forall x, of_str (str x) = Ok (decimal_of x)).
Proof.
  intros t. split; [apply trade_item_converted|split; [apply trade_item_eq|]].
  intros x. unfold decimal_of. destruct (of_str_str_ok x) as [d Hd].
    rewrite Hd. reflexivity.
Qed.

Lemma serializable_decimal_of x :
  serializable (VDecimal (decimal_of x)) = finite x.
Proof.
  pose proof (decimal_of_cases x) as H.
  destruct x as [s|s| |s m e]; cbn [finite].
  - rewrite H. reflexivity.
  - rewrite H. reflexivity.
  - rewrite H. reflexivity.
  - destruct H as (c & ex & H). rewrite H. reflexivity.
Qed.

Lemma serializable_opt_decimal o : serializable (opt_decimal o) = finite_opt o.
Proof.
  destruct o as [f|]; [apply serializable_decimal_of|reflexivity].
Qed.

Lemma serializable_trade_item t :
  serializable (VDict (trade_item t)) = finite_trade t.
Proof.
  rewrite trade_item_eq. unfold finite_trade.
  change (serializable (VDict ?l)) with (serializable (VDict l)).
  cbn [serializable].
  fold (serializable (VDecimal (decimal_of (quantity t)))).
  fold (serializable (VDecimal (decimal_of (price t)))).
  fold (serializable (VDecimal (decimal_of (confidence t)))).
  fold (serializable (VDecimal (decimal_of (execution_time_ms t)))).
  fold (serializable (opt_decimal (trade_profit_loss t))).
  fold (serializable (opt_decimal (portfolio_value t))).
  rewrite !serializable_decimal_of, !serializable_opt_decimal.
  cbn [andb]. rewrite andb_true_r, !andb_assoc. reflexivity.
Qed.

Lemma log_trade_eq t self :
  log_trade t self =
  (Ok (negb (raises (fst (put_item CryonithTradeLogs (trade_item t)
                            (dynamodb self))))),
   set_dynamodb self (snd (put_item CryonithTradeLogs (trade_item t)
                             (dynamodb self)))).
Proof.
  pose proof (trade_item_converted t) as Hc.
  rewrite log_trade_unfold.
  destruct (direct_put_outcome CryonithTradeLogs
              (match asdict_trade t with VDict kvs => kvs | _ => [] end) self)
    as (item & Hi & E).
  unfold asdict_trade in Hc, Hi, E. cbv iota in Hi, E.
  rewrite Hc in Hi. injection Hi as <-. exact E.
Qed.

(** X6.  [log_trade] returns a boolean and never raises, and it returns
    [True] only if every float of the trade is finite, the store is
    reachable and the item carries the key attributes of the trade-logs
    table.  So a trade with a NaN or an infinite price is turned down (its
    Decimal is refused before it is sent), and so is every trade while the
    store is out of reach.  (The store may refuse a trade for more
    reasons than these, a number outside its range for one.) *)
Theorem log_trade_returns :
  forall self t, exists b,
    fst (log_trade t self) = Ok b /\
    (b = true ->
     finite_trade t = true /\ reachable (dynamodb self) = true /\
     keyed (key_schema (trade_logs (dynamodb self))) (trade_item t) = true) /\
    (finite_trade t = false \/ reachable (dynamodb self) = false -> b = false).
Proof.
  intros self t. rewrite log_trade_eq. cbn [fst].
  rewrite put_item_accepts, negb_involutive, serializable_trade_item.
  eexists. split; [reflexivity|]. split.
  - intros H. apply andb_true_iff in H. destruct H as [H Hk].
    apply andb_true_iff in H. destruct H as [Hf Hr]. auto.
  - intros [H|H]; rewrite H; [reflexivity|rewrite andb_false_r; reflexivity].
Qed.

Lemma direct_put_effects t kvs self :
  exists b item s',
    try_
      (item <~ lift (_convert_decimals (VDict kvs)) ;;
       item <~ lift (as_item item) ;;
       _ <~ on_store (put_item t item) ;;
       ret true)
      (fun _ => ret false) self
    = (Ok b, set_dynamodb self s') /\
    _convert_decimals (VDict kvs) = Ok (VDict item) /\
    reachable s' = reachable (dynamodb self) /\
    (forall t', t' <> t -> table s' t' = table (dynamodb self) t') /\
    (if b then In item (rows (table s' t))
     else table s' t = table (dynamodb self) t) /\
    calls s' = (calls (dynamodb self) ++ [PutItem t item])%list.
Proof.
  destruct (direct_put_outcome t kvs self) as (item & Hc & E).
  exists (negb (raises (fst (put_item t item (dynamodb self))))), item,
    (snd (put_item t item (dynamodb self))).
  destruct (put_item_frame t item (dynamodb self)) as (Hr & Ho & _ & Hf).
  split; [exact E|]. split; [exact Hc|]. split; [exact Hr|].
  split; [exact Ho|]. split; [|apply put_item_calls].
  destruct (fst (put_item t item (dynamodb self))) as [[]|e] eqn:R;
    cbn [raises negb].
  - pose proof (put_item_ok_row t item (dynamodb self) R) as Hin. exact Hin.
  - apply Hf. reflexivity.
Qed.

(** X7.  What [log_trade], [log_strategy_metrics] and [log_market_signal]
    do to the logger: the call returns a boolean and never raises; it makes
    one [put_item] call with the normalized record and touches nothing but
    its own table; when it returns [True] the item is a row of that table,
    when it returns [False] that table is as before.  Queue, flags and
    settings of the logger stay as they are. *)
Theorem log_methods_effects :
  (forall self t, exists b item s',
      log_trade t self = (Ok b, set_dynamodb self s') /\
      _convert_decimals (asdict_trade t) = Ok (VDict item) /\
      reachable s' = reachable (dynamodb self) /\
      strategy_metrics s' = strategy_metrics (dynamodb self) /\
      market_signals s' = market_signals (dynamodb self) /\
      performance s' = performance (dynamodb self) /\
      (if b then In item (rows (trade_logs s'))
       else trade_logs s' = trade_logs (dynamodb self)) /\
      calls s' = (calls (dynamodb self) ++ [PutItem CryonithTradeLogs item])%list) /\
  (forall self m, exists b item s',
      log_strategy_metrics m self = (Ok b, set_dynamodb self s') /\
      _convert_decimals (asdict_metric m) = Ok (VDict item) /\
      reachable s' = reachable (dynamodb self) /\
      trade_logs s' = trade_logs (dynamodb self) /\
      market_signals s' = market_signals (dynamodb self) /\
      performance s' = performance (dynamodb self) /\
      (if b then In item (rows (strategy_metrics s'))
       else strategy_metrics s' = strategy_metrics (dynamodb self)) /\
      calls s'
      = (calls (dynamodb self) ++ [PutItem CryonithStrategyMetrics item])%list) /\
  (forall self g, exists b item s',
      log_market_signal g self = (Ok b, set_dynamodb self s') /\
      _convert_decimals (asdict_signal g) = Ok (VDict item) /\
      reachable s' = reachable (dynamodb self) /\
      trade_logs s' = trade_logs (dynamodb self) /\
      strategy_metrics s' = strategy_metrics (dynamodb self) /\
      performance s' = performance (dynamodb self) /\
      (if b then In item (rows (market_signals s'))
       else market_signals s' = market_signals (dynamodb self)) /\
      calls s'
      = (calls (dynamodb self) ++ [PutItem CryonithMarketSignals item])%list).
Proof.
  split; [|split].
  - intros self t. rewrite log_trade_unfold. unfold asdict_trade.
    edestruct (direct_put_effects CryonithTradeLogs)
      as (b & item & s' & E & Hc & Hr & Ho & Hb & Hcalls).
    exists b, item, s'. split; [exact E|]. split; [exact Hc|].
    split; [exact Hr|].
    split; [apply (Ho CryonithStrategyMetrics); discriminate|].
    split; [apply (Ho CryonithMarketSignals); discriminate|].
    split; [apply (Ho CryonithPerformance); discriminate|].
    split; [exact Hb|exact Hcalls].
  - intros self m. rewrite log_strategy_metrics_unfold. unfold asdict_metric.
    edestruct (direct_put_effects CryonithStrategyMetrics)
      as (b & item & s' & E & Hc & Hr & Ho & Hb & Hcalls).
    exists b, item, s'. split; [exact E|]. split; [exact Hc|].
    split; [exact Hr|].
    split; [apply (Ho CryonithTradeLogs); discriminate|].
    split; [apply (Ho CryonithMarketSignals); discriminate|].
    split; [apply (Ho CryonithPerformance); discriminate|].
    split; [exact Hb|exact Hcalls].
  - intros self g. rewrite log_market_signal_unfold. unfold asdict_signal.
    edestruct (direct_put_effects CryonithMarketSignals)
      as (b & item & s' & E & Hc & Hr & Ho & Hb & Hcalls).
    exists b, item, s'. split; [exact E|]. split; [exact Hc|].
    split; [exact Hr|].
    split; [apply (Ho CryonithTradeLogs); discriminate|].
    split; [apply (Ho CryonithStrategyMetrics); discriminate|].
    split; [apply (Ho CryonithPerformance); discriminate|].
    split; [exact Hb|exact Hcalls].
Qed.

(** X8.  Writer and reader agree on the attribute that holds the time.
    [get_recent_trades] makes one scan of the trade-logs table with the
    filter [timestamp >= isoformat(now - hours)].  The item that
    [log_trade] puts for a trade passes this filter exactly when the
    trade's time stamp is not before the cut-off, compared as strings;
    and every item of the list returned passes it. *)
Theorem reader_filters_on_the_attribute_the_writer_stores :
  forall self t hours now delta cutoff_time,
    PyDatetime.hours hours = Ok delta ->
    PyDatetime.sub now delta = Ok cutoff_time ->
    calls (dynamodb (snd (get_recent_trades hours now self)))
    = (calls (dynamodb self) ++
       [Scan CryonithTradeLogs "timestamp" (PyDatetime.isoformat cutoff_time)])%list /\
    attr_gte "timestamp" (PyDatetime.isoformat cutoff_time) (trade_item t)
    = String.leb (PyDatetime.isoformat cutoff_time) (trade_timestamp t) /\
    exists items,
      fst (get_recent_trades hours now self) = Ok items /\
      Forall (fun it => attr_gte "timestamp" (PyDatetime.isoformat cutoff_time) it
                        = true) items.
Proof.
  intros self t hours now delta cutoff Hd Hs. split; [|split].
  - rewrite get_recent_trades_unfold.
    unfold try_, mbind, lift, on_store, ret, scan. rewrite Hd, Hs.
    destruct (negb (reachable _)); reflexivity.
  - unfold attr_gte, str_attr. rewrite trade_item_eq.
    cbn [dict_get String.eqb]. reflexivity.
  - rewrite get_recent_trades_eval, Hd, Hs. eexists. split; [reflexivity|].
    destruct (reachable (dynamodb self)); [|constructor].
    apply Forall_forall. intros it Hin. apply filter_In in Hin. apply Hin.
Qed.

(** X8 at work: the trade of [simulate_ursus_trading] and the last hour. *)
Lemma reader_filters_on_the_attribute_the_writer_stores_witness :
  calls (dynamodb (snd (get_recent_trades 1 Sample.now
                          (Sample.logger true Sample.snake_keys))))
  = (calls (dynamodb (Sample.logger true Sample.snake_keys)) ++
     [Scan CryonithTradeLogs "timestamp"
        (PyDatetime.isoformat (Sample.now - 3600000000))])%list /\
  attr_gte "timestamp" (PyDatetime.isoformat (Sample.now - 3600000000))
    (trade_item Sample.trade)
  = String.leb (PyDatetime.isoformat (Sample.now - 3600000000))
      (trade_timestamp Sample.trade) /\
  exists items,
    fst (get_recent_trades 1 Sample.now (Sample.logger true Sample.snake_keys))
    = Ok items /\
    Forall (fun it =>
              attr_gte "timestamp"
                (PyDatetime.isoformat (Sample.now - 3600000000)) it = true) items.
Proof.
  apply (reader_filters_on_the_attribute_the_writer_stores
           (Sample.logger true Sample.snake_keys)
           Sample.trade 1 Sample.now 3600000000 (Sample.now - 3600000000));
    vm_compute; reflexivity.
Defined.

End LogMethods.

(* ================================================================== *)
(** ** The read accessors *)

Section ReadAccessorsMore.

Local Open Scope string_scope.

Lemma set_dynamodb_same self : set_dynamodb self (dynamodb self) = self.
Proof. destruct self. reflexivity. Qed.

(** X9.  The read accessors only read: each leaves the logger exactly as
    it was, but for the one [query] or [scan] call it made on the client;
    no table, no flag and no setting changes, whether the call went
    through or not. *)
Theorem read_accessors_only_read :
  forall self strategy_id days hours now,
    (snd (get_strategy_performance strategy_id days now self) = self \/
     exists lo hi,
       snd (get_strategy_performance strategy_id days now self)
       = set_dynamodb self
           (record_call (Query CryonithStrategyMetrics "StrategyId" strategy_id
                           "Timestamp" lo hi) (dynamodb self))) /\
    (snd (get_recent_trades hours now self) = self \/
     exists cutoff,
       snd (get_recent_trades hours now self)
       = set_dynamodb self
           (record_call (Scan CryonithTradeLogs "timestamp" cutoff)
              (dynamodb self))).
Proof.
  intros self strategy_id days hours now. split.
  - rewrite get_strategy_performance_unfold.
    unfold try_, mbind, lift, on_store, ret, query.
    destruct (PyDatetime.days days) as [delta|]; [|left; reflexivity].
    destruct (PyDatetime.sub now delta) as [start|]; [|left; reflexivity].
    right. exists (PyDatetime.isoformat start), (PyDatetime.isoformat now).
    destruct (negb (reachable _)); [reflexivity|].
    destruct (range_key _) as [rk|]; [|reflexivity].
    destruct (_ && _)%bool; reflexivity.
  - rewrite get_recent_trades_unfold.
    unfold try_, mbind, lift, on_store, ret, scan.
    destruct (PyDatetime.hours hours) as [delta|]; [|left; reflexivity].
    destruct (PyDatetime.sub now delta) as [cutoff|]; [|left; reflexivity].
    right. exists (PyDatetime.isoformat cutoff).
    destruct (negb (reachable _)); reflexivity.
Qed.

(** X10.  A window that cannot be computed is answered with the empty
    list and without asking the store: when [timedelta] overflows (a
    thousand million days or more) or the start of the window falls
    before year 1, the [OverflowError] is caught, the accessor returns
    [[]] and the logger is exactly as before. *)
Theorem read_accessors_on_window_overflow :
  forall self strategy_id days hours now,
    raises (bind (PyDatetime.days days) (PyDatetime.sub now)) = true ->
    raises (bind (PyDatetime.hours hours) (PyDatetime.sub now)) = true ->
    get_strategy_performance strategy_id days now self = (Ok [], self) /\
    get_recent_trades hours now self = (Ok [], self).
Proof.
  intros self strategy_id days hours now Hd Hh. split.
  - rewrite get_strategy_performance_unfold. unfold try_, mbind, lift, ret.
    destruct (PyDatetime.days days) as [delta|]; [|reflexivity].
    cbn [bind] in Hd.
    destruct (PyDatetime.sub now delta); [discriminate|reflexivity].
  - rewrite get_recent_trades_unfold. unfold try_, mbind, lift, ret.
    destruct (PyDatetime.hours hours) as [delta|]; [|reflexivity].
    cbn [bind] in Hh.
    destruct (PyDatetime.sub now delta); [discriminate|reflexivity].
Qed.

(** X10 at work: a thousand million days, and a number of hours that
    reaches before year 1. *)
Lemma read_accessors_on_window_overflow_witness :
  get_strategy_performance "ursus_momentum_v1" 1000000000 Sample.now
    (Sample.logger true Sample.camel_keys)
  = (Ok [], Sample.logger true Sample.camel_keys) /\
  get_recent_trades 20000000 Sample.now (Sample.logger true Sample.camel_keys)
  = (Ok [], Sample.logger true Sample.camel_keys).
Proof.
  apply (read_accessors_on_window_overflow
           (Sample.logger true Sample.camel_keys) "ursus_momentum_v1"
           1000000000 20000000 Sample.now); reflexivity.
Defined.


Lemma insert_sorted_perm a it l : Permutation (insert_sorted a it l) (it :: l).
Proof.
  induction l as [|x l IH]; cbn [insert_sorted]; [reflexivity|].
  destruct (attr_leb a it x); [reflexivity|].
  rewrite IH. apply perm_swap.
Qed.

Lemma sort_by_perm a l : Permutation (sort_by a l) l.
Proof.
  unfold sort_by. induction l as [|x l IH]; cbn [fold_right]; [reflexivity|].
  rewrite insert_sorted_perm. constructor. exact IH.
Qed.






(** The same window, evaluated: the two rows of the week, earlier first. *)
Example get_strategy_performance_sample :
  fst (get_strategy_performance "ursus_momentum_v1" 7 Sample.now
         (__init__ "us-east-1" camel_metrics_store))
  = Ok [ [("StrategyId", VStr "ursus_momentum_v1");
          ("Timestamp", VStr "2026-11-01T09:30:00.250000+00:00");
          ("win_rate", VDecimal (PyDecimal.Finite false 7 (-1)))];
         [("StrategyId", VStr "ursus_momentum_v1");
          ("Timestamp", VStr "2026-11-02T10:00:00+00:00");
          ("win_rate", VDecimal (PyDecimal.Finite false 68 (-2)))] ].
Proof. vm_compute. reflexivity. Qed.

End ReadAccessorsMore.

(* ================================================================== *)
(** ** One batch of trades, and a put made twice *)

Section BatchesMore.

Local Open Scope string_scope.
Local Open Scope nat_scope.

Lemma batches_single (trades : list TradeLog) :
  1 <= List.length trades <= 25 ->
  batches (List.length trades) 25 trades = [trades].
Proof.
  intros [Hlo Hhi]. destruct trades as [|t trades]; [cbn in Hlo; lia|].
  cbn [List.length batches].
  rewrite firstn_all2 by exact Hhi. rewrite skipn_all2 by exact Hhi.
  destruct (List.length trades); reflexivity.
Qed.

Lemma key_eqb_sym a b : key_eqb a b = key_eqb b a.
Proof.
  unfold key_eqb. rewrite (String.eqb_sym (fst a) (fst b)).
  destruct (snd a) as [x|], (snd b) as [y|]; try reflexivity.
  rewrite (String.eqb_sym x y). reflexivity.
Qed.

Lemma key_eqb_refl a : key_eqb a a = true.
Proof.
  unfold key_eqb. rewrite String.eqb_refl.
  destruct (snd a); [apply String.eqb_refl|reflexivity].
Qed.

(** A put under another key leaves a row in place. *)
Lemma upsert_keeps ks k it r rs :
  In r rs -> has_key ks k r = false -> In r (upsert ks k it rs).
Proof.
  induction rs as [|x rs IH]; cbn [upsert In]; [contradiction|].
  intros [->|Hin] Hk.
  - rewrite Hk. left. reflexivity.
  - destruct (has_key ks k x); [right; exact Hin|right; apply IH; assumption].
Qed.

Lemma all_keys_cons ks it its kl :
  all_keys ks (it :: its) = Some kl ->
  exists k kl', kl = k :: kl' /\ key_of ks it = Some k /\ all_keys ks its = Some kl'.
Proof.
  cbn [all_keys]. destruct (key_of ks it) as [k|]; [|discriminate].
  destruct (all_keys ks its) as [kl'|]; [|discriminate].
  intros H. injection H as <-. eauto.
Qed.

(** Rows put under pairwise distinct keys are all in the table afterwards. *)
Lemma put_rows_all its : forall kl tb,
  all_keys (key_schema tb) its = Some kl ->
  distinct_keys kl = true ->
  (forall it, In it its -> In it (rows (put_rows tb (combine kl its)))) /\
  (forall r k0, In r (rows tb) -> key_of (key_schema tb) r = Some k0 ->
                existsb (key_eqb k0) kl = false ->
                In r (rows (put_rows tb (combine kl its)))) /\
  key_schema (put_rows tb (combine kl its)) = key_schema tb.
Proof.
  induction its as [|it its IH]; intros kl tb Hk Hd.
  - cbn in Hk. injection Hk as <-. cbn. repeat split; auto. contradiction.
  - destruct (all_keys_cons _ _ _ _ Hk) as (k & kl' & -> & Hit & Hk').
    cbn [distinct_keys] in Hd. apply andb_true_iff in Hd. destruct Hd as [Hn Hd].
    apply negb_true_iff in Hn.
    cbn [combine]. unfold put_rows. cbn [fold_left fst snd].
    destruct (IH kl' (put_row tb k it) Hk' Hd) as (Hall & Hkeep & Hs).
    unfold put_rows in Hall, Hkeep, Hs. split; [|split].
    + intros x [<-|Hin].
      * apply (Hkeep it k); [apply upsert_In|exact Hit|exact Hn].
      * apply Hall. exact Hin.
    + intros r k0 Hin Hr Hex. cbn [existsb] in Hex.
      apply orb_false_iff in Hex. destruct Hex as [E0 Hex].
      apply (Hkeep r k0); [|exact Hr|exact Hex].
      apply upsert_keeps; [exact Hin|].
      unfold has_key. cbn [put_row key_schema] in Hr. rewrite Hr.
      rewrite key_eqb_sym. exact E0.
    + exact Hs.
Qed.

Lemma batch_write_item_accepted t its s :
  reachable s = true ->
  acceptable (key_schema (table s t)) its = true ->
  exists kl,
    all_keys (key_schema (table s t)) its = Some kl /\
    distinct_keys kl = true /\
    batch_write_item t its s =
    (Ok tt, set_table (record_call (BatchWriteItem t its) s) t
              (put_rows (table s t) (combine kl its))).
Proof.
  intros Hr Ha. unfold acceptable in Ha.
  apply andb_true_iff in Ha. destruct Ha as [Hser Ha].
  destruct (all_keys _ its) as [kl|] eqn:Hk; [|discriminate].
  apply andb_true_iff in Ha. destruct Ha as [Hlen Hd].
  exists kl. split; [reflexivity|]. split; [exact Hd|].
  unfold batch_write_item. rewrite Hser. cbn [negb].
  change (reachable (record_call (BatchWriteItem t its) s)) with (reachable s).
  rewrite Hr. cbn [negb]. rewrite table_record_call, Hk, Hlen, Hd. reflexivity.
Qed.

(** X12.  A list of 1 to 25 trades that the store takes (reachable, every
    item serializable and carrying the key attributes, no key twice) is
    stored whole by [batch_log_trades]: the call returns the number of
    trades and the item of every trade is a row of the trade-logs table. *)
Theorem batch_log_trades_stores_one_batch :
  forall region s trades,
    reachable s = true ->
    1 <= List.length trades <= 25 ->
    acceptable (key_schema (trade_logs s)) (map trade_item trades) = true ->
    fst (batch_log_trades trades (__init__ region s)) = Ok (List.length trades) /\
    forall t, In t trades ->
      In (trade_item t)
         (rows (trade_logs (dynamodb (snd (batch_log_trades trades
                                             (__init__ region s)))))).
Proof.
  intros region s trades Hr Hlen Ha.
  rewrite batch_log_trades_unfold. cbn [__init__ batch_size dynamodb].
  rewrite (batches_single trades Hlen). cbn [fold_left fst snd].
  rewrite (log_batch_spec trades 0 s Hlen).
  destruct (batch_write_item_accepted CryonithTradeLogs (map trade_item trades)
              s Hr Ha) as (kl & Hk & Hd & E).
  unfold counted. rewrite E. cbn [fst snd raises andb set_dynamodb dynamodb].
  split; [reflexivity|].
  intros t Hin. cbn [set_table trade_logs].
  destruct (put_rows_all (map trade_item trades) kl
              (table (record_call (BatchWriteItem CryonithTradeLogs
                                     (map trade_item trades)) s)
                 CryonithTradeLogs)) as (Hall & _).
  - exact Hk.
  - exact Hd.
  - apply Hall. apply in_map. exact Hin.
Qed.

(** X12 at work: the trade of [simulate_ursus_trading] on an empty table
    keyed on [trade_id]. *)
Lemma batch_log_trades_stores_one_batch_witness :
  fst (batch_log_trades [Sample.trade]
         (__init__ "us-east-1" (Sample.store true Sample.snake_keys)))
  = Ok (List.length [Sample.trade]) /\
  forall t, In t [Sample.trade] ->
    In (trade_item t)
       (rows (trade_logs (dynamodb (snd (batch_log_trades [Sample.trade]
          (__init__ "us-east-1" (Sample.store true Sample.snake_keys))))))).
Proof.
  apply (batch_log_trades_stores_one_batch "us-east-1"
           (Sample.store true Sample.snake_keys) [Sample.trade]).
  - reflexivity.
  - cbn. lia.
  - vm_compute. reflexivity.
Defined.

Lemma reachable_record_call c s : reachable (record_call c s) = reachable s.
Proof. reflexivity. Qed.

(** A batch of one item against a put of that item. *)
Lemma batch_of_one_item t it s :
  (forall tn, table (snd (batch_write_item t [it] s)) tn
              = table (snd (put_item t it s)) tn) /\
  reachable (snd (batch_write_item t [it] s)) = reachable (snd (put_item t it s)).
Proof.
  unfold batch_write_item, put_item.
  cbn [forallb]. rewrite andb_true_r, !reachable_record_call, !table_record_call.
  destruct (serializable (VDict it)); cbn [negb].
  2:{ cbn [snd]. split; [intros tn; rewrite !table_record_call|]; reflexivity. }
  destruct (reachable s) eqn:Hr; cbn [negb].
  2:{ cbn [snd]. split; [intros tn; rewrite !table_record_call|]; reflexivity. }
  cbn [all_keys].
  destruct (key_of (key_schema (table s t)) it) as [k|].
  2:{ cbn [snd]. split; [intros tn; rewrite !table_record_call|]; reflexivity. }
  cbn [List.length Nat.leb distinct_keys existsb negb andb combine snd].
  unfold put_rows. cbn [fold_left fst snd].
  split; [intros tn; destruct t, tn; reflexivity|destruct t; reflexivity].
Qed.

(** X13.  For a single trade the batch path writes what [log_trade]
    writes: after [batch_log_trades([trade])] every table is as after
    [log_trade(trade)], on any store.  The values returned differ:
    [log_trade] tells whether the put went through, [batch_log_trades]
    returns 1 either way. *)
Theorem batch_of_one_writes_like_log_trade :
  forall region s t,
    (forall tn,
        table (dynamodb (snd (batch_log_trades [t] (__init__ region s)))) tn
        = table (dynamodb (snd (log_trade t (__init__ region s)))) tn) /\
    reachable (dynamodb (snd (batch_log_trades [t] (__init__ region s))))
    = reachable (dynamodb (snd (log_trade t (__init__ region s)))) /\
    fst (batch_log_trades [t] (__init__ region s)) = Ok 1.
Proof.
  intros region s t.
  assert (Hlen : 1 <= List.length [t] <= 25) by (cbn; lia).
  rewrite batch_log_trades_unfold. cbn [__init__ batch_size dynamodb].
  rewrite (batches_single [t] Hlen). cbn [fold_left fst snd].
  rewrite (log_batch_spec [t] 0 s Hlen). rewrite log_trade_eq.
  cbn [fst snd set_dynamodb dynamodb map].
  destruct (batch_of_one_item CryonithTradeLogs (trade_item t) s) as [Ht Hr].
  split; [exact Ht|]. split; [exact Hr|].
  unfold counted. cbn [List.length Nat.eqb]. rewrite andb_false_r. reflexivity.
Qed.

Lemma upsert_idem ks k it rs :
  has_key ks k it = true ->
  upsert ks k it (upsert ks k it rs) = upsert ks k it rs.
Proof.
  intros H. induction rs as [|r rs IH]; cbn [upsert].
  - rewrite H. reflexivity.
  - destruct (has_key ks k r) eqn:E; cbn [upsert].
    + rewrite H. reflexivity.
    + rewrite E, IH. reflexivity.
Qed.

Lemma put_item_twice t it s tn :
  table (snd (put_item t it (snd (put_item t it s)))) tn
  = table (snd (put_item t it s)) tn.
Proof.
  destruct (put_item_frame t it s) as (Hr & _ & Hs & _).
  assert (E : forall k, negb (serializable (VDict it)) = false ->
                        negb (reachable s) = false ->
                        key_of (key_schema (table s t)) it = Some k ->
                        table (snd (put_item t it s)) t = put_row (table s t) k it).
  { intros k Es Er Ek. unfold put_item.
    rewrite Es, reachable_record_call, Er, table_record_call, Ek. cbn [snd].
    rewrite table_set_table. reflexivity. }
  set (s1 := snd (put_item t it s)) in *.
  unfold put_item.
  rewrite reachable_record_call, table_record_call, Hr, (Hs t).
  destruct (negb (serializable (VDict it))) eqn:Es;
    [cbn [snd]; apply table_record_call|].
  destruct (negb (reachable s)) eqn:Er; [cbn [snd]; apply table_record_call|].
  destruct (key_of (key_schema (table s t)) it) as [k|] eqn:Ek;
    [|cbn [snd]; apply table_record_call].
  cbn [snd].
  assert (P : put_row (table s1 t) k it = table s1 t).
  { rewrite (E k eq_refl eq_refl eq_refl). unfold put_row. cbn [key_schema rows].
    rewrite upsert_idem; [reflexivity|].
    unfold has_key. rewrite Ek. apply key_eqb_refl. }
  clearbody s1.
  destruct t, tn;
    cbn [set_table table record_call trade_logs strategy_metrics
           market_signals performance] in *;
    try reflexivity; exact P.
Qed.

(** X14.  Logging the same record again changes no table: the second put
    replaces the row the first one wrote (or is turned down like the
    first), for trades, strategy metrics and market signals alike. *)
Theorem logging_twice_is_logging_once :
  (forall self t tn,
      table (dynamodb (snd (log_trade t (snd (log_trade t self))))) tn
      = table (dynamodb (snd (log_trade t self))) tn) /\
  (forall self m tn,
      table (dynamodb (snd (log_strategy_metrics m
                              (snd (log_strategy_metrics m self))))) tn
      = table (dynamodb (snd (log_strategy_metrics m self))) tn) /\
  (forall self g tn,
      table (dynamodb (snd (log_market_signal g
                              (snd (log_market_signal g self))))) tn
      = table (dynamodb (snd (log_market_signal g self))) tn).
Proof.
  assert (G : forall t kvs self tn,
    let m := try_
       (item <~ lift (_convert_decimals (VDict kvs)) ;;
        item <~ lift (as_item item) ;;
        _ <~ on_store (put_item t item) ;;
        ret true)
       (fun _ => ret false) in
    table (dynamodb (snd (m (snd (m self))))) tn
    = table (dynamodb (snd (m self))) tn).
  { intros t kvs self tn m. subst m.
    destruct (direct_put_outcome t kvs self) as (item & Hc & E).
    destruct (direct_put_outcome t kvs
                (set_dynamodb self (snd (put_item t item (dynamodb self)))))
      as (item' & Hc' & E').
    rewrite Hc in Hc'. injection Hc' as <-.
    rewrite E. cbn [snd]. rewrite E'. cbn [snd set_dynamodb dynamodb].
    apply put_item_twice. }
  split; [|split].
  - intros self t tn. apply (G CryonithTradeLogs).
  - intros self m tn. apply (G CryonithStrategyMetrics).
  - intros self g tn. apply (G CryonithMarketSignals).
Qed.

End BatchesMore.

(* ================================================================== *)
(** ** Flags and settings over the life of a logger *)

Section LoggerState.

Local Open Scope string_scope.

Lemma only_store_ret {A} (a : A) : only_store (ret a).
Proof. intros self. exists (dynamodb self). destruct self; reflexivity. Qed.

Lemma only_store_lift {A} (r : result A) : only_store (lift r).
Proof. intros self. exists (dynamodb self). destruct self; reflexivity. Qed.

Lemma only_store_on_store {A} (f : Store -> result A * Store) :
  only_store (on_store f).
Proof.
  intros self. unfold on_store. destruct (f (dynamodb self)) as [r s].
  exists s. reflexivity.
Qed.

Lemma only_store_mbind {A B} (m : M A) (k : A -> M B) :
  only_store m -> (forall a, only_store (k a)) -> only_store (mbind m k).
Proof.
  intros Hm Hk self. unfold mbind. destruct (Hm self) as [s1 E1].
  destruct (m self) as [[a|e] self']; cbn [snd] in *.
  - destruct (Hk a self') as [s2 E2]. exists s2. rewrite E2, E1. reflexivity.
  - exists s1. exact E1.
Qed.

Lemma only_store_try {A} (body : M A) (handler : exn -> M A) :
  only_store body -> (forall e, only_store (handler e)) ->
  only_store (try_ body handler).
Proof.
  intros Hb Hh self. unfold try_. destruct (Hb self) as [s1 E1].
  destruct (body self) as [[a|e] self']; cbn [snd] in *.
  - exists s1. exact E1.
  - destruct (Hh e self') as [s2 E2]. exists s2. rewrite E2, E1. reflexivity.
Qed.

Lemma only_store_batch_log_trades trades : only_store (batch_log_trades trades).
Proof.
  intros self. rewrite batch_log_trades_unfold.
  destruct (fold_left _ _ _) as [c s]. exists s. reflexivity.
Qed.

Lemma ignores_running_ret {A} (a : A) : ignores_running (ret a).
Proof. intros self b. reflexivity. Qed.

Lemma ignores_running_lift {A} (r : result A) : ignores_running (lift r).
Proof. intros self b. reflexivity. Qed.

Lemma ignores_running_on_store {A} (f : Store -> result A * Store) :
  ignores_running (on_store f).
Proof.
  intros self b. unfold on_store. cbn [set_running dynamodb].
  destruct (f (dynamodb self)) as [r s]. reflexivity.
Qed.

Lemma ignores_running_mbind {A B} (m : M A) (k : A -> M B) :
  ignores_running m -> (forall a, ignores_running (k a)) ->
  ignores_running (mbind m k).
Proof.
  intros Hm Hk self b. unfold mbind. rewrite (Hm self b).
  destruct (m self) as [[a|e] self']; cbn [fst snd].
  - apply Hk.
  - reflexivity.
Qed.

Lemma ignores_running_try {A} (body : M A) (handler : exn -> M A) :
  ignores_running body -> (forall e, ignores_running (handler e)) ->
  ignores_running (try_ body handler).
Proof.
  intros Hb Hh self b. unfold try_. rewrite (Hb self b).
  destruct (body self) as [[a|e] self']; cbn [fst snd].
  - reflexivity.
  - apply Hh.
Qed.

Lemma ignores_running_batch_log_trades trades :
  ignores_running (batch_log_trades trades).
Proof.
  intros self b. rewrite !batch_log_trades_unfold. cbn [set_running batch_size dynamodb].
  destruct (fold_left _ _ _) as [c s]. reflexivity.
Qed.

(** A method built from [try], sequencing, pure steps and calls on the
    store, taken apart. *)
Ltac by_parts :=
  repeat match goal with
         | |- only_store (try_ _ _) => apply only_store_try; [|intros ?]
         | |- only_store (mbind _ _) => apply only_store_mbind; [|intros ?]
         | |- only_store (ret _) => apply only_store_ret
         | |- only_store (lift _) => apply only_store_lift
         | |- only_store (on_store _) => apply only_store_on_store
         | |- only_store (batch_log_trades _) => apply only_store_batch_log_trades
         | |- ignores_running (try_ _ _) => apply ignores_running_try; [|intros ?]
         | |- ignores_running (mbind _ _) => apply ignores_running_mbind; [|intros ?]
         | |- ignores_running (ret _) => apply ignores_running_ret
         | |- ignores_running (lift _) => apply ignores_running_lift
         | |- ignores_running (on_store _) => apply ignores_running_on_store
         | |- ignores_running (batch_log_trades _) =>
             apply ignores_running_batch_log_trades
         end.

Ltac open_method :=
  rewrite ?log_trade_unfold, ?log_strategy_metrics_unfold,
    ?log_market_signal_unfold, ?log_daily_performance_unfold,
    ?get_strategy_performance_unfold, ?get_recent_trades_unfold.

Lemma only_store_log_trade t : only_store (log_trade t).
Proof. open_method. by_parts. Qed.

Lemma only_store_log_strategy_metrics m : only_store (log_strategy_metrics m).
Proof. open_method. by_parts. Qed.

Lemma only_store_log_market_signal g : only_store (log_market_signal g).
Proof. open_method. by_parts. Qed.

Lemma only_store_log_daily_performance date ms now :
  only_store (log_daily_performance date ms now).
Proof. open_method. by_parts. Qed.

Lemma only_store_get_strategy_performance id days now :
  only_store (get_strategy_performance id days now).
Proof. open_method. by_parts. Qed.

Lemma only_store_get_recent_trades hours now :
  only_store (get_recent_trades hours now).
Proof. open_method. by_parts. Qed.

Lemma ignores_running_log_trade t : ignores_running (log_trade t).
Proof. open_method. by_parts. Qed.

Lemma ignores_running_log_strategy_metrics m :
  ignores_running (log_strategy_metrics m).
Proof. open_method. by_parts. Qed.

Lemma ignores_running_log_market_signal g : ignores_running (log_market_signal g).
Proof. open_method. by_parts. Qed.

Lemma ignores_running_log_daily_performance date ms now :
  ignores_running (log_daily_performance date ms now).
Proof. open_method. by_parts. Qed.

Lemma ignores_running_get_strategy_performance id days now :
  ignores_running (get_strategy_performance id days now).
Proof. open_method. by_parts. Qed.

Lemma ignores_running_get_recent_trades hours now :
  ignores_running (get_recent_trades hours now).
Proof. open_method. by_parts. Qed.

(** Every call but [shutdown] leaves all of the logger but the store. *)
Lemma do_call_only_store c now self :
  c <> Shutdown -> exists s, do_call c now self = set_dynamodb self s.
Proof.
  intros Hc. destruct c; cbn [do_call]; unfold discard.
  - apply only_store_log_trade.
  - apply only_store_log_strategy_metrics.
  - apply only_store_log_market_signal.
  - apply only_store_log_daily_performance.
  - apply only_store_batch_log_trades.
  - apply only_store_get_strategy_performance.
  - apply only_store_get_recent_trades.
  - contradiction.
Qed.

Lemma call_eq_dec_Shutdown c : {c = Shutdown} + {c <> Shutdown}.
Proof. destruct c; (left; reflexivity) || (right; discriminate). Qed.

Lemma exec_settings self ev : settings (exec self ev) = settings self.
Proof.
  destruct ev as [c now| |up]; cbn [exec].
  - destruct (call_eq_dec_Shutdown c) as [->|Hc]; [reflexivity|].
    destruct (do_call_only_store c now self Hc) as [s ->]. reflexivity.
  - unfold _batch_processor_step, _batch_processor_body.
    destruct (processor_alive self), (running self); reflexivity.
  - reflexivity.
Qed.

Lemma exec_running self ev :
  running (exec self ev) = running self && negb (is_shutdown ev).
Proof.
  destruct ev as [c now| |up]; cbn [exec].
  - destruct (call_eq_dec_Shutdown c) as [->|Hc].
    + cbn. rewrite andb_false_r. reflexivity.
    + destruct (do_call_only_store c now self Hc) as [s ->].
      replace (is_shutdown (Call c now)) with false
        by (destruct c; try reflexivity; contradiction).
      cbn [set_dynamodb running negb]. rewrite andb_true_r. reflexivity.
  - unfold _batch_processor_step, _batch_processor_body.
    destruct (processor_alive self) eqn:A, (running self) eqn:R;
      cbn [snd set_processor_alive running processor_alive andb negb is_shutdown];
      rewrite ?A, ?R; reflexivity.
  - cbn. rewrite andb_true_r. reflexivity.
Qed.

Lemma exec_processor_alive self ev :
  processor_alive (exec self ev) =
  match ev with
  | Worker => processor_alive self && running self
  | _ => processor_alive self
  end.
Proof.
  destruct ev as [c now| |up]; cbn [exec].
  - destruct (call_eq_dec_Shutdown c) as [->|Hc]; [reflexivity|].
    destruct (do_call_only_store c now self Hc) as [s ->]. reflexivity.
  - unfold _batch_processor_step, _batch_processor_body.
    destruct (processor_alive self) eqn:A, (running self) eqn:R;
      cbn [snd set_processor_alive running processor_alive andb negb is_shutdown];
      rewrite ?A, ?R; reflexivity.
  - reflexivity.
Qed.

Lemma run_flags evs : forall self,
  settings (run self evs) = settings self /\
  running (run self evs) = running self && negb (existsb is_shutdown evs) /\
  (processor_alive self = false -> processor_alive (run self evs) = false) /\
  ((processor_alive self = false -> running self = false) ->
   processor_alive (run self evs) = false -> running (run self evs) = false).
Proof.
  unfold run. induction evs as [|ev evs IH]; intros self; cbn [fold_left existsb].
  - rewrite andb_true_r. auto.
  - destruct (IH (exec self ev)) as (Hs & Hr & Ha & Hi).
    split; [rewrite Hs; apply exec_settings|]. split; [|split].
    + rewrite Hr, exec_running, negb_orb, andb_assoc. reflexivity.
    + intros H. apply Ha. rewrite exec_processor_alive, H.
      destruct ev; reflexivity.
    + intros Hinv Hdead. apply Hi; [|exact Hdead].
      rewrite exec_processor_alive, exec_running.
      destruct ev as [c now| |up].
      * intros H. rewrite (Hinv H). reflexivity.
      * intros H. apply andb_false_iff in H. destruct H as [H|H].
        -- rewrite (Hinv H). reflexivity.
        -- rewrite H. reflexivity.
      * intros H. rewrite (Hinv H). reflexivity.
Qed.

(** X15.  The flags and settings over the whole life of a logger, for any
    sequence of calls, worker steps and network changes after [__init__]:
    region, batch size (25) and flush interval (30) never change;
    [running] is true until the first [shutdown] and false ever after, no
    method raises it again; the worker thread ends only after [shutdown]
    and is never started again. *)
Theorem flags_and_settings_over_a_run :
  forall region store evs,
    let final := run (__init__ region store) evs in
    settings final = (region, 25%nat, 30) /\
    running final = negb (existsb is_shutdown evs) /\
    (processor_alive final = false -> running final = false) /\
    forall more,
      (running final = false -> running (run final more) = false) /\
      (processor_alive final = false ->
       processor_alive (run final more) = false).
Proof.
  intros region store evs final. subst final.
  destruct (run_flags evs (__init__ region store)) as (Hs & Hr & _ & Hi).
  split; [exact Hs|]. split; [exact Hr|]. split.
  - apply Hi. discriminate.
  - intros more.
    destruct (run_flags more (run (__init__ region store) evs))
      as (_ & Hr' & Ha' & _).
    split; [|exact Ha'].
    intros H. rewrite Hr', H. reflexivity.
Qed.

(** X16.  What [shutdown] does and does not do.  It lowers [running] and
    nothing else: no table, no call, the queue and the settings are as
    before, so nothing is flushed.  From then on the worker sleeps no
    more, in any later state, and its next step ends the thread.  The
    logger itself is not closed: every method called after [shutdown]
    returns what it would have returned before and does to the store what
    it would have done.  A second [shutdown] changes nothing. *)
Theorem shutdown_stops_the_worker_only :
  forall self,
    let down := snd (shutdown self) in
    down = set_running self false /\
    (forall fuel, _batch_processor fuel down = ([], down)) /\
    (forall more, fst (_batch_processor_step (run down more)) = []) /\
    processor_alive (exec down Worker) = false /\
    snd (shutdown down) = down /\
    (forall c now, do_call c now down = snd (shutdown (do_call c now self))) /\
    (forall t, fst (log_trade t down) = fst (log_trade t self)) /\
    (forall m, fst (log_strategy_metrics m down)
               = fst (log_strategy_metrics m self)) /\
    (forall g, fst (log_market_signal g down) = fst (log_market_signal g self)) /\
    (forall date ms now, fst (log_daily_performance date ms now down)
                         = fst (log_daily_performance date ms now self)) /\
    (forall ts, fst (batch_log_trades ts down) = fst (batch_log_trades ts self)) /\
    (forall id days now, fst (get_strategy_performance id days now down)
                         = fst (get_strategy_performance id days now self)) /\
    (forall hours now, fst (get_recent_trades hours now down)
                       = fst (get_recent_trades hours now self)).
Proof.
  intros self down. subst down. rewrite shutdown_unfold. cbn [snd].
  split; [reflexivity|]. split.
  { intros fuel. destruct fuel; reflexivity. }
  split.
  { intros more.
    destruct (run_flags more (set_running self false)) as (_ & Hr & _).
    cbn [set_running running andb] in Hr.
    unfold _batch_processor_step. rewrite Hr.
    destruct (processor_alive _); reflexivity. }
  split.
  { cbn [exec]. unfold _batch_processor_step.
    change (processor_alive (set_running self false)) with (processor_alive self).
    change (running (set_running self false)) with false.
    destruct (processor_alive self) eqn:A;
      cbn [snd set_processor_alive set_running processor_alive];
      [reflexivity|exact A]. }
  split; [reflexivity|]. split.
  { intros c now. destruct c; cbn [do_call]; unfold discard.
    - rewrite ignores_running_log_trade. reflexivity.
    - rewrite ignores_running_log_strategy_metrics. reflexivity.
    - rewrite ignores_running_log_market_signal. reflexivity.
    - rewrite ignores_running_log_daily_performance. reflexivity.
    - rewrite ignores_running_batch_log_trades. reflexivity.
    - rewrite ignores_running_get_strategy_performance. reflexivity.
    - rewrite ignores_running_get_recent_trades. reflexivity.
    - reflexivity. }
  split; [intros; rewrite ignores_running_log_trade; reflexivity|].
  split; [intros; rewrite ignores_running_log_strategy_metrics; reflexivity|].
  split; [intros; rewrite ignores_running_log_market_signal; reflexivity|].
  split; [intros; rewrite ignores_running_log_daily_performance; reflexivity|].
  split; [intros; rewrite ignores_running_batch_log_trades; reflexivity|].
  split; [intros; rewrite ignores_running_get_strategy_performance; reflexivity|].
  intros; rewrite ignores_running_get_recent_trades; reflexivity.
Qed.

End LoggerState.

(* ================================================================== *)
(** ** The self-test of the main block *)

Section SelfTestRun.

Import SelfTest.
Local Open Scope string_scope.

Lemma log_strategy_metrics_eq m self :
  log_strategy_metrics m self =
  (Ok (negb (raises (fst (put_item CryonithStrategyMetrics (metric_item m)
                            (dynamodb self))))),
   set_dynamodb self (snd (put_item CryonithStrategyMetrics (metric_item m)
                             (dynamodb self)))).
Proof.
  rewrite log_strategy_metrics_unfold. unfold metric_item, asdict_metric.
  edestruct (direct_put_outcome CryonithStrategyMetrics) as (item & Hi & E).
  rewrite E, Hi. reflexivity.
Qed.

Lemma log_market_signal_eq g self :
  log_market_signal g self =
  (Ok (negb (raises (fst (put_item CryonithMarketSignals (signal_item g)
                            (dynamodb self))))),
   set_dynamodb self (snd (put_item CryonithMarketSignals (signal_item g)
                             (dynamodb self)))).
Proof.
  rewrite log_market_signal_unfold. unfold signal_item, asdict_signal.
  edestruct (direct_put_outcome CryonithMarketSignals) as (item & Hi & E).
  rewrite E, Hi. reflexivity.
Qed.

(** [simulate_ursus_trading] never raises: it returns the logger after
    three puts and has printed one line. *)
Lemma simulate_ursus_trading_eval r store :
  simulate_ursus_trading r store =
  (Ok tt,
   [TradeLogging
      (negb (raises (fst (put_item CryonithTradeLogs (trade_item (trade_of r))
                            store))))],
   __init__ "us-east-1" (after_simulation r store)).
Proof.
  unfold simulate_ursus_trading.
  change (TradeLog_init _ _ _ _ _ _ _ _ _ _ _ _) with (Ok (trade_of r)).
  change (StrategyMetric_init _ _ _ _ _ _ _ _ _) with (Ok (metrics_of r)).
  change (MarketSignal_init _ _ _ _ _ _ _ _) with (Ok (signal_of r)).
  cbv beta iota zeta.
  rewrite log_trade_eq. cbv beta iota.
  rewrite log_strategy_metrics_eq. cbv beta iota.
  rewrite log_market_signal_eq.
  unfold after_simulation, __init__, set_dynamodb.
  cbn [region_name dynamodb data_queue batch_size flush_interval running
         processor_alive].
  reflexivity.
Qed.

Lemma after_simulation_frame r store :
  reachable (after_simulation r store) = reachable store /\
  trade_logs (after_simulation r store)
  = trade_logs (snd (put_item CryonithTradeLogs (trade_item (trade_of r)) store)) /\
  calls (after_simulation r store)
  = (calls store ++
     [PutItem CryonithTradeLogs (trade_item (trade_of r));
      PutItem CryonithStrategyMetrics (metric_item (metrics_of r));
      PutItem CryonithMarketSignals (signal_item (signal_of r))])%list.
Proof.
  unfold after_simulation. cbv zeta.
  set (s1 := snd (put_item CryonithTradeLogs (trade_item (trade_of r)) store)).
  set (s2 := snd (put_item CryonithStrategyMetrics (metric_item (metrics_of r)) s1)).
  destruct (put_item_frame CryonithTradeLogs (trade_item (trade_of r)) store)
    as (R1 & _).
  destruct (put_item_frame CryonithStrategyMetrics (metric_item (metrics_of r)) s1)
    as (R2 & O2 & _).
  destruct (put_item_frame CryonithMarketSignals (signal_item (signal_of r)) s2)
    as (R3 & O3 & _).
  fold s1 in R1. fold s2 in R2, O2.
  split; [rewrite R3, R2, R1; reflexivity|]. split.
  - specialize (O3 CryonithTradeLogs). specialize (O2 CryonithTradeLogs).
    cbn [table] in O2, O3. rewrite O3, O2 by discriminate. reflexivity.
  - rewrite put_item_calls. subst s2. rewrite put_item_calls.
    subst s1. rewrite put_item_calls, <- !app_assoc. reflexivity.
Qed.

Lemma trade_of_accepted r store :
  negb (raises (fst (put_item CryonithTradeLogs (trade_item (trade_of r)) store)))
  = reachable store && keyed (key_schema (trade_logs store)) (trade_item (trade_of r)).
Proof.
  rewrite put_item_accepts, negb_involutive, serializable_trade_item.
  reflexivity.
Qed.

(** After line 305: the read accessor and [shutdown] with the name
    [logger] naming the data logger. *)
Lemma get_recent_trades_rebound hours now self :
  Method.get_recent_trades DataLogger hours now self =
  match bind (PyDatetime.hours hours) (PyDatetime.sub now) with
  | Ok cutoff_time =>
      (if reachable (dynamodb self)
       then Ok (filter (attr_gte "timestamp" (PyDatetime.isoformat cutoff_time))
                  (rows (trade_logs (dynamodb self))))
       else Raise (AttributeError "error"),
       set_dynamodb self
         (record_call (Scan CryonithTradeLogs "timestamp"
                         (PyDatetime.isoformat cutoff_time)) (dynamodb self)))
  | Raise _ => (Raise (AttributeError "error"), self)
  end.
Proof.
  unfold Method.get_recent_trades, Method.error, try_, mbind, lift, on_store,
    ret, scan, logger_call.
  destruct (PyDatetime.hours hours) as [delta|]; [|reflexivity].
  cbn [bind].
  destruct (PyDatetime.sub now delta) as [cutoff|]; [|reflexivity].
  cbn [reachable record_call].
  destruct (reachable (dynamodb self)); reflexivity.
Qed.

Lemma shutdown_rebound self :
  Method.shutdown DataLogger self
  = (Raise (AttributeError "info"), set_running self false).
Proof. reflexivity. Qed.

(** The main block with both variables set, in one expression. *)
Lemma main_eval env r store :
  filter (unset env) required_vars = [] ->
  main env r store =
  let b := negb (raises (fst (put_item CryonithTradeLogs
                                (trade_item (trade_of r)) store))) in
  let s3 := after_simulation r store in
  match PyDatetime.sub (now_recent r) 3600000000 with
  | Ok cutoff_time =>
      (1,
       ([TestingLogger; TradeLogging b; TestCompleted] ++
        (if reachable store
         then [RecentTradesInLastHour
                 (List.length
                    (filter (attr_gte "timestamp" (PyDatetime.isoformat cutoff_time))
                       (rows (trade_logs s3))));
               TestFailed (AttributeError "info")]
         else [TestFailed (AttributeError "error")]))%list,
       record_call (Scan CryonithTradeLogs "timestamp"
                      (PyDatetime.isoformat cutoff_time)) s3)
  | Raise _ =>
      (1, [TestingLogger; TradeLogging b; TestCompleted;
           TestFailed (AttributeError "error")], s3)
  end.
Proof.
  intros H. unfold main. cbv zeta. rewrite H.
  rewrite simulate_ursus_trading_eval, get_recent_trades_rebound.
  destruct (after_simulation_frame r store) as (Hreach & _).
  assert (H1 : PyDatetime.hours 1 = Ok 3600000000) by reflexivity.
  rewrite H1. cbn [bind dynamodb __init__]. rewrite Hreach.
  destruct (PyDatetime.sub (now_recent r) 3600000000) as [cutoff|];
    [|reflexivity].
  destruct (reachable store); [|reflexivity].
  rewrite shutdown_rebound. reflexivity.
Qed.

Lemma put_item_unreachable t it s :
  reachable s = false ->
  (forall tn, table (snd (put_item t it s)) tn = table s tn) /\
  reachable (snd (put_item t it s)) = false.
Proof.
  intros Hr. destruct (put_item_frame t it s) as (R & _ & _ & F).
  split; [|rewrite R; exact Hr].
  apply F. rewrite put_item_accepts, Hr, andb_false_r. reflexivity.
Qed.

(** X17.  The exit status and the lines of the main block: the status is
    1 on every run.  If one of the two credentials is unset or empty, the
    block prints the names of the missing ones with an [export] line
    each, exits and has not touched the store.  With both set it logs the
    three records, prints the trade line and the completion line, and
    then fails: line 305 has bound the module's name [logger] to the data
    logger, so the next logging call of a method raises
    [AttributeError].  When the scan goes through, the count line is
    printed and [shutdown] raises at its [logger.info]; otherwise the
    handler of [get_recent_trades] raises at its [logger.error].  The
    last line is the failure line with that error.  The client has been
    called with three [put_item] requests, one per table, and then at
    most once with [scan]. *)
Theorem main_exit_status :
  forall env r store,
    fst (fst (main env r store)) = 1 /\
    let missing := filter (unset env) required_vars in
    (missing <> [] ->
     main env r store =
     (1, ([TestingLogger; MissingVariables missing; SetThemWith]
            ++ map ExportLine missing)%list, store)) /\
    (missing = [] ->
     exists b tail s' scans,
       main env r store =
       (1, ([TestingLogger; TradeLogging b; TestCompleted] ++ tail)%list, s') /\
       (b = true ->
        reachable store = true /\
        keyed (key_schema (trade_logs store)) (trade_item (trade_of r)) = true) /\
       (tail = [TestFailed (AttributeError "error")] \/
        exists n, tail = [RecentTradesInLastHour n;
                          TestFailed (AttributeError "info")]) /\
       (reachable store = false -> tail = [TestFailed (AttributeError "error")]) /\
       calls s' =
       (calls store ++
        [PutItem CryonithTradeLogs (trade_item (trade_of r));
         PutItem CryonithStrategyMetrics (metric_item (metrics_of r));
         PutItem CryonithMarketSignals (signal_item (signal_of r))] ++ scans)%list /\
       (scans = [] \/
        exists cutoff, scans = [Scan CryonithTradeLogs "timestamp" cutoff])).
Proof.
  intros env r store.
  assert (Hmiss : filter (unset env) required_vars <> [] ->
                  main env r store =
                  (1, ([TestingLogger;
                        MissingVariables (filter (unset env) required_vars);
                        SetThemWith]
                         ++ map ExportLine (filter (unset env) required_vars))%list,
                   store)).
  { intros Hm. unfold main. cbv zeta.
    destruct (filter (unset env) required_vars) as [|v vs];
      [contradiction|reflexivity]. }
  assert (Hset : filter (unset env) required_vars = [] ->
     exists b tail s' scans,
       main env r store =
       (1, ([TestingLogger; TradeLogging b; TestCompleted] ++ tail)%list, s') /\
       (b = true ->
        reachable store = true /\
        keyed (key_schema (trade_logs store)) (trade_item (trade_of r)) = true) /\
       (tail = [TestFailed (AttributeError "error")] \/
        exists n, tail = [RecentTradesInLastHour n;
                          TestFailed (AttributeError "info")]) /\
       (reachable store = false -> tail = [TestFailed (AttributeError "error")]) /\
       calls s' =
       (calls store ++
        [PutItem CryonithTradeLogs (trade_item (trade_of r));
         PutItem CryonithStrategyMetrics (metric_item (metrics_of r));
         PutItem CryonithMarketSignals (signal_item (signal_of r))] ++ scans)%list /\
       (scans = [] \/
        exists cutoff, scans = [Scan CryonithTradeLogs "timestamp" cutoff])).
  { intros Hm. rewrite (main_eval env r store Hm). cbv zeta.
    destruct (after_simulation_frame r store) as (_ & _ & Hcalls).
    assert (Hb : negb (raises (fst (put_item CryonithTradeLogs
                                      (trade_item (trade_of r)) store))) = true ->
                 reachable store = true /\
                 keyed (key_schema (trade_logs store)) (trade_item (trade_of r))
                 = true).
    { rewrite trade_of_accepted. intros E. apply andb_true_iff in E. exact E. }
    destruct (PyDatetime.sub (now_recent r) 3600000000) as [cutoff|].
    - eexists. eexists. eexists.
      exists [Scan CryonithTradeLogs "timestamp" (PyDatetime.isoformat cutoff)].
      split; [reflexivity|]. split; [exact Hb|]. split; [|split; [|split]].
      + destruct (reachable store); [right; eexists; reflexivity|left; reflexivity].
      + intros Hr. rewrite Hr. reflexivity.
      + cbn [record_call calls]. rewrite Hcalls, <- app_assoc. reflexivity.
      + right. eexists. reflexivity.
    - eexists. exists [TestFailed (AttributeError "error")]. eexists. exists [].
      split; [reflexivity|]. split; [exact Hb|]. split; [left; reflexivity|].
      split; [reflexivity|]. split; [|left; reflexivity].
      rewrite Hcalls. reflexivity. }
  split; [|split; [exact Hmiss|exact Hset]].
  destruct (filter (unset env) required_vars) as [|v vs] eqn:E.
  - destruct (Hset eq_refl) as (b & tail & s' & scans & -> & _). reflexivity.
  - rewrite Hmiss by discriminate. reflexivity.
Qed.

(** X18.  With the store out of reach and both credentials set: the trade
    line says that logging failed, the completion line follows all the
    same, and the run ends in the handler of [get_recent_trades], whose
    [logger.error] raises; no count line is printed, the last line is the
    failure line, the exit status is 1, and no table has changed. *)
Theorem main_fails_without_the_store :
  forall env r store,
    filter (unset env) required_vars = [] ->
    reachable store = false ->
    exists s',
      main env r store =
      (1, [TestingLogger; TradeLogging false; TestCompleted;
           TestFailed (AttributeError "error")], s') /\
      forall t, table s' t = table store t.
Proof.
  intros env r store Hm Hr. rewrite (main_eval env r store Hm). cbv zeta.
  rewrite trade_of_accepted, Hr. cbn [andb].
  assert (Ht : forall t, table (after_simulation r store) t = table store t).
  { intros t. unfold after_simulation. cbv zeta.
    destruct (put_item_unreachable CryonithTradeLogs (trade_item (trade_of r))
                store Hr) as [T1 R1].
    destruct (put_item_unreachable CryonithStrategyMetrics
                (metric_item (metrics_of r)) _ R1) as [T2 R2].
    destruct (put_item_unreachable CryonithMarketSignals
                (signal_item (signal_of r)) _ R2) as [T3 _].
    rewrite T3, T2, T1. reflexivity. }
  destruct (PyDatetime.sub (now_recent r) 3600000000) as [cutoff|].
  - eexists. split; [reflexivity|].
    intros t. rewrite table_record_call. apply Ht.
  - eexists. split; [reflexivity|exact Ht].
Qed.

(** X18 at work: both credentials set, the store unreachable. *)
Lemma main_fails_without_the_store_witness :
  exists s',
    main full_environ sample_readings (Sample.store false Sample.snake_keys) =
    (1, [TestingLogger; TradeLogging false; TestCompleted;
         TestFailed (AttributeError "error")], s') /\
    forall t, table s' t = table (Sample.store false Sample.snake_keys) t.
Proof.
  apply (main_fails_without_the_store full_environ sample_readings
           (Sample.store false Sample.snake_keys)); reflexivity.
Defined.



End SelfTestRun.

(* ================================================================== *)
(** ** What is sent to the store *)

Section NoFloatSent.

Local Open Scope string_scope.

Lemma float_free_dict_set d k v :
  float_free (VDict d) = true -> float_free v = true ->
  float_free (VDict (dict_set d k v)) = true.
Proof.
  rewrite !float_free_dict. intros Hd Hv.
  induction d as [|[k0 v0] d IH]; cbn [dict_set forallb snd].
  - rewrite Hv. reflexivity.
  - cbn [forallb snd] in Hd. apply andb_true_iff in Hd. destruct Hd as [H0 Hd].
    destruct (String.eqb k0 k); cbn [forallb snd].
    + rewrite Hv, Hd. reflexivity.
    + rewrite H0, (IH Hd). reflexivity.
Qed.

Lemma float_free_dict_update other : forall d,
  float_free (VDict d) = true -> float_free (VDict other) = true ->
  float_free (VDict (dict_update d other)) = true.
Proof.
  unfold dict_update.
  induction other as [|[k v] other IH]; intros d Hd Ho; [exact Hd|].
  cbn [fold_left fst snd].
  rewrite float_free_dict in Ho. cbn [forallb snd] in Ho.
  apply andb_true_iff in Ho. destruct Ho as [Hv Ho].
  apply IH.
  - apply float_free_dict_set; assumption.
  - rewrite float_free_dict. exact Ho.
Qed.

Lemma float_free_daily_item date converted timestamp :
  float_free (VDict converted) = true ->
  float_free (VDict (daily_item date converted timestamp)) = true.
Proof.
  intros H. unfold daily_item.
  apply float_free_dict_set; [|reflexivity].
  apply float_free_dict_update; [|exact H].
  reflexivity.
Qed.

Lemma float_free_trade_item t : float_free (VDict (trade_item t)) = true.
Proof. apply (convert_float_free _ _ (trade_item_converted t)). Qed.

Lemma batch_calls_send_no_float bs :
  forallb sends_no_float (map batch_call bs) = true.
Proof.
  induction bs as [|b bs IH]; [reflexivity|].
  cbn [map forallb]. rewrite IH, andb_true_r.
  unfold sends_no_float, batch_call. cbn [call_items].
  induction b as [|t b IHb]; [reflexivity|].
  cbn [map forallb]. rewrite float_free_trade_item, IHb. reflexivity.
Qed.

(** What one event sends, on a logger with the batch size of [__init__]. *)
Lemma exec_sends_no_float self ev :
  batch_size self = 25%nat ->
  exists sent,
    calls (dynamodb (exec self ev)) = (calls (dynamodb self) ++ sent)%list /\
    forallb sends_no_float sent = true.
Proof.
  intros Hb.
  assert (None_sent : exists sent,
             calls (dynamodb self) = (calls (dynamodb self) ++ sent)%list /\
             forallb sends_no_float sent = true).
  { exists []. rewrite app_nil_r. auto. }
  assert (Put : forall t kvs,
             exists sent,
               calls (dynamodb (snd (try_
                  (item <~ lift (_convert_decimals (VDict kvs)) ;;
                   item <~ lift (as_item item) ;;
                   _ <~ on_store (put_item t item) ;;
                   ret true)
                  (fun _ => ret false) self)))
               = (calls (dynamodb self) ++ sent)%list /\
               forallb sends_no_float sent = true).
  { intros t kvs. destruct (direct_put t kvs self) as (item & Hc & _ & Hp).
    exists [PutItem t item]. split; [exact Hp|].
    cbn [forallb]. unfold sends_no_float. cbn [call_items forallb].
    rewrite (convert_float_free _ _ Hc). reflexivity. }
  destruct ev as [c now| |up]; cbn [exec].
  - destruct c as [t|m|g|date metrics|trades|id days|hours|];
      cbn [do_call]; unfold discard.
    + apply Put.
    + apply Put.
    + apply Put.
    + destruct (convert_dict_ok metrics) as (converted & Hc & _).
      exists [PutItem CryonithPerformance
                (daily_item date converted (PyDatetime.isoformat now))].
      split.
      * rewrite log_daily_performance_unfold. unfold try_, mbind, lift, on_store, ret.
        rewrite Hc. cbn [as_item].
        pose proof (put_item_calls CryonithPerformance
                      (daily_item date converted (PyDatetime.isoformat now))
                      (dynamodb self)) as Hp.
        destruct (put_item _ _ (dynamodb self)) as [[u|e] s']; exact Hp.
      * cbn [forallb]. unfold sends_no_float. cbn [call_items forallb].
        rewrite float_free_daily_item; [reflexivity|].
        apply (convert_float_free _ _ Hc).
    + destruct (batches_spec (List.length trades) trades (le_n _)) as (Hf & _).
      pose proof (fold_log_batch _ O (dynamodb self) Hf) as Hfold.
      cbn zeta in Hfold. destruct Hfold as (Hcalls & _).
      exists (map batch_call (batches (List.length trades) 25 trades)).
      split; [|apply batch_calls_send_no_float].
      rewrite batch_log_trades_unfold, Hb.
      destruct (fold_left _ _ _) as [count s']. exact Hcalls.
    + rewrite get_strategy_performance_unfold.
      unfold try_, mbind, lift, on_store, ret, query.
      destruct (PyDatetime.days days) as [delta|]; [|exact None_sent].
      destruct (PyDatetime.sub now delta) as [start|]; [|exact None_sent].
      exists [Query CryonithStrategyMetrics "StrategyId" id "Timestamp"
                (PyDatetime.isoformat start) (PyDatetime.isoformat now)].
      split; [|reflexivity].
      destruct (negb (reachable _)); [reflexivity|].
      destruct (range_key _) as [rk|]; [|reflexivity].
      destruct (_ && _)%bool; reflexivity.
    + rewrite get_recent_trades_unfold.
      unfold try_, mbind, lift, on_store, ret, scan.
      destruct (PyDatetime.hours hours) as [delta|]; [|exact None_sent].
      destruct (PyDatetime.sub now delta) as [cutoff|]; [|exact None_sent].
      exists [Scan CryonithTradeLogs "timestamp" (PyDatetime.isoformat cutoff)].
      split; [|reflexivity].
      destruct (negb (reachable _)); reflexivity.
    + exact None_sent.
  - unfold _batch_processor_step, _batch_processor_body.
    destruct (processor_alive self), (running self); exact None_sent.
  - exact None_sent.
Qed.

Lemma exec_batch_size self ev : batch_size (exec self ev) = batch_size self.
Proof.
  apply (f_equal (fun p => snd (fst p)) (exec_settings self ev)).
Qed.

Lemma run_sends_no_float evs : forall self,
  batch_size self = 25%nat ->
  exists sent,
    calls (dynamodb (run self evs)) = (calls (dynamodb self) ++ sent)%list /\
    forallb sends_no_float sent = true.
Proof.
  unfold run. induction evs as [|ev evs IH]; intros self Hb; cbn [fold_left].
  - exists []. rewrite app_nil_r. auto.
  - destruct (exec_sends_no_float self ev Hb) as (sent1 & E1 & F1).
    destruct (IH (exec self ev)) as (sent2 & E2 & F2).
    { rewrite exec_batch_size. exact Hb. }
    exists (sent1 ++ sent2)%list. split.
    + rewrite E2, E1, app_assoc. reflexivity.
    + rewrite forallb_app, F1, F2. reflexivity.
Qed.

(** X20.  No float that [_convert_decimals] can reach is ever sent to the
    store.  Whatever is called on a logger after [__init__], in any order
    and with any arguments, every item of every [put_item] and
    [batch_write_item] request is free of floats at every place reached
    through dicts and lists; earlier calls are never altered.  A float
    inside a tuple of a metrics mapping is not reached: it is sent as it
    is. *)
Theorem no_reachable_float_is_sent :
  (forall region store evs,
    exists sent,
      calls (dynamodb (run (__init__ region store) evs))
      = (calls store ++ sent)%list /\
      forallb sends_no_float sent = true) /\
  (forall self date now x,
      calls (dynamodb (snd (log_daily_performance date
                              [("weights", VTuple [VFloat x])] now self)))
      = (calls (dynamodb self) ++
         [PutItem CryonithPerformance
            (daily_item date [("weights", VTuple [VFloat x])]
               (PyDatetime.isoformat now))])%list /\
      no_float (VDict (daily_item date [("weights", VTuple [VFloat x])]
                         (PyDatetime.isoformat now))) = false).
Proof.
  split.
  - intros region store evs.
    apply (run_sends_no_float evs (__init__ region store)). reflexivity.
  - intros self date now x. split.
    + rewrite log_daily_performance_unfold.
      unfold try_, mbind, lift, on_store, ret.
      change (_convert_decimals (VDict [("weights", VTuple [VFloat x])]))
        with (Ok (VDict [("weights", VTuple [VFloat x])])).
      cbn [as_item].
      pose proof (put_item_calls CryonithPerformance
                    (daily_item date [("weights", VTuple [VFloat x])]
                       (PyDatetime.isoformat now))
                    (dynamodb self)) as Hp.
      destruct (put_item _ _ (dynamodb self)) as [[u|e] s']; exact Hp.
    + reflexivity.
Qed.

End NoFloatSent.

(* ================================================================== *)
(** ** Daily performance, one row per date *)

Section DailyRows.

Local Open Scope string_scope.

Lemma dict_get_update_absent other : forall d k,
  existsb (String.eqb k) (keys other) = false ->
  dict_get (dict_update d other) k = dict_get d k.
Proof.
  unfold dict_update.
  induction other as [|[k1 v1] other IH]; intros d k H; [reflexivity|].
  cbn [keys map fst existsb] in H. apply orb_false_iff in H.
  destruct H as [H1 H2].
  cbn [fold_left fst snd]. rewrite (IH _ _ H2), dict_get_set.
  rewrite String.eqb_sym, H1. reflexivity.
Qed.

Lemma daily_item_key date converted timestamp :
  keeps_tag_and_date converted = true ->
  key_of performance_keys (daily_item date converted timestamp)
  = Some ("DAILY_PERFORMANCE", Some date).
Proof.
  unfold keeps_tag_and_date, in_set. intros H.
  apply andb_true_iff in H. destruct H as [Hm Hd].
  apply negb_true_iff in Hm. apply negb_true_iff in Hd.
  unfold key_of, daily_item. cbn [performance_keys hash_key range_key].
  rewrite !dict_get_set.
  rewrite (dict_get_update_absent converted _ _ Hm).
  rewrite (dict_get_update_absent converted _ _ Hd).
  reflexivity.
Qed.

Lemma log_daily_performance_eq date metrics now self :
  log_daily_performance date metrics now self =
  (Ok (negb (raises (fst (put_item CryonithPerformance
                            (daily_item date (converted_metrics metrics)
                               (PyDatetime.isoformat now))
                            (dynamodb self))))),
   set_dynamodb self
     (snd (put_item CryonithPerformance
             (daily_item date (converted_metrics metrics)
                (PyDatetime.isoformat now))
             (dynamodb self)))) /\
  keys (converted_metrics metrics) = keys metrics.
Proof.
  destruct (convert_dict_ok metrics) as (converted & Hc & Hk & _).
  unfold converted_metrics. rewrite Hc. cbn [bind as_item].
  split; [|exact Hk].
  rewrite log_daily_performance_unfold. unfold try_, mbind, lift, on_store, ret.
  rewrite Hc. cbn [as_item].
  destruct (put_item _ _ (dynamodb self)) as [[u|e] s']; reflexivity.
Qed.

(** A put that went through, as a row operation on its table. *)
Lemma put_item_ok_table t it s :
  raises (fst (put_item t it s)) = false ->
  exists k,
    key_of (key_schema (table s t)) it = Some k /\
    table (snd (put_item t it s)) t = put_row (table s t) k it.
Proof.
  unfold put_item. rewrite table_record_call.
  destruct (negb (serializable (VDict it))); [discriminate|].
  destruct (negb (reachable _)); [discriminate|].
  destruct (key_of _ it) as [k|]; [|discriminate].
  intros _. exists k. split; [reflexivity|]. cbn [snd]. apply table_set_table.
Qed.

(** A put under a key that a row already has adds no row. *)
Lemma upsert_length ks k it r rs :
  In r rs -> has_key ks k r = true ->
  List.length (upsert ks k it rs) = List.length rs.
Proof.
  induction rs as [|x rs IH]; cbn [upsert In]; [contradiction|].
  intros Hin Hk. destruct (has_key ks k x) eqn:E; [reflexivity|].
  cbn [List.length]. f_equal. apply IH; [|exact Hk].
  destruct Hin as [->|Hin]; [congruence|exact Hin].
Qed.

(** X21.  One row per date.  On a performance table keyed on
    [MetricType] and [Date], with metrics that use neither name, a second
    [log_daily_performance] for the same date replaces the row of the
    first: both calls returning [True], the table has as many rows after
    the second as after the first, and the later item is among them,
    whatever the two metrics mappings and time stamps are. *)
Theorem daily_performance_keeps_one_row_per_date :
  forall self date m1 m2 now1 now2,
    key_schema (performance (dynamodb self)) = performance_keys ->
    keeps_tag_and_date m1 = true ->
    keeps_tag_and_date m2 = true ->
    fst (log_daily_performance date m1 now1 self) = Ok true ->
    fst (log_daily_performance date m2 now2
           (snd (log_daily_performance date m1 now1 self))) = Ok true ->
    List.length
      (rows (performance (dynamodb
         (snd (log_daily_performance date m2 now2
                 (snd (log_daily_performance date m1 now1 self)))))))
    = List.length
        (rows (performance (dynamodb
           (snd (log_daily_performance date m1 now1 self))))) /\
    In (daily_item date (converted_metrics m2) (PyDatetime.isoformat now2))
       (rows (performance (dynamodb
          (snd (log_daily_performance date m2 now2
                  (snd (log_daily_performance date m1 now1 self))))))).
Proof.
  intros self date m1 m2 now1 now2 Hks K1 K2 H1 H2.
  destruct (log_daily_performance_eq date m1 now1 self) as [E1 Hk1].
  rewrite E1 in *. cbn [fst snd] in *.
  set (it1 := daily_item date (converted_metrics m1) (PyDatetime.isoformat now1))
    in *.
  set (s1 := snd (put_item CryonithPerformance it1 (dynamodb self))) in *.
  destruct (log_daily_performance_eq date m2 now2 (set_dynamodb self s1))
    as [E2 Hk2].
  rewrite E2 in *. cbn [fst snd dynamodb set_dynamodb] in *.
  set (it2 := daily_item date (converted_metrics m2) (PyDatetime.isoformat now2))
    in *.
  assert (R1 : raises (fst (put_item CryonithPerformance it1 (dynamodb self)))
               = false).
  { apply (f_equal (fun r => match r with Ok b => b | Raise _ => false end)) in H1.
    cbv beta iota in H1. apply negb_true_iff in H1. exact H1. }
  assert (R2 : raises (fst (put_item CryonithPerformance it2 s1)) = false).
  { apply (f_equal (fun r => match r with Ok b => b | Raise _ => false end)) in H2.
    cbv beta iota in H2. apply negb_true_iff in H2. exact H2. }
  destruct (put_item_ok_table _ _ _ R1) as (k1 & Hkey1 & T1).
  destruct (put_item_ok_table _ _ _ R2) as (k2 & Hkey2 & T2).
  destruct (put_item_frame CryonithPerformance it1 (dynamodb self))
    as (_ & _ & S1 & _).
  specialize (S1 CryonithPerformance). fold s1 in T1, S1.
  cbn [table] in Hkey1, Hkey2, T1, T2, S1.
  rewrite S1, Hks in Hkey2. rewrite Hks in Hkey1.
  subst it1 it2.
  rewrite daily_item_key in Hkey1 by (unfold keeps_tag_and_date; rewrite Hk1; exact K1).
  rewrite daily_item_key in Hkey2 by (unfold keeps_tag_and_date; rewrite Hk2; exact K2).
  injection Hkey1 as <-. injection Hkey2 as <-.
  rewrite T2. cbn [put_row rows]. split; [|apply upsert_In].
  rewrite T1. cbn [put_row rows key_schema]. rewrite Hks.
  apply (upsert_length _ _ _
           (daily_item date (converted_metrics m1) (PyDatetime.isoformat now1)));
    [apply upsert_In|].
  unfold has_key.
  rewrite daily_item_key by (unfold keeps_tag_and_date; rewrite Hk1; exact K1).
  apply key_eqb_refl.
Qed.

(** X21 at work: two logs for 2026-11-03 on an empty table. *)
Lemma daily_performance_keeps_one_row_per_date_witness :
  let self := Sample.logger true Sample.snake_keys in
  let m1 := [("pnl", VFloat (PyFloat.of_ratio 275050 100))] in
  let m2 := [("pnl", VFloat (PyFloat.of_ratio 3 2));
             ("win_rate", VFloat (PyFloat.of_ratio 68 100))] in
  List.length
    (rows (performance (dynamodb
       (snd (log_daily_performance "2026-11-03" m2 (Sample.now + 1000)
               (snd (log_daily_performance "2026-11-03" m1 Sample.now self)))))))
  = List.length
      (rows (performance (dynamodb
         (snd (log_daily_performance "2026-11-03" m1 Sample.now self))))) /\
  In (daily_item "2026-11-03" (converted_metrics m2)
        (PyDatetime.isoformat (Sample.now + 1000)))
     (rows (performance (dynamodb
        (snd (log_daily_performance "2026-11-03" m2 (Sample.now + 1000)
                (snd (log_daily_performance "2026-11-03" m1 Sample.now self))))))).
Proof.
  intros self m1 m2.
  apply (daily_performance_keeps_one_row_per_date self "2026-11-03" m1 m2
           Sample.now (Sample.now + 1000)); vm_compute; reflexivity.
Defined.

End DailyRows.

(* ================================================================== *)
(** ** The stored Decimal reads back as the float *)

Section FloatRoundTrip.

Import PyFloat PyDecimal Shape.

Lemma int_of_digits_cons c l :
  int_of_digits (c :: l)
  = (digit_val c * 10 ^ N.of_nat (List.length l) + int_of_digits l)%N.
Proof.
  change (c :: l) with ([c] ++ l)%list. rewrite int_of_digits_app.
  f_equal.
Qed.

Lemma digit_val_le c : (digit_val c <= 9)%N.
Proof.
  destruct c as [[] [] [] [] [] [] [] []]; cbn; lia.
Qed.

Lemma int_of_digits_lt l : (int_of_digits l < 10 ^ N.of_nat (List.length l))%N.
Proof.
  induction l as [|c l IH]; [cbn; lia|].
  rewrite int_of_digits_cons. cbn [List.length].
  rewrite Nat2N.inj_succ, N.pow_succ_r'.
  pose proof (digit_val_le c). nia.
Qed.

Lemma uint_chars_head u :
  u <> Decimal.Nil -> (forall u', u <> Decimal.D0 u') ->
  exists c l, uint_chars u = c :: l /\ (1 <= digit_val c)%N.
Proof.
  destruct u; intros Hn H0; try contradiction;
    try (eexists; eexists; split; [reflexivity|cbn; lia]).
  exfalso. apply (H0 u). reflexivity.
Qed.

Lemma to_uint_head p :
  Pos.to_uint p <> Decimal.Nil /\ forall u', Pos.to_uint p <> Decimal.D0 u'.
Proof.
  split; [apply DecimalPos.Unsigned.to_uint_nonnil|].
  intros u' E.
  pose proof (DecimalPos.Unsigned.to_of (Pos.to_uint p)) as H.
  rewrite DecimalPos.Unsigned.of_to in H. cbn [N.to_uint] in H.
  unfold Decimal.unorm in H.
  destruct (Decimal.nzhead (Pos.to_uint p)) eqn:N;
    try (rewrite E in H; discriminate H).
  - apply (DecimalPos.Unsigned.to_uint_nonzero p). exact H.
  - exact (DecimalFacts.nzhead_nonzero _ _ N).
Qed.

(** The number of decimal digits of a positive integer. *)
Lemma ndigits_bounds z :
  0 < z -> 10 ^ (ndigits z - 1) <= z < 10 ^ ndigits z /\ 1 <= ndigits z.
Proof.
  intros Hz. unfold ndigits.
  pose proof (int_of_digits_of_Z z (Z.lt_le_incl _ _ Hz)) as V.
  unfold digits_of_Z in *.
  destruct (Z.to_N z) as [|p] eqn:E; [lia|]. cbn [N.to_uint] in *.
  destruct (to_uint_head p) as [Hn H0].
  destruct (uint_chars_head _ Hn H0) as (c & l & Hc & Hd).
  rewrite Hc in *. cbn [List.length].
  pose proof (int_of_digits_lt (c :: l)) as U. cbn [List.length] in U.
  rewrite int_of_digits_cons in V.
  pose proof (int_of_digits_lt l) as Ul.
  rewrite Nat2Z.inj_succ.
  replace (Z.succ (Z.of_nat (List.length l)) - 1) with (Z.of_nat (List.length l)) by lia.
  assert (P : Z.of_N (10 ^ N.of_nat (List.length l)) = 10 ^ Z.of_nat (List.length l)).
  { rewrite N2Z.inj_pow. rewrite nat_N_Z. reflexivity. }
  rewrite Z.pow_succ_r by lia.
  split; [|lia]. rewrite <- P. split.
  - rewrite <- V. rewrite N2Z.inj_add, N2Z.inj_mul.
    assert (0 <= Z.of_N (int_of_digits l)) by lia.
    assert (0 < Z.of_N (10 ^ N.of_nat (List.length l))).
    { rewrite P. apply Z.pow_pos_nonneg; lia. }
    nia.
  - rewrite <- V, int_of_digits_cons in *.
    rewrite Nat2N.inj_succ, N.pow_succ_r' in U. lia.
Qed.


(** *** Scaling *)

Lemma scaled_mul q k den : scaled q k den = q * scaled 1 k den.
Proof. unfold scaled. destruct (0 <=? k); ring. Qed.

Lemma scaled_ref_mul z k : scaled_ref z k = z * scaled_ref 1 k.
Proof. unfold scaled_ref. destruct (0 <=? k); ring. Qed.

Lemma scaled_pos k den : 0 < den -> 0 < scaled 1 k den.
Proof.
  intros H. unfold scaled. destruct (0 <=? k) eqn:E; [|lia].
  apply Z.leb_le in E. assert (0 < 10 ^ k) by (apply Z.pow_pos_nonneg; lia). nia.
Qed.

Lemma scaled_ref_pos k : 0 < scaled_ref 1 k.
Proof.
  unfold scaled_ref. destruct (0 <=? k) eqn:E; [lia|].
  apply Z.leb_gt in E. assert (0 < 10 ^ (- k)) by (apply Z.pow_pos_nonneg; lia). lia.
Qed.

(** [scaled 1 k den / scaled_ref 1 k] is [den * 10^k]. *)
Lemma scaled_shift k j den :
  0 <= j ->
  scaled 1 k den * scaled_ref 1 (k + j) * 10 ^ j
  = scaled 1 (k + j) den * scaled_ref 1 k.
Proof.
  intros Hj. unfold scaled, scaled_ref.
  destruct (0 <=? k) eqn:Ek, (0 <=? k + j) eqn:Ekj;
    try apply Z.leb_le in Ek; try apply Z.leb_gt in Ek;
    try apply Z.leb_le in Ekj; try apply Z.leb_gt in Ekj; try lia.
  - rewrite Z.pow_add_r by lia. ring.
  - replace j with ((k + j) + (- k)) at 1 by lia.
    rewrite Z.pow_add_r by lia. ring.
  - replace (- k) with (- (k + j) + j) by lia.
    rewrite Z.pow_add_r by lia. ring.
Qed.

(** *** The decimal exponent *)

Lemma ilog10_neg_spec n d : forall fuel j,
  1 <= j -> n * 10 ^ (j - 1) < d -> d <= n * 10 ^ (j + Z.of_nat fuel) ->
  exists j', ilog10_neg fuel n d j = - j' /\ j <= j' /\
             d <= n * 10 ^ j' /\ n * 10 ^ (j' - 1) < d.
Proof.
  induction fuel as [|fuel IH]; intros j Hj Hlt Hle; cbn [ilog10_neg].
  - exists j. rewrite Z.add_0_r in Hle. repeat split; auto; lia.
  - destruct (d <=? n * 10 ^ j) eqn:E.
    + apply Z.leb_le in E. exists j. repeat split; auto; lia.
    + apply Z.leb_gt in E.
      destruct (IH (j + 1)) as (j' & E' & Hj' & H1 & H2).
      * lia.
      * replace (j + 1 - 1) with j by lia. exact E.
      * replace (j + 1 + Z.of_nat fuel) with (j + Z.of_nat (S fuel)) by lia.
        exact Hle.
      * exists j'. repeat split; auto; lia.
Qed.

Lemma ilog10_spec n d :
  0 < n -> 0 < d ->
  let p := ilog10 n d in
  scaled 1 p d <= scaled_ref n p /\ scaled_ref n (p + 1) < scaled 1 (p + 1) d.
Proof.
  intros Hn Hd p. subst p. unfold ilog10.
  destruct (d <=? n) eqn:E.
  - apply Z.leb_le in E.
    assert (Hq : 0 < n / d) by (apply Z.div_str_pos; lia).
    destruct (ndigits_bounds (n / d) Hq) as [[L U] Hp].
    set (p := ndigits (n / d) - 1) in *.
    replace (ndigits (n / d)) with (p + 1) in U by (subst p; lia).
    assert (Hp0 : 0 <= p) by lia. clearbody p.
    unfold scaled, scaled_ref.
    replace (0 <=? p) with true by (symmetry; apply Z.leb_le; lia).
    replace (0 <=? p + 1) with true by (symmetry; apply Z.leb_le; lia).
    pose proof (Z.mul_div_le n d Hd) as M1.
    pose proof (Z.mul_succ_div_gt n d Hd) as M2.
    split; nia.
  - apply Z.leb_gt in E.
    destruct (ilog10_neg_spec n d (Z.to_nat (Z.log2 d) + 2) 1)
      as (j & Ej & Hj & H1 & H2).
    + lia.
    + simpl. lia.
    + pose proof (Z.log2_nonneg d) as L0.
      destruct (Z.log2_spec d Hd) as [_ L].
      assert (P : 2 ^ Z.succ (Z.log2 d) <= 10 ^ Z.succ (Z.log2 d))
        by (apply Z.pow_le_mono_l; lia).
      assert (Q : 10 ^ Z.succ (Z.log2 d) <= 10 ^ (1 + Z.of_nat (Z.to_nat (Z.log2 d) + 2)))
        by (apply Z.pow_le_mono_r; lia).
      nia.
    + rewrite Ej. unfold scaled, scaled_ref.
      replace (0 <=? - j) with false by (symmetry; apply Z.leb_gt; lia).
      rewrite Z.opp_involutive.
      destruct (0 <=? - j + 1) eqn:E1.
      * apply Z.leb_le in E1. assert (j = 1) by lia. subst j.
        change (10 ^ (-1 + 1)) with 1. change (10 ^ (1 - 1)) with 1 in H2. lia.
      * replace (- (- j + 1)) with (j - 1) by lia. lia.
Qed.

(** *** The candidates of [shortest] *)

Lemma nearest_cases v den q k : nearest v den q k = q \/ nearest v den q k = q + 1.
Proof.
  unfold nearest.
  destruct (_ <? _); [auto|]. destruct (_ <? _); [auto|]. destruct (Z.even q); auto.
Qed.

Lemma floor_candidate v den k :
  0 < den -> 0 <= v ->
  let q := scaled_ref v k / scaled 1 k den in
  0 <= q /\ scaled q k den <= scaled_ref v k < scaled (q + 1) k den.
Proof.
  intros Hd Hv q. subst q.
  pose proof (scaled_pos k den Hd) as S.
  pose proof (scaled_ref_pos k) as R.
  rewrite (scaled_mul (_ / _)), (scaled_mul (_ / _ + 1)).
  assert (0 <= scaled_ref v k) by (rewrite scaled_ref_mul; nia).
  split; [apply Z.div_pos; lia|].
  pose proof (Z.mul_div_le (scaled_ref v k) _ S).
  pose proof (Z.mul_succ_div_gt (scaled_ref v k) _ S).
  lia.
Qed.

Lemma nearest_close v den q k :
  scaled q k den <= scaled_ref v k < scaled (q + 1) k den ->
  2 * Z.abs (scaled (nearest v den q k) k den - scaled_ref v k) <= scaled 1 k den.
Proof.
  intros [L U]. unfold nearest.
  rewrite (scaled_mul (q + 1)) in *. rewrite (scaled_mul q) in *.
  set (S := scaled 1 k den) in *. set (x := scaled_ref v k) in *.
  destruct (x - q * S <? (q + 1) * S - x) eqn:E1.
  - apply Z.ltb_lt in E1. rewrite scaled_mul. fold S. lia.
  - apply Z.ltb_ge in E1.
    destruct ((q + 1) * S - x <? x - q * S) eqn:E2.
    + apply Z.ltb_lt in E2. rewrite scaled_mul. fold S. lia.
    + apply Z.ltb_ge in E2.
      destruct (Z.even q); rewrite scaled_mul; fold S; lia.
Qed.

Section Shortest.

Variables (even : bool) (v lo hi den p : Z).
Hypothesis den_pos : 0 < den.
Hypothesis v_pos : 0 < v.
(** With 17 digits, the grid is finer than the interval. *)
Hypothesis fine_lo :
  scaled 1 (p - 16) den < 2 * (scaled_ref v (p - 16) - scaled_ref lo (p - 16)).
Hypothesis fine_hi :
  scaled 1 (p - 16) den < 2 * (scaled_ref hi (p - 16) - scaled_ref v (p - 16)).

Lemma shortest_in_interval : forall fuel n,
  n + Z.of_nat fuel = 17 ->
  let r := shortest fuel even v lo hi den p n in
  in_interval even lo hi den (fst r) (snd r) = true /\ 0 <= fst r /\
  p - 16 <= snd r.
Proof.
  induction fuel as [|fuel IH]; intros n Hn; cbn [shortest].
  - replace (p - n + 1) with (p - 16) by lia. cbn [fst snd].
    destruct (floor_candidate v den (p - 16) den_pos (Z.lt_le_incl _ _ v_pos))
      as [Q0 B].
    set (q := scaled_ref v (p - 16) / scaled 1 (p - 16) den) in *.
    pose proof (nearest_close v den q (p - 16) B) as C.
    split; [|split; [destruct (nearest_cases v den q (p - 16)) as [-> | ->]; lia|lia]].
    unfold in_interval.
    destruct even; [apply andb_true_iff; split; apply Z.leb_le
                   |apply andb_true_iff; split; apply Z.ltb_lt]; lia.
  - cbv zeta.
    set (k := p - n + 1).
    destruct (floor_candidate v den k den_pos (Z.lt_le_incl _ _ v_pos)) as [Q0 B].
    set (q := scaled_ref v k / scaled 1 k den) in *.
    destruct (in_interval even lo hi den q k) eqn:A,
             (in_interval even lo hi den (q + 1) k) eqn:A';
      cbn [andb fst snd].
    + split; [|split; [|lia]];
        destruct (nearest_cases v den q k) as [-> | ->]; auto; lia.
    + split; [assumption|lia].
    + split; [assumption|lia].
    + apply IH. lia.
Qed.

End Shortest.

(** *** Rounding to a double *)

Lemma within_spec c a b : within c a b = true <-> Within c a b.
Proof.
  unfold within, Within. destruct c; [apply Z.leb_le|apply Z.ltb_lt].
Qed.

Lemma Within_scale c a b s : 0 < s -> Within c a b <-> Within c (a * s) (b * s).
Proof.
  intros H. unfold Within. destruct c.
  - apply Z.mul_le_mono_pos_r. exact H.
  - apply Z.mul_lt_mono_pos_r. exact H.
Qed.

Lemma Within_eq c a b a' b' : a = a' -> b = b' -> Within c a b -> Within c a' b'.
Proof. intros -> ->. auto. Qed.

Lemma in_interval_spec c lo hi den q k :
  in_interval c lo hi den q k = true <->
  Within c (scaled_ref lo k) (scaled q k den) /\
  Within c (scaled q k den) (scaled_ref hi k).
Proof.
  unfold in_interval, Within. destruct c; rewrite andb_true_iff.
  - rewrite !Z.leb_le. reflexivity.
  - rewrite !Z.ltb_lt. reflexivity.
Qed.

(** *** Valid doubles *)

Lemma digits2_pos_size m : digits2_pos m = Pos.size m.
Proof. induction m; cbn [digits2_pos Pos.size]; congruence. Qed.

Lemma digits2_pos_gt m : Z.pos m < 2 ^ Z.pos (digits2_pos m).
Proof.
  rewrite digits2_pos_size. pose proof (Pos.size_gt m) as H.
  change 2 with (Z.pos 2). rewrite <- Pos2Z.inj_pow. exact H.
Qed.

Lemma bounded_normalized m e :
  bounded prec emax m e = true ->
  normalize_mantissa m e = (Z.pos m, e) /\ Z.pos m < 2 ^ prec /\
  3 - emax - prec <= e.
Proof.
  unfold bounded, canonical_mantissa, fexp, emin, normalize_mantissa, prec, emax.
  intros H. apply andb_true_iff in H. destruct H as [C _].
  apply Z.eqb_eq in C.
  pose proof (digits2_pos_gt m) as G.
  set (dg := Z.pos (digits2_pos m)) in *.
  assert (D : dg <= 53) by lia.
  split; [|split; [|lia]].
  - replace (0 <? Z.min (53 - dg) (e - (3 - 1024 - 53))) with false; [reflexivity|].
    symmetry. apply Z.ltb_ge. lia.
  - assert (2 ^ dg <= 2 ^ 53) by (apply Z.pow_le_mono_r; lia). lia.
Qed.

(** *** Trailing zeros *)

Lemma strip_zeros_rev_app l :
  exists j, l = repeat "0"%char j ++ strip_zeros_rev l.
Proof.
  induction l as [|c l [j IH]].
  - exists 0%nat. reflexivity.
  - destruct (Ascii.eqb_spec c "0"%char) as [-> | N].
    + exists (S j). cbn [strip_zeros_rev repeat app]. f_equal. exact IH.
    + exists 0%nat. cbn [repeat app].
      destruct c as [[] [] [] [] [] [] [] []]; try reflexivity.
      exfalso. apply N. reflexivity.
Qed.

Lemma rev_repeat {A} (a : A) j : rev (repeat a j) = repeat a j.
Proof.
  induction j as [|j IH]; [reflexivity|].
  cbn [repeat rev]. rewrite IH. symmetry. apply repeat_cons.
Qed.

Lemma strip_trailing_zeros_app l :
  exists j, l = strip_trailing_zeros l ++ repeat "0"%char j.
Proof.
  destruct l as [|d l]; [exists 0%nat; reflexivity|].
  cbn [strip_trailing_zeros].
  destruct (strip_zeros_rev_app (rev l)) as [j E]. exists j.
  cbn [app]. f_equal.
  rewrite <- (rev_involutive l) at 1. rewrite E at 1.
  rewrite rev_app_distr, rev_repeat. reflexivity.
Qed.

Lemma int_of_digits_repeat_zero j : int_of_digits (repeat "0"%char j) = 0%N.
Proof.
  induction j as [|j IH]; [reflexivity|].
  cbn [repeat]. rewrite int_of_digits_zero_cons. exact IH.
Qed.

Lemma strip_trailing_zeros_value l :
  exists j,
    Z.of_N (int_of_digits l)
    = Z.of_N (int_of_digits (strip_trailing_zeros l)) * 10 ^ Z.of_nat j /\
    List.length l = (List.length (strip_trailing_zeros l) + j)%nat.
Proof.
  destruct (strip_trailing_zeros_app l) as [j E]. exists j. split.
  - rewrite E at 1. rewrite int_of_digits_app, int_of_digits_repeat_zero, repeat_length.
    rewrite N.add_0_r, N2Z.inj_mul, N2Z.inj_pow, nat_N_Z. reflexivity.
  - rewrite E at 1. rewrite length_app, repeat_length. reflexivity.
Qed.

(** *** The grid of 17 digits against the interval *)

Lemma grid_fine m mul den :
  0 < mul -> 0 < den -> 0 < m ->
  let p := ilog10 (4 * m * mul) den in
  scaled 1 (p - 16) den * 10 ^ 16 <= 4 * m * (mul * scaled_ref 1 (p - 16)).
Proof.
  intros Hmul Hden Hm p.
  assert (V : 0 < 4 * m * mul) by nia.
  destruct (ilog10_spec (4 * m * mul) den V Hden) as [L _]. fold p in L.
  pose proof (scaled_shift (p - 16) 16 den ltac:(lia)) as E.
  replace (p - 16 + 16) with p in E by lia.
  rewrite scaled_ref_mul in L.
  pose proof (scaled_ref_pos p) as Bp.
  pose proof (scaled_ref_pos (p - 16)) as B16.
  set (S16 := scaled 1 (p - 16) den) in *. set (Sp := scaled 1 p den) in *.
  set (bp := scaled_ref 1 p) in *. set (b16 := scaled_ref 1 (p - 16)) in *.
  set (T := 10 ^ 16) in *.
  apply (Z.mul_le_mono_pos_r _ _ bp Bp).
  replace (S16 * T * bp) with (S16 * bp * T) by ring. rewrite E.
  replace (4 * m * (mul * b16) * bp) with (4 * m * mul * bp * b16) by ring.
  apply Z.mul_le_mono_nonneg_r; lia.
Qed.

Lemma scaled_den q k den : scaled q k den = scaled q k 1 * den.
Proof. unfold scaled. destruct (0 <=? k); ring. Qed.

(** *** From the interval of the model to the rounding of the double *)

Lemma bridge_lo c L x y N D mul den up dn :
  0 < y -> 0 < D -> 0 < den -> 0 < dn ->
  x * D = N * y -> 4 * mul * dn = up * den ->
  Within c (L * mul * y) (x * den) -> Within c (L * up * D) (4 * N * dn).
Proof.
  intros Hy HD Hden Hdn E P H.
  apply (Within_scale c _ _ (y * den)); [nia|].
  apply (Within_scale c _ _ (4 * dn * D)) in H; [|nia].
  eapply Within_eq; [| |exact H].
  - replace (L * up * D * (y * den)) with (L * D * y * (up * den)) by ring.
    rewrite <- P. ring.
  - replace (4 * N * dn * (y * den)) with (4 * dn * den * (N * y)) by ring.
    rewrite <- E. ring.
Qed.

Lemma bridge_hi c H4 x y N D mul den up dn :
  0 < y -> 0 < D -> 0 < den -> 0 < dn ->
  x * D = N * y -> 4 * mul * dn = up * den ->
  Within c (x * den) (H4 * mul * y) -> Within c (4 * N * dn) (H4 * up * D).
Proof.
  intros Hy HD Hden Hdn E P H.
  apply (Within_scale c _ _ (y * den)); [nia|].
  apply (Within_scale c _ _ (4 * dn * D)) in H; [|nia].
  eapply Within_eq; [| |exact H].
  - replace (4 * N * dn * (y * den)) with (4 * dn * den * (N * y)) by ring.
    rewrite <- E. ring.
  - replace (H4 * up * D * (y * den)) with (H4 * D * y * (up * den)) by ring.
    rewrite <- P. ring.
Qed.

Lemma Within_double c a b : Within c (2 * a) (2 * b) -> Within c a b.
Proof. unfold Within. destruct c; lia. Qed.

(** The scale of the model against the powers of two of the double. *)
Lemma binary_scale e :
  let den := if 0 <=? e - 2 then 1 else 2 ^ (2 - e) in
  let mul := if 0 <=? e - 2 then 2 ^ (e - 2) else 1 in
  0 < den /\ 0 < mul /\ 0 < 2 ^ Z.max 0 (- e) /\
  4 * mul * 2 ^ Z.max 0 (- e) = 2 ^ Z.max 0 e * den.
Proof.
  cbv zeta. destruct (0 <=? e - 2) eqn:E.
  - apply Z.leb_le in E.
    replace (Z.max 0 (- e)) with 0 by lia. replace (Z.max 0 e) with e by lia.
    assert (0 < 2 ^ (e - 2)) by (apply Z.pow_pos_nonneg; lia).
    repeat split; try lia.
    replace e with (2 + (e - 2)) at 2 by lia.
    rewrite Z.pow_add_r by lia. change (2 ^ 2) with 4. change (2 ^ 0) with 1. ring.
  - apply Z.leb_gt in E.
    assert (0 < 2 ^ (2 - e)) by (apply Z.pow_pos_nonneg; lia).
    assert (0 < 2 ^ Z.max 0 (- e)) by (apply Z.pow_pos_nonneg; lia).
    repeat split; try lia.
    destruct (Z.le_gt_cases 0 e) as [P | P].
    + replace (Z.max 0 (- e)) with 0 by lia. replace (Z.max 0 e) with e by lia.
      change (2 ^ 0) with 1.
      replace 4 with (2 ^ (e + (2 - e))) by (replace (e + (2 - e)) with 2 by lia; reflexivity).
      rewrite Z.pow_add_r by lia. ring.
    + replace (Z.max 0 (- e)) with (- e) by lia. replace (Z.max 0 e) with 0 by lia.
      change (2 ^ 0) with 1.
      replace (2 - e) with (2 + - e) by lia.
      rewrite Z.pow_add_r by lia. change (2 ^ 2) with 4. ring.
Qed.

(** *** The digits [dtoa] returns *)

Lemma dtoa_in_interval m e :
  bounded prec emax m e = true ->
  let den := if 0 <=? e - 2 then 1 else 2 ^ (2 - e) in
  let mul := if 0 <=? e - 2 then 2 ^ (e - 2) else 1 in
  let lo := if (Z.pos m =? 2 ^ (prec - 1)) && (3 - emax - prec <? e)
            then 4 * Z.pos m - 1 else 4 * Z.pos m - 2 in
  exists q k,
    0 <= q /\
    dtoa m e = (strip_trailing_zeros (digits_of_Z q),
                k + Z.of_nat (List.length (digits_of_Z q))) /\
    in_interval (Z.even (Z.pos m)) (lo * mul) ((4 * Z.pos m + 2) * mul) den q k
      = true.
Proof.
  intros Hb den mul lo.
  destruct (bounded_normalized m e Hb) as (Hn & Hm & _).
  destruct (binary_scale e) as (Hden & Hmul & _ & _). fold den in Hden. fold mul in Hmul.
  unfold dtoa. rewrite Hn. unfold interval. fold lo. fold den. fold mul.
  set (p := ilog10 (4 * Z.pos m * mul) den).
  pose proof (grid_fine (Z.pos m) mul den Hmul Hden ltac:(lia)) as G.
  cbv zeta in G. fold p in G.
  pose proof (scaled_ref_pos (p - 16)) as B16.
  assert (W : 0 < mul * scaled_ref 1 (p - 16)) by nia.
  assert (Hlo : lo = 4 * Z.pos m - 2 \/
               (lo = 4 * Z.pos m - 1 /\ Z.pos m = 2 ^ (prec - 1))).
  { subst lo. destruct (Z.pos m =? 2 ^ (prec - 1)) eqn:E1; [|auto].
    apply Z.eqb_eq in E1. destruct (3 - emax - prec <? e); auto. }
  destruct (shortest_in_interval (Z.even (Z.pos m)) (4 * Z.pos m * mul) (lo * mul)
              ((4 * Z.pos m + 2) * mul) den p Hden ltac:(nia)) with (fuel := 16%nat) (n := 1)
    as (I & Q & _).
  - rewrite (scaled_ref_mul (4 * Z.pos m * mul)), (scaled_ref_mul (lo * mul)).
    set (b := scaled_ref 1 (p - 16)) in *. set (S16 := scaled 1 (p - 16) den) in *.
    set (w := mul * b) in *.
    replace (4 * Z.pos m * mul * b - lo * mul * b) with ((4 * Z.pos m - lo) * w)
      by (subst w; ring).
    unfold prec in *.
    change (2 ^ 53) with 9007199254740992 in Hm.
    change (10 ^ 16) with 10000000000000000 in G.
    destruct Hlo as [-> | [-> E1]].
    + replace (4 * Z.pos m - (4 * Z.pos m - 2)) with 2 by lia. nia.
    + change (2 ^ (53 - 1)) with 4503599627370496 in E1. rewrite E1 in *.
      replace (4 * 4503599627370496 - (4 * 4503599627370496 - 1)) with 1 by lia.
      nia.
  - rewrite (scaled_ref_mul (4 * Z.pos m * mul)), (scaled_ref_mul ((4 * Z.pos m + 2) * mul)).
    set (b := scaled_ref 1 (p - 16)) in *. set (S16 := scaled 1 (p - 16) den) in *.
    set (w := mul * b) in *.
    replace ((4 * Z.pos m + 2) * mul * b - 4 * Z.pos m * mul * b) with (2 * w)
      by (subst w; ring).
    unfold prec in *.
    change (2 ^ 53) with 9007199254740992 in Hm.
    change (10 ^ 16) with 10000000000000000 in G.
    nia.
  - reflexivity.
  - destruct (shortest 16 (Z.even (Z.pos m)) (4 * Z.pos m * mul) (lo * mul)
                ((4 * Z.pos m + 2) * mul) den p 1) as [q k].
    cbn [fst snd] in I, Q. exists q, k. auto.
Qed.

(** *** The decimal that is stored *)

Lemma to_fraction_scaled s c k :
  to_fraction (Finite s c k)
  = Some (if s then - scaled (Z.of_N c) k 1 else scaled (Z.of_N c) k 1,
          scaled_ref 1 k).
Proof.
  unfold to_fraction, scaled, scaled_ref.
  destruct s, (0 <=? k); f_equal; f_equal; ring.
Qed.

Lemma to_fraction_pos d f : to_fraction d = Some f -> 0 < snd f.
Proof.
  destruct d as [s c k| |]; try discriminate.
  rewrite to_fraction_scaled. intros H. injection H as <-. apply scaled_ref_pos.
Qed.

Lemma same_value_fraction a b g :
  same_value a b -> to_fraction b = Some g ->
  exists f, to_fraction a = Some f /\ same_number f g.
Proof.
  unfold same_value. intros H Hb. rewrite Hb in H.
  destruct (to_fraction a) as [f|] eqn:Ha.
  - eauto.
  - subst a. congruence.
Qed.

(** The magnitude [q * 10^k] that [dtoa] found, against the fraction of
    the decimal spelled by its digits. *)
Lemma spelled_fraction s m e q k :
  0 <= q ->
  dtoa m e = (strip_trailing_zeros (digits_of_Z q),
              k + Z.of_nat (List.length (digits_of_Z q))) ->
  exists N D,
    to_fraction (spelled (S754_finite s m e))
    = Some (if s then - N else N, D) /\ 0 < D /\
    scaled q k 1 * D = N * scaled_ref 1 k.
Proof.
  intros Hq E. unfold spelled. rewrite E.
  destruct (strip_trailing_zeros_value (digits_of_Z q)) as (j & V & L).
  rewrite int_of_digits_of_Z in V by exact Hq.
  set (ds := strip_trailing_zeros (digits_of_Z q)) in *.
  set (c := Z.of_N (int_of_digits ds)) in *.
  replace (k + Z.of_nat (List.length (digits_of_Z q)) - Z.of_nat (List.length ds))
    with (k + Z.of_nat j) by lia.
  rewrite to_fraction_scaled. fold c.
  exists (scaled c (k + Z.of_nat j) 1), (scaled_ref 1 (k + Z.of_nat j)).
  split; [reflexivity|]. split; [apply scaled_ref_pos|].
  rewrite (scaled_mul q), (scaled_mul c), V.
  pose proof (scaled_shift k (Z.of_nat j) 1 ltac:(lia)) as S.
  replace (c * scaled 1 (k + Z.of_nat j) 1 * scaled_ref 1 k)
    with (c * (scaled 1 (k + Z.of_nat j) 1 * scaled_ref 1 k)) by ring.
  rewrite <- S. ring.
Qed.

Lemma same_number_trans_abs (s : bool) n d N D x y :
  0 < D -> 0 < y ->
  same_number (n, d) (if s then - N else N, D) ->
  x * D = N * y ->
  x * d = (if s then - n else n) * y.
Proof.
  unfold same_number. cbn [fst snd]. intros HD Hy E1 E2.
  apply (Z.mul_cancel_r _ _ D); [lia|].
  destruct s.
  - replace (- n * y * D) with (- (n * D) * y) by ring. rewrite E1.
    replace (x * d * D) with (x * D * d) by ring. rewrite E2. ring.
  - replace (n * y * D) with (n * D * y) by ring. rewrite E1.
    replace (x * d * D) with (x * D * d) by ring. rewrite E2. ring.
Qed.

Lemma rounds_to_stored s m e d :
  bounded prec emax m e = true ->
  same_value d (spelled (S754_finite s m e)) ->
  exists f, to_fraction d = Some f /\ 0 < snd f /\
            rounds_to (S754_finite s m e) f = true.
Proof.
  intros Hb Hv.
  destruct (dtoa_in_interval m e Hb) as (q & k & Hq & E & I).
  destruct (spelled_fraction s m e q k Hq E) as (N & D & F & HD & X).
  destruct (same_value_fraction _ _ _ Hv F) as ([n dd] & Fd & Sn).
  exists (n, dd). split; [exact Fd|].
  pose proof (to_fraction_pos _ _ Fd) as Hdd. cbn [snd] in Hdd.
  split; [exact Hdd|].
  pose proof (scaled_ref_pos k) as Hy.
  pose proof (same_number_trans_abs s n dd N D _ _ HD Hy Sn X) as X'.
  destruct (binary_scale e) as (Hden & Hmul & Hdn & P). cbv zeta in *.
  set (den := if 0 <=? e - 2 then 1 else 2 ^ (2 - e)) in *.
  set (mul := if 0 <=? e - 2 then 2 ^ (e - 2) else 1) in *.
  apply in_interval_spec in I. destruct I as [Ilo Ihi].
  rewrite scaled_ref_mul, scaled_den in Ilo.
  rewrite scaled_ref_mul, scaled_den in Ihi.
  cbn [rounds_to].
  set (n' := if s then - n else n) in *.
  apply andb_true_iff. split.
  - revert Ilo.
    destruct ((Z.pos m =? 2 ^ (prec - 1)) && (3 - emax - prec <? e));
      intros Ilo; apply within_spec.
    + apply (bridge_lo _ (4 * Z.pos m - 1) (scaled q k 1) (scaled_ref 1 k) n' dd mul den
               (2 ^ Z.max 0 e) (2 ^ Z.max 0 (- e))); auto.
    + apply Within_double.
      eapply Within_eq; [| |apply (bridge_lo _ (4 * Z.pos m - 2) (scaled q k 1) (scaled_ref 1 k) n' dd mul den
               (2 ^ Z.max 0 e) (2 ^ Z.max 0 (- e))); auto];
        ring.
  - apply within_spec. apply Within_double.
    eapply Within_eq; [| |apply (bridge_hi _ (4 * Z.pos m + 2) (scaled q k 1) (scaled_ref 1 k) n' dd mul den
               (2 ^ Z.max 0 e) (2 ^ Z.max 0 (- e))); auto];
      ring.
Qed.

(** X22.  What is stored for a float reads back as that float.  For every
    binary64 float [x] that is a number, [_convert_decimals] returns a
    Decimal whose value rounds to [x] under round-half-to-even: it lies
    within half the gap between [x] and the next double on its side, so
    [float(d)] is [x] again.  On [0.1]: the decimal 0.1 rounds to it, as
    does the exact value of the double, and 0.10000000000000002 does
    not. *)
Theorem stored_decimal_rounds_to_the_float :
  (forall x,
      is_binary64 x = true -> finite x = true ->
      exists d f,
        _convert_decimals (VFloat x) = Ok (VDecimal d) /\
        to_fraction d = Some f /\ 0 < snd f /\ rounds_to x f = true) /\
  rounds_to (of_ratio 1 10) (1, 10) = true /\
  rounds_to (of_ratio 1 10)
    (1000000000000000055511151231257827, 10 ^ 34) = true /\
  rounds_to (of_ratio 1 10) (10000000000000002, 10 ^ 17) = false /\
  rounds_to (of_ratio 1 10) (9999999999999999, 10 ^ 17) = false.
Proof.
  split; [|repeat split; vm_compute; reflexivity].
  intros x Hx Hf.
  destruct (of_str_str_spelled x) as (d & Hd & Hv).
  destruct x as [s|s| |s m e]; try discriminate Hf.
  - exists d. rewrite convert_float, Hd.
    destruct s; injection Hd as <-; eexists; (split; [reflexivity|]);
      (split; [reflexivity|]); split; [reflexivity|vm_compute; reflexivity
                                      |reflexivity|vm_compute; reflexivity].
  - destruct (rounds_to_stored s m e d Hx Hv) as (f & F & P & R).
    exists d, f. rewrite convert_float, Hd. auto.
Qed.

Lemma stored_decimal_rounds_to_the_float_witness :
  exists d f,
    _convert_decimals (VFloat (of_ratio 1 10)) = Ok (VDecimal d) /\
    to_fraction d = Some f /\ 0 < snd f /\ rounds_to (of_ratio 1 10) f = true.
Proof.
  apply (proj1 stored_decimal_rounds_to_the_float (of_ratio 1 10));
    vm_compute; reflexivity.
Defined.

End FloatRoundTrip.
